(** * xmpp-bot: settings validation, handler registry and message dispatch

    A shallow embedding of [xmpp_bot/config/settings.py],
    [xmpp_bot/config/constants.py], [xmpp_bot/exceptions.py],
    [xmpp_bot/handlers.py], [xmpp_bot/bot.py] and
    [tools/send_test_message.py].

    Conventions of the embedding.
    - A Python [str] is a [string]; each character stands for one code
      point below 256, so [lower] and [strip] follow Python's tables on
      that range.
    - A [frozenset[str]] is a [gset string]; a [dict] whose iteration
      order is observable ([dict.values()] in the dispatch loops) is an
      insertion-ordered association list.
    - The two async handler mappings, which the dispatch iterates
      through the live view [dict.values()], are [LiveDict]s: the
      association list and a count of its structural changes, so that the
      iterator fails where Python's does.
    - A handler is kept by identity; what a call of it does, to the bot
      included, is given by a [HandlerWorld].
    - A call that may raise returns a [Result]; methods of the bot run in
      the monad [M], which threads the bot object, collects the observable
      effects (log records, transport calls, handler invocations) and
      carries the raised exception, if any. *)

From Stdlib Require Import Ascii String ZArith PrimFloat DecimalString.
From stdpp Require Import base option list strings gmap.

Local Open Scope string_scope.
Local Open Scope list_scope.
Local Open Scope stdpp_scope.

(* ===================================================================== *)
(** ** Python strings                                                     *)
(* ===================================================================== *)

Module PyStr.

Definition between (lo hi n : nat) : bool := Nat.leb lo n && Nat.leb n hi.

(** [str.isspace] on one code point below 256. *)
Definition is_space (c : ascii) : bool :=
  let n := nat_of_ascii c in
  between 9 13 n || between 28 32 n || Nat.eqb n 133 || Nat.eqb n 160.

(** [str.lower] on one code point below 256. *)
Definition lower_char (c : ascii) : ascii :=
  let n := nat_of_ascii c in
  if between 65 90 n || between 192 214 n || between 216 222 n
  then ascii_of_nat (n + 32) else c.

Fixpoint lower (s : string) : string :=
  match s with
  | EmptyString => EmptyString
  | String c s' => String (lower_char c) (lower s')
  end.

Fixpoint lstrip_by (p : ascii -> bool) (s : string) : string :=
  match s with
  | EmptyString => EmptyString
  | String c s' => if p c then lstrip_by p s' else s
  end.

Fixpoint rstrip_by (p : ascii -> bool) (s : string) : string :=
  match s with
  | EmptyString => EmptyString
  | String c s' =>
      match rstrip_by p s' with
      | EmptyString => if p c then EmptyString else String c EmptyString
      | r => String c r
      end
  end.

(** [s.strip()] *)
Definition strip (s : string) : string :=
  rstrip_by is_space (lstrip_by is_space s).

(** [s.lstrip(c)] and [s.rstrip(c)] for a one-character argument. *)
Definition lstrip_char (c : ascii) (s : string) : string :=
  lstrip_by (Ascii.eqb c) s.
Definition rstrip_char (c : ascii) (s : string) : string :=
  rstrip_by (Ascii.eqb c) s.

(** [s.split(sep)] for a one-character separator: never empty. *)
Fixpoint split (sep : ascii) (s : string) : list string :=
  match s with
  | EmptyString => [EmptyString]
  | String c s' =>
      if Ascii.eqb c sep then EmptyString :: split sep s'
      else match split sep s' with
           | hd :: tl => String c hd :: tl
           | [] => [String c EmptyString]
           end
  end.

(** [s.split(sep)[0]] *)
Definition split_head (sep : ascii) (s : string) : string :=
  match split sep s with
  | hd :: _ => hd
  | [] => EmptyString
  end.

(** [c in s] for a one-character [c]. *)
Fixpoint contains (c : ascii) (s : string) : bool :=
  match s with
  | EmptyString => false
  | String d s' => Ascii.eqb d c || contains c s'
  end.

(** Truth value of a string: [bool(s)]. *)
Definition truthy (s : string) : bool :=
  match s with EmptyString => false | _ => true end.

End PyStr.

(* ===================================================================== *)
(** ** Regular expressions (the fragment [JID_PATTERN] is written in)     *)
(* ===================================================================== *)

Module Regex.

Inductive regex : Type :=
| Void
| Eps
| Chr (c : ascii)
| NotIn (cs : list ascii)        (* a negated class [^...] *)
| Cat (r1 r2 : regex)
| Alt (r1 r2 : regex)
| Star (r : regex).

(** [r+] and [(?:r)?] *)
Definition Plus (r : regex) : regex := Cat r (Star r).
Definition Opt (r : regex) : regex := Alt r Eps.

Fixpoint mem_ascii (c : ascii) (cs : list ascii) : bool :=
  match cs with
  | [] => false
  | d :: cs' => Ascii.eqb c d || mem_ascii c cs'
  end.

Fixpoint nullable (r : regex) : bool :=
  match r with
  | Void => false
  | Eps => true
  | Chr _ => false
  | NotIn _ => false
  | Cat r1 r2 => nullable r1 && nullable r2
  | Alt r1 r2 => nullable r1 || nullable r2
  | Star _ => true
  end.

Fixpoint deriv (a : ascii) (r : regex) : regex :=
  match r with
  | Void => Void
  | Eps => Void
  | Chr c => if Ascii.eqb a c then Eps else Void
  | NotIn cs => if mem_ascii a cs then Void else Eps
  | Cat r1 r2 =>
      if nullable r1 then Alt (Cat (deriv a r1) r2) (deriv a r2)
      else Cat (deriv a r1) r2
  | Alt r1 r2 => Alt (deriv a r1) (deriv a r2)
  | Star r1 => Cat (deriv a r1) (Star r1)
  end.

(** Does [r] match the whole of [w]? *)
Fixpoint fullmatch (r : regex) (w : list ascii) : bool :=
  match w with
  | [] => nullable r
  | a :: w' => fullmatch (deriv a r) w'
  end.

(** The language of a regular expression. *)
Inductive lang : regex -> list ascii -> Prop :=
| lang_eps : lang Eps []
| lang_chr c : lang (Chr c) [c]
| lang_notin cs a : mem_ascii a cs = false -> lang (NotIn cs) [a]
| lang_cat r1 r2 u v : lang r1 u -> lang r2 v -> lang (Cat r1 r2) (u ++ v)
| lang_alt_l r1 r2 u : lang r1 u -> lang (Alt r1 r2) u
| lang_alt_r r1 r2 u : lang r2 u -> lang (Alt r1 r2) u
| lang_star_nil r : lang (Star r) []
| lang_star_cons r u v :
    lang r u -> lang (Star r) v -> lang (Star r) (u ++ v).

(** [pattern$] under [re.match], without [re.MULTILINE]: the pattern
    matches a prefix that ends at the end of the string or just before
    a newline that is the string's last character. *)
Definition newline : ascii := ascii_of_nat 10.

Definition drop_last_newline (w : list ascii) : option (list ascii) :=
  match rev w with
  | c :: w' => if Ascii.eqb c newline then Some (rev w') else None
  | [] => None
  end.

Definition match_dollar (r : regex) (s : string) : bool :=
  let w := list_ascii_of_string s in
  fullmatch r w ||
  match drop_last_newline w with
  | Some w' => fullmatch r w'
  | None => false
  end.

End Regex.

(* ===================================================================== *)
(** ** exceptions.py, with the built-in classes the code raises or catches *)
(* ===================================================================== *)

Inductive ExcClass : Type :=
  (* built-in *)
  | BaseException | Exception
  | KeyboardInterrupt | SystemExit | CancelledError
  | ValueError | TypeError | AssertionError | RuntimeError
  (* exceptions.py *)
  | XmppBotError
  | ConfigurationError
  | ConnectionError
  | AuthenticationError
  | NotInitializedError
  | AlreadyInitializedError
  | SendError
  | HandlerError
  | HandlerExistsError
  | HandlerNotFoundError
  | AccessDeniedError.

#[global] Instance ExcClass_eq_dec : EqDecision ExcClass.
Proof. solve_decision. Defined.

(** The base class written in each [class] statement. *)
Definition base_class (c : ExcClass) : option ExcClass :=
  match c with
  | BaseException => None
  | Exception => Some BaseException
  | KeyboardInterrupt => Some BaseException
  | SystemExit => Some BaseException
  | CancelledError => Some BaseException
  | ValueError => Some Exception
  | TypeError => Some Exception
  | AssertionError => Some Exception
  | RuntimeError => Some Exception
  | XmppBotError => Some Exception
  | ConfigurationError => Some XmppBotError
  | ConnectionError => Some XmppBotError
  | AuthenticationError => Some ConnectionError
  | NotInitializedError => Some XmppBotError
  | AlreadyInitializedError => Some XmppBotError
  | SendError => Some XmppBotError
  | HandlerError => Some XmppBotError
  | HandlerExistsError => Some HandlerError
  | HandlerNotFoundError => Some HandlerError
  | AccessDeniedError => Some XmppBotError
  end.

Fixpoint issubclass_upto (fuel : nat) (c d : ExcClass) : bool :=
  bool_decide (c = d) ||
  match fuel with
  | O => false
  | S fuel' =>
      match base_class c with
      | Some b => issubclass_upto fuel' b d
      | None => false
      end
  end.

(** The deepest chain, [AuthenticationError] to [BaseException], has four
    links. *)
Definition issubclass (c d : ExcClass) : bool := issubclass_upto 4 c d.

(** An exception object: its class, [str(e)], and [__cause__]. *)
#[warnings="-register-all"]
Inductive PyExc : Type :=
  mkExc (cls : ExcClass) (msg : string) (cause : option PyExc).

Definition exc_class (e : PyExc) : ExcClass := let 'mkExc c _ _ := e in c.
Definition exc_msg (e : PyExc) : string := let 'mkExc _ m _ := e in m.
Definition exc_cause (e : PyExc) : option PyExc := let 'mkExc _ _ k := e in k.

Definition isinstance (e : PyExc) (c : ExcClass) : bool :=
  issubclass (exc_class e) c.

(** The result of a call that may raise. *)
Inductive Result (A : Type) : Type :=
| Ok (a : A)
| Raise (e : PyExc).
Arguments Ok {A} a.
Arguments Raise {A} e.

Definition rbind {A B} (r : Result A) (k : A -> Result B) : Result B :=
  match r with
  | Ok a => k a
  | Raise e => Raise e
  end.

Definition raises {A} (r : Result A) (c : ExcClass) : Prop :=
  match r with
  | Ok _ => False
  | Raise e => isinstance e c = true
  end.

(* ===================================================================== *)
(** ** config/constants.py                                                *)
(* ===================================================================== *)

Module Constants.

Definition ENV_JID := "XMPP_JID".
Definition ENV_PASSWORD := "XMPP_PASSWORD".
Definition ENV_DEFAULT_RECEIVER := "XMPP_DEFAULT_RECEIVER".
Definition ENV_BASE_URL := "XMPP_BASE_URL".
Definition ENV_ALLOWED_JIDS := "XMPP_ALLOWED_JIDS".
Definition ENV_CONNECT_TIMEOUT := "XMPP_CONNECT_TIMEOUT".
Definition ENV_KEEPALIVE_INTERVAL := "XMPP_KEEPALIVE_INTERVAL".
Definition ENV_RETRY_DELAY := "XMPP_RETRY_DELAY".
Definition ENV_SEND_DELAY := "XMPP_SEND_DELAY".
Definition ENV_RESOURCE := "XMPP_RESOURCE".
Definition ENV_DEBUG := "XMPP_DEBUG".

Definition DEFAULT_CONNECT_TIMEOUT : Z := 30.
Definition DEFAULT_KEEPALIVE_INTERVAL : Z := 60.
Definition DEFAULT_RETRY_DELAY : float := 5.0%float.
#[warnings="-inexact-float"]
Definition DEFAULT_SEND_DELAY : float := 0.1%float.
Definition DEFAULT_RESOURCE := "xmpp-bot".
Definition DEFAULT_DEBUG : bool := false.

Definition ERR_JID_REQUIRED := "JID is required".
Definition ERR_PASSWORD_REQUIRED := "Password is required".
Definition ERR_DEFAULT_RECEIVER_REQUIRED := "Default receiver is required".
(** The [str.format] templates, as functions of their one field. *)
Definition ERR_INVALID_JID (jid : string) := "Invalid JID format: " +:+ jid.
Definition ERR_AUTH_FAILED (jid : string) :=
  "Authentication failed for " +:+ jid.
Definition ERR_NOT_INITIALIZED :=
  "Bot is not initialized. Call initialize() first.".
Definition ERR_ALREADY_INITIALIZED := "Bot is already initialized".
Definition ERR_SEND_FAILED (recipient : string) :=
  "Failed to send message to " +:+ recipient.
Definition ERR_HANDLER_EXISTS (name : string) :=
  "Handler '" +:+ name +:+ "' already registered".
Definition ERR_HANDLER_NOT_FOUND (name : string) :=
  "Handler '" +:+ name +:+ "' not found".

Definition LOG_CONNECTING (jid : string) :=
  "Connecting to XMPP server as " +:+ jid +:+ "...".
Definition LOG_CONNECTED := "Connected to XMPP server".
Definition LOG_AUTH_SUCCESS := "Authentication successful".
Definition LOG_DISCONNECTING := "Disconnecting from XMPP server...".
Definition LOG_DISCONNECTED := "Disconnected from XMPP server".
Definition LOG_SENDING_MESSAGE (recipient : string) :=
  "Sending message to " +:+ recipient.
Definition LOG_MESSAGE_SENT (recipient : string) :=
  "Message sent to " +:+ recipient.
Definition LOG_MESSAGE_RECEIVED (sender : string) :=
  "Message received from " +:+ sender.
Definition LOG_PRESENCE_RECEIVED (sender status : string) :=
  "Presence received from " +:+ sender +:+ ": " +:+ status.
Definition LOG_HANDLER_REGISTERED (name : string) :=
  "Handler '" +:+ name +:+ "' registered".
Definition LOG_HANDLER_REMOVED (name : string) :=
  "Handler '" +:+ name +:+ "' removed".
Definition LOG_SUBSCRIPTION_APPROVED (jid : string) :=
  "Subscription request approved for " +:+ jid.

Definition MESSAGE_CHAT := "chat".
Definition MESSAGE_NORMAL := "normal".

End Constants.

(* ===================================================================== *)
(** ** Insertion-ordered dictionaries with string keys                    *)
(* ===================================================================== *)

Module PyDict.
Section Dict.
Context {V : Type}.

Definition dict : Type := list (string * V).

Definition empty : dict := [].

(** [name in d] *)
Fixpoint contains (name : string) (d : dict) : bool :=
  match d with
  | [] => false
  | (k, _) :: d' => if decide (k = name) then true else contains name d'
  end.

(** [d.get(name)] *)
Fixpoint get (name : string) (d : dict) : option V :=
  match d with
  | [] => None
  | (k, v) :: d' => if decide (k = name) then Some v else get name d'
  end.

(** [d[name] = v]: an existing key keeps its place, a new key goes
    last. *)
Fixpoint set (name : string) (v : V) (d : dict) : dict :=
  match d with
  | [] => [(name, v)]
  | (k, x) :: d' =>
      if decide (k = name) then (k, v) :: d' else (k, x) :: set name v d'
  end.

(** [del d[name]], for a key that is present. *)
Fixpoint del (name : string) (d : dict) : dict :=
  match d with
  | [] => []
  | (k, x) :: d' =>
      if decide (k = name) then d' else (k, x) :: del name d'
  end.

Definition keys (d : dict) : list string := map fst d.

(** [d.values()] *)
Definition values (d : dict) : list V := map snd d.
End Dict.
Arguments dict V : clear implicits.
End PyDict.

(** A dict that is iterated while a loop body may change it (the two
    async handler mappings of the bot). Besides its items it counts the
    structural changes it has seen, a key inserted or deleted; replacing
    the value of a key that is present is not one. An iterator of the
    interpreter tells from this count and from the size whether the dict
    it walks is still the one it started on. *)
Module LiveDict.
Section Live.
Context {V : Type}.

Record dict : Type := mkDict {
  items : PyDict.dict V;
  changes : nat
}.

(** [{}] *)
Definition empty : dict := mkDict [] 0.

(** [name in d] *)
Definition contains (name : string) (d : dict) : bool :=
  PyDict.contains name (items d).

(** [d.get(name)] *)
Definition get (name : string) (d : dict) : option V :=
  PyDict.get name (items d).

(** [d[name] = v] *)
Definition set (name : string) (v : V) (d : dict) : dict :=
  mkDict (PyDict.set name v (items d))
         (if PyDict.contains name (items d) then changes d
          else S (changes d)).

(** [del d[name]], for a key that is present. *)
Definition del (name : string) (d : dict) : dict :=
  mkDict (PyDict.del name (items d)) (S (changes d)).

(** [d.clear()] *)
Definition clear (d : dict) : dict := mkDict [] (S (changes d)).

Definition keys (d : dict) : list string := PyDict.keys (items d).

(** [list(d.values())] *)
Definition values (d : dict) : list V := PyDict.values (items d).

(** [len(d)] *)
Definition size (d : dict) : nat := length (items d).
End Live.
Arguments dict V : clear implicits.
End LiveDict.

(** What [next] gives on the iterator of a dict view. *)
Inductive IterStep (V : Type) : Type :=
| iter_yield (v : V)
| iter_stop
| iter_error (msg : string).
Arguments iter_yield {V} v.
Arguments iter_stop {V}.
Arguments iter_error {V} msg.

(* ===================================================================== *)
(** ** Python objects and the built-ins the code calls                    *)
(* ===================================================================== *)

(** The values a settings mapping holds. [PStrs] stands for a [list],
    [set] or [frozenset] of strings. *)
Inductive PyObj : Type :=
| PNone
| PBool (b : bool)
| PInt (z : Z)
| PFloat (f : float)
| PStr (s : string)
| PStrs (l : list string).

(** [bool(o)] *)
Definition py_bool (o : PyObj) : bool :=
  match o with
  | PNone => false
  | PBool b => b
  | PInt z => negb (Z.eqb z 0)
  | PFloat f => negb (PrimFloat.eqb f 0%float)
  | PStr s => PyStr.truthy s
  | PStrs l => match l with [] => false | _ => true end
  end.

(** [int(s)], [float(s)] and the rendering [str(o)] of an object that is
    not a string belong to the interpreter. The code relies on one fact
    about the first two: when they reject their argument they raise
    [ValueError].

    So does the step of a dict iterator over a dict whose keys changed
    under it while its size is the same again: the language leaves open
    whether the iterator raises [RuntimeError] or walks on over some of
    the entries, and what an interpreter does depends on how it lays the
    dict out. [py_dict_iter_modified start yielded now] is that step, for
    an iterator created on [start] that has yielded [yielded] values and
    finds [now]. *)
Class PyRuntime : Type := {
  py_int : string -> Result Z;
  py_float : string -> Result float;
  py_repr : PyObj -> string;
  py_dict_iter_modified :
    forall V : Type,
      LiveDict.dict V -> nat -> LiveDict.dict V -> IterStep V;
  py_int_raises : forall s e, py_int s = Raise e -> exc_class e = ValueError;
  py_float_raises :
    forall s e, py_float s = Raise e -> exc_class e = ValueError
}.
Arguments py_dict_iter_modified {_ V} start yielded now.

(** [str(o)] *)
Definition py_str `{PyRuntime} (o : PyObj) : string :=
  match o with
  | PStr s => s
  | _ => py_repr o
  end.

(* ===================================================================== *)
(** ** config/settings.py                                                 *)
(* ===================================================================== *)

Module Config.
Import Constants.

(** [re.compile(r"^[^@]+@[^@/]+(?:/[^@]+)?$")] *)
Definition JID_PATTERN : Regex.regex :=
  let at_ := "@"%char in
  let slash := "/"%char in
  Regex.Cat (Regex.Plus (Regex.NotIn [at_]))
    (Regex.Cat (Regex.Chr at_)
       (Regex.Cat (Regex.Plus (Regex.NotIn [at_; slash]))
          (Regex.Opt
             (Regex.Cat (Regex.Chr slash)
                (Regex.Plus (Regex.NotIn [at_])))))).

Definition JID_PATTERN_match (jid : string) : bool :=
  Regex.match_dollar JID_PATTERN jid.

Definition _validate_jid (jid : string) (field_name : string)
  : Result unit :=
  if negb (JID_PATTERN_match jid)
  then Raise (mkExc ValueError (ERR_INVALID_JID jid) None)
  else Ok tt.

Definition _parse_bool (value : option string) (default : bool) : bool :=
  match value with
  | None => default
  | Some v =>
      bool_decide (PyStr.lower v ∈ ["true"; "1"; "yes"; "on"])
  end.

(** [for jid in jids: _validate_jid(jid, "allowed JID")] *)
Fixpoint validate_each (jids : list string) : Result unit :=
  match jids with
  | [] => Ok tt
  | jid :: rest =>
      rbind (_validate_jid jid "allowed JID") (fun _ => validate_each rest)
  end.

(** [[jid.strip() for jid in value.split(",") if jid.strip()]] *)
Definition stripped_entries (value : string) : list string :=
  omap (fun jid =>
          if PyStr.truthy (PyStr.strip jid)
          then Some (PyStr.strip jid) else None)
       (PyStr.split "," value).

Definition _parse_allowed_jids (value : option string)
  : Result (option (gset string)) :=
  match value with
  | None => Ok None
  | Some v =>
      if negb (PyStr.truthy v) then Ok None
      else
        let jids := stripped_entries v in
        match jids with
        | [] => Ok None
        | _ =>
            rbind (validate_each jids)
                  (fun _ => Ok (Some (list_to_set jids)))
        end
  end.

Record Settings : Type := mkSettings {
  jid : string;
  password : string;
  default_receiver : string;
  base_url : string;
  allowed_jids : option (gset string);
  connect_timeout : Z;
  keepalive_interval : Z;
  retry_delay : float;
  send_delay : float;
  resource : string;
  debug : bool
}.

Definition __post_init__ (self : Settings) : Result unit :=
  if negb (PyStr.truthy (jid self))
  then Raise (mkExc ValueError ERR_JID_REQUIRED None)
  else if negb (PyStr.truthy (password self))
  then Raise (mkExc ValueError ERR_PASSWORD_REQUIRED None)
  else if negb (PyStr.truthy (default_receiver self))
  then Raise (mkExc ValueError ERR_DEFAULT_RECEIVER_REQUIRED None)
  else
    rbind (_validate_jid (jid self) "JID")
          (fun _ => _validate_jid (default_receiver self) "default receiver").

(** The dataclass constructor: store the fields, then [__post_init__]. *)
Definition new_Settings (jid password default_receiver base_url : string)
    (allowed_jids : option (gset string))
    (connect_timeout keepalive_interval : Z)
    (retry_delay send_delay : float) (resource : string) (debug : bool)
  : Result Settings :=
  let self :=
    mkSettings jid password default_receiver base_url allowed_jids
               connect_timeout keepalive_interval retry_delay send_delay
               resource debug in
  rbind (__post_init__ self) (fun _ => Ok self).

(** [Settings(jid=..., password=..., default_receiver=...)] with every
    other field at its default. *)
Definition new_Settings_minimal (jid password default_receiver : string)
  : Result Settings :=
  new_Settings jid password default_receiver "" None
               DEFAULT_CONNECT_TIMEOUT DEFAULT_KEEPALIVE_INTERVAL
               DEFAULT_RETRY_DELAY DEFAULT_SEND_DELAY
               DEFAULT_RESOURCE DEFAULT_DEBUG.

Definition full_jid (self : Settings) : string :=
  if PyStr.contains "/" (jid self) then jid self
  else jid self +:+ "/" +:+ resource self.

(** [self.jid.split("@")[0]] *)
Definition jid_user (self : Settings) : string :=
  PyStr.split_head "@" (jid self).

(** [self.jid.split("@")[1].split("/")[0]]; [None] stands for the
    [IndexError] of a split with no second part. *)
Definition jid_domain (self : Settings) : option string :=
  match PyStr.split "@" (jid self) with
  | _ :: domain_part :: _ => Some (PyStr.split_head "/" domain_part)
  | _ => None
  end.

Definition is_jid_allowed (self : Settings) (jid : string) : bool :=
  match allowed_jids self with
  | None => true
  | Some allowed =>
      let bare_jid := PyStr.split_head "/" jid in
      bool_decide (bare_jid ∈ allowed)
  end.

(** [os.getenv(key, default)] on the environment left by [load_dotenv]. *)
Definition getenv (environ : gmap string string) (key default : string)
  : string :=
  match environ !! key with
  | Some v => v
  | None => default
  end.

Definition from_env `{PyRuntime} (environ : gmap string string)
  : Result Settings :=
  let jid := getenv environ ENV_JID "" in
  let password := getenv environ ENV_PASSWORD "" in
  let default_receiver := getenv environ ENV_DEFAULT_RECEIVER "" in
  let base_url := getenv environ ENV_BASE_URL "" in
  rbind (_parse_allowed_jids (environ !! ENV_ALLOWED_JIDS))
    (fun allowed_jids =>
  rbind (py_int (getenv environ ENV_CONNECT_TIMEOUT
                   (py_str (PInt DEFAULT_CONNECT_TIMEOUT))))
    (fun connect_timeout =>
  rbind (py_int (getenv environ ENV_KEEPALIVE_INTERVAL
                   (py_str (PInt DEFAULT_KEEPALIVE_INTERVAL))))
    (fun keepalive_interval =>
  rbind (py_float (getenv environ ENV_RETRY_DELAY
                     (py_str (PFloat DEFAULT_RETRY_DELAY))))
    (fun retry_delay =>
  rbind (py_float (getenv environ ENV_SEND_DELAY
                     (py_str (PFloat DEFAULT_SEND_DELAY))))
    (fun send_delay =>
  let resource := getenv environ ENV_RESOURCE DEFAULT_RESOURCE in
  let debug := _parse_bool (environ !! ENV_DEBUG) DEFAULT_DEBUG in
  new_Settings jid password default_receiver base_url allowed_jids
               connect_timeout keepalive_interval retry_delay send_delay
               resource debug))))).

(** [data.get(key, default)] *)
Definition dict_get_default (data : gmap string PyObj) (key : string)
    (default : PyObj) : PyObj :=
  match data !! key with
  | Some v => v
  | None => default
  end.

(** [data.get(key)]: a missing key reads as [None]. *)
Definition dict_get (data : gmap string PyObj) (key : string) : PyObj :=
  dict_get_default data key PNone.

(** The allow-list branch of [from_dict]. An object that is neither a
    string, a collection nor [None] would be stored as it is, against
    the field's annotation [frozenset[str] | None]; the embedding has no
    [Settings] for it and answers [None]. *)
Definition allowed_jids_of (o : PyObj)
  : option (Result (option (gset string))) :=
  match o with
  | PStr s => Some (_parse_allowed_jids (Some s))
  | PStrs l =>
      Some (Ok (if py_bool (PStrs l) then Some (list_to_set l) else None))
  | PNone => Some (Ok None)
  | _ => None
  end.

(** [int(str(raw)) if raw is not None else default] *)
Definition int_or `{PyRuntime} (raw : PyObj) (default : Z) : Result Z :=
  match raw with
  | PNone => Ok default
  | _ => py_int (py_str raw)
  end.

Definition float_or `{PyRuntime} (raw : PyObj) (default : float)
  : Result float :=
  match raw with
  | PNone => Ok default
  | _ => py_float (py_str raw)
  end.

Definition from_dict `{PyRuntime} (data : gmap string PyObj)
  : option (Result Settings) :=
  match allowed_jids_of (dict_get data "allowed_jids") with
  | None => None
  | Some r =>
      Some (
  rbind r (fun allowed_jids =>
  let connect_timeout_raw := dict_get data "connect_timeout" in
  let keepalive_raw := dict_get data "keepalive_interval" in
  let retry_raw := dict_get data "retry_delay" in
  let send_raw := dict_get data "send_delay" in
  rbind (int_or connect_timeout_raw DEFAULT_CONNECT_TIMEOUT)
    (fun connect_timeout_val =>
  rbind (int_or keepalive_raw DEFAULT_KEEPALIVE_INTERVAL)
    (fun keepalive_val =>
  rbind (float_or retry_raw DEFAULT_RETRY_DELAY)
    (fun retry_val =>
  rbind (float_or send_raw DEFAULT_SEND_DELAY)
    (fun send_val =>
  new_Settings
    (py_str (dict_get_default data "jid" (PStr "")))
    (py_str (dict_get_default data "password" (PStr "")))
    (py_str (dict_get_default data "default_receiver" (PStr "")))
    (py_str (dict_get_default data "base_url" (PStr "")))
    allowed_jids
    connect_timeout_val keepalive_val retry_val send_val
    (py_str (dict_get_default data "resource" (PStr DEFAULT_RESOURCE)))
    (py_bool (dict_get_default data "debug" (PBool DEFAULT_DEBUG)))))))))
  end.

End Config.


(* ===================================================================== *)
(** ** Stanzas, handlers and observable effects                           *)
(* ===================================================================== *)

(** A slixmpp [JID], by the two views the bot reads: [str(jid)] and
    [jid.bare]. *)
Record JID : Type := mkJID {
  jid_str : string;
  jid_bare : string
}.

(** [msg["type"]], [msg["body"]], [msg["from"]] *)
Record Message : Type := mkMessage {
  msg_type : string;
  msg_body : string;
  msg_from : JID
}.

(** [presence["from"]], [presence["type"]], [presence["status"]] *)
Record Presence : Type := mkPresence {
  presence_from : JID;
  presence_type : string;
  presence_status : string
}.

(** What a call of a handler, or of a transport method, does to its
    caller. *)
Inductive Outcome : Type :=
| Returns
| Raises (e : PyExc).

(** A handler is a callable object that the bot stores and later calls
    (a sync handler) or awaits (an async one). The model keeps its
    identity; what a call of it does is the handler's own code, which a
    [HandlerWorld] supplies below. *)
Inductive MessageHandler : Type := message_handler (id : nat).
Inductive PresenceHandler : Type := presence_handler (id : nat).

#[global] Instance MessageHandler_eq_dec : EqDecision MessageHandler.
Proof. solve_decision. Defined.
#[global] Instance PresenceHandler_eq_dec : EqDecision PresenceHandler.
Proof. solve_decision. Defined.

Inductive LogLevel : Type := DEBUG | INFO | WARNING | ERROR.

Inductive Effect : Type :=
| Log (level : LogLevel) (text : string)
| BasicConfig                               (* logging.basicConfig(DEBUG) *)
| NewClient (jid password : string)         (* ClientXMPP(jid, password) *)
| AddEventHandler (event : string)
| Connect
| Disconnect
| SendPresence (pto ptype : option string)
| GetRoster
| SendMessage (mto mbody mtype : string)
| Sleep
| CallMessage (h : MessageHandler) (sender body : string) (msg : Message)
| AwaitMessage (h : MessageHandler) (sender body : string) (msg : Message)
| CallPresence (h : PresenceHandler) (sender ptype status : string)
               (p : Presence)
| AwaitPresence (h : PresenceHandler) (sender ptype status : string)
                (p : Presence).

(* ===================================================================== *)
(** ** The monad of methods: state, effect trace, exception               *)
(* ===================================================================== *)

Definition M (S A : Type) : Type := S -> S * list Effect * Result A.

Definition ret {S A} (a : A) : M S A := fun s => (s, [], Ok a).

Definition bind {S A B} (m : M S A) (k : A -> M S B) : M S B :=
  fun s =>
    match m s with
    | (s1, t1, Ok a) =>
        match k a s1 with
        | (s2, t2, r) => (s2, t1 ++ t2, r)
        end
    | (s1, t1, Raise e) => (s1, t1, Raise e)
    end.

Definition raise {S A} (e : PyExc) : M S A := fun s => (s, [], Raise e).
Definition emit {S} (ev : Effect) : M S unit := fun s => (s, [ev], Ok tt).
Definition get {S} : M S S := fun s => (s, [], Ok s).
Definition modify {S} (f : S -> S) : M S unit := fun s => (f s, [], Ok tt).

Declare Scope method_scope.
Delimit Scope method_scope with method.
Notation "x <- m ;; k" := (bind m (fun x => k))
  (at level 100, m at next level, right associativity) : method_scope.
Notation "m ;; k" := (bind m (fun _ => k))
  (at level 100, right associativity) : method_scope.

(** The outcome of a call, as the caller sees it. *)
Definition outcome {S} (o : Outcome) : M S unit :=
  match o with
  | Returns => ret tt
  | Raises e => raise e
  end.

(** [try: body  except Exception as e: handler(e)] *)
Definition try_except_Exception {S A} (body : M S A)
    (handler : PyExc -> M S A) : M S A :=
  fun s =>
    match body s with
    | (s1, t1, Raise e) =>
        if isinstance e Exception then
          match handler e s1 with
          | (s2, t2, r) => (s2, t1 ++ t2, r)
          end
        else (s1, t1, Raise e)
    | run => run
    end.

(** [with contextlib.suppress(Exception): body] *)
Definition suppress_Exception {S} (body : M S unit) : M S unit :=
  try_except_Exception body (fun _ => ret tt).

(** Run a method of a component held in a field of the state. *)
Definition zoom {S T A} (proj : S -> T) (upd : T -> S -> S) (m : M T A)
  : M S A :=
  fun s =>
    match m (proj s) with
    | (t', tr, r) => (upd t' s, tr, r)
    end.

(** [for x in xs: body(x)] *)
Fixpoint for_each {S X} (xs : list X) (body : X -> M S unit) : M S unit :=
  match xs with
  | [] => ret tt
  | x :: xs' => bind (body x) (fun _ => for_each xs' body)
  end.

(** One [next] on the iterator of [d.values()] that was created on
    [start] and has yielded [yielded] values, on the dict as it is [now].
    A dict of another size makes it raise; a dict without structural
    change gives the next value in insertion order, as it is now;
    anything else is up to the interpreter. *)
Definition live_next `{PyRuntime} {V} (start : LiveDict.dict V)
    (yielded : nat) (now : LiveDict.dict V) : IterStep V :=
  if negb (Nat.eqb (LiveDict.size now) (LiveDict.size start))
  then iter_error "dictionary changed size during iteration"
  else if Nat.eqb (LiveDict.changes now) (LiveDict.changes start)
  then match LiveDict.values now !! yielded with
       | Some v => iter_yield v
       | None => iter_stop
       end
  else py_dict_iter_modified start yielded now.

(** The [for] statement over such an iterator. The iterator counts down
    from the size it started with and raises when it finds a value after
    the count has run out. The exceptions of the iterator are raised by
    the [for] statement itself, outside the loop body. *)
Fixpoint live_loop `{PyRuntime} {S V} (remaining : nat)
    (start : LiveDict.dict V) (yielded : nat)
    (view : S -> LiveDict.dict V) (body : V -> M S unit) : M S unit :=
  bind get (fun self =>
    match live_next start yielded (view self) with
    | iter_stop => ret tt
    | iter_error msg => raise (mkExc RuntimeError msg None)
    | iter_yield v =>
        match remaining with
        | O =>
            raise (mkExc RuntimeError
                         "dictionary keys changed during iteration" None)
        | Datatypes.S remaining' =>
            bind (body v)
                 (fun _ => live_loop remaining' start (Datatypes.S yielded)
                                     view body)
        end
    end).

(** [for v in view(self).values(): body(v)], on the live view. *)
Definition for_each_live `{PyRuntime} {S V} (view : S -> LiveDict.dict V)
    (body : V -> M S unit) : M S unit :=
  bind get (fun self =>
    live_loop (LiveDict.size (view self)) (view self) 0 view body).

Definition final_state {S A} (run : S * list Effect * Result A) : S :=
  run.1.1.
Definition trace {S A} (run : S * list Effect * Result A) : list Effect :=
  run.1.2.
Definition result {S A} (run : S * list Effect * Result A) : Result A :=
  run.2.

(** A method keeps a property of the state: whether it returns or raises,
    the state it leaves has the property if the state it found had it. *)
Definition keeps {S A} (P : S -> Prop) (m : M S A) : Prop :=
  forall s, P s -> P (final_state (m s)).

(** The same, for the runs of the method that do not return. *)
Definition keeps_unless_returned {S} (P : S -> Prop) (m : M S unit) : Prop :=
  forall s, P s -> result (m s) <> Ok tt -> P (final_state (m s)).

(* ===================================================================== *)
(** ** handlers.py                                                        *)
(* ===================================================================== *)

Module Handlers.
Import Constants.
Local Open Scope method_scope.

Record HandlerRegistry : Type := mkRegistry {
  _message_handlers : PyDict.dict MessageHandler;
  _presence_handlers : PyDict.dict PresenceHandler
}.

(** [HandlerRegistry()] *)
Definition new_registry : HandlerRegistry := mkRegistry [] [].

Definition set_message_handlers (d : PyDict.dict MessageHandler)
    (r : HandlerRegistry) : HandlerRegistry :=
  mkRegistry d (_presence_handlers r).
Definition set_presence_handlers (d : PyDict.dict PresenceHandler)
    (r : HandlerRegistry) : HandlerRegistry :=
  mkRegistry (_message_handlers r) d.

Definition add_message_handler (name : string) (handler : MessageHandler)
  : M HandlerRegistry unit :=
  self <- get ;;
  if PyDict.contains name (_message_handlers self)
  then raise (mkExc HandlerExistsError (ERR_HANDLER_EXISTS name) None)
  else
    modify (set_message_handlers
              (PyDict.set name handler (_message_handlers self))) ;;
    emit (Log DEBUG (LOG_HANDLER_REGISTERED name)).

Definition remove_message_handler (name : string)
  : M HandlerRegistry unit :=
  self <- get ;;
  if negb (PyDict.contains name (_message_handlers self))
  then raise (mkExc HandlerNotFoundError (ERR_HANDLER_NOT_FOUND name) None)
  else
    modify (set_message_handlers
              (PyDict.del name (_message_handlers self))) ;;
    emit (Log DEBUG (LOG_HANDLER_REMOVED name)).

Definition add_presence_handler (name : string) (handler : PresenceHandler)
  : M HandlerRegistry unit :=
  self <- get ;;
  if PyDict.contains name (_presence_handlers self)
  then raise (mkExc HandlerExistsError (ERR_HANDLER_EXISTS name) None)
  else
    modify (set_presence_handlers
              (PyDict.set name handler (_presence_handlers self))) ;;
    emit (Log DEBUG (LOG_HANDLER_REGISTERED name)).

Definition remove_presence_handler (name : string)
  : M HandlerRegistry unit :=
  self <- get ;;
  if negb (PyDict.contains name (_presence_handlers self))
  then raise (mkExc HandlerNotFoundError (ERR_HANDLER_NOT_FOUND name) None)
  else
    modify (set_presence_handlers
              (PyDict.del name (_presence_handlers self))) ;;
    emit (Log DEBUG (LOG_HANDLER_REMOVED name)).

(** [list(self._message_handlers.values())] *)
Definition get_message_handlers (self : HandlerRegistry)
  : list MessageHandler :=
  PyDict.values (_message_handlers self).

Definition get_presence_handlers (self : HandlerRegistry)
  : list PresenceHandler :=
  PyDict.values (_presence_handlers self).

Definition has_message_handler (self : HandlerRegistry) (name : string)
  : bool :=
  PyDict.contains name (_message_handlers self).

Definition has_presence_handler (self : HandlerRegistry) (name : string)
  : bool :=
  PyDict.contains name (_presence_handlers self).

Definition clear : M HandlerRegistry unit :=
  modify (fun _ => mkRegistry [] []).

End Handlers.

(* ===================================================================== *)
(** ** bot.py                                                             *)
(* ===================================================================== *)

(** One [XmppBot] object, from [__init__] on, then the class-level
    singleton. The two methods that only wait on the event loop ([flush],
    [run_forever]) are left out. *)

Module Bot.
Import Constants Config Handlers.
Local Open Scope method_scope.

(** What the transport library does when the bot calls it:
    [ClientXMPP(jid, password)], which parses the JID and raises on one it
    does not accept, and the two calls the bot guards against failure,
    [send_message] and [disconnect]. *)
Record Transport : Type := mkTransport {
  on_construct : string -> string -> Outcome;
  on_send_message : string -> string -> string -> Outcome;
  on_disconnect : Outcome
}.

(** A [ClientXMPP] instance: its constructor arguments and transport. *)
Record ClientXMPP : Type := mkClient {
  client_jid : string;
  client_password : string;
  client_transport : Transport
}.

Record XmppBot : Type := mkBot {
  _settings : option Settings;
  _client : option ClientXMPP;
  _initialized : bool;
  _connected : bool;
  _session_started : bool;
  _auth_error : option string;
  _handlers : HandlerRegistry;
  _async_message_handlers : LiveDict.dict MessageHandler;
  _async_presence_handlers : LiveDict.dict PresenceHandler
}.

Definition set_settings (v : option Settings) (b : XmppBot) : XmppBot :=
  mkBot v (_client b) (_initialized b) (_connected b) (_session_started b)
        (_auth_error b) (_handlers b) (_async_message_handlers b)
        (_async_presence_handlers b).
Definition set_client (v : option ClientXMPP) (b : XmppBot) : XmppBot :=
  mkBot (_settings b) v (_initialized b) (_connected b)
        (_session_started b) (_auth_error b) (_handlers b)
        (_async_message_handlers b) (_async_presence_handlers b).
Definition set_initialized (v : bool) (b : XmppBot) : XmppBot :=
  mkBot (_settings b) (_client b) v (_connected b) (_session_started b)
        (_auth_error b) (_handlers b) (_async_message_handlers b)
        (_async_presence_handlers b).
Definition set_connected (v : bool) (b : XmppBot) : XmppBot :=
  mkBot (_settings b) (_client b) (_initialized b) v (_session_started b)
        (_auth_error b) (_handlers b) (_async_message_handlers b)
        (_async_presence_handlers b).
Definition set_session_started (v : bool) (b : XmppBot) : XmppBot :=
  mkBot (_settings b) (_client b) (_initialized b) (_connected b) v
        (_auth_error b) (_handlers b) (_async_message_handlers b)
        (_async_presence_handlers b).
Definition set_auth_error (v : option string) (b : XmppBot) : XmppBot :=
  mkBot (_settings b) (_client b) (_initialized b) (_connected b)
        (_session_started b) v (_handlers b) (_async_message_handlers b)
        (_async_presence_handlers b).
Definition set_handlers (v : HandlerRegistry) (b : XmppBot) : XmppBot :=
  mkBot (_settings b) (_client b) (_initialized b) (_connected b)
        (_session_started b) (_auth_error b) v
        (_async_message_handlers b) (_async_presence_handlers b).
Definition set_async_message_handlers (v : LiveDict.dict MessageHandler)
    (b : XmppBot) : XmppBot :=
  mkBot (_settings b) (_client b) (_initialized b) (_connected b)
        (_session_started b) (_auth_error b) (_handlers b) v
        (_async_presence_handlers b).
Definition set_async_presence_handlers (v : LiveDict.dict PresenceHandler)
    (b : XmppBot) : XmppBot :=
  mkBot (_settings b) (_client b) (_initialized b) (_connected b)
        (_session_started b) (_auth_error b) (_handlers b)
        (_async_message_handlers b) v.

(** The instance as [__init__] leaves it. *)
Definition new_bot : XmppBot :=
  mkBot None None false false false None new_registry LiveDict.empty
        LiveDict.empty.

(** What a call of a handler does: to the bot, which the handler's code
    can reach (it may hold the bot, or get it from
    [XmppBot.get_instance()]), to the outside, and to its caller. A sync
    handler is called, an async one awaited; the run is all that happens
    until the call, or the await, is over. *)
Class HandlerWorld : Type := {
  run_message_handler :
    MessageHandler -> string -> string -> Message -> M XmppBot unit;
  run_presence_handler :
    PresenceHandler -> string -> string -> string -> Presence
    -> M XmppBot unit
}.

(** The [settings] property. *)
Definition settings : M XmppBot Settings :=
  self <- get ;;
  match _settings self with
  | None => raise (mkExc NotInitializedError ERR_NOT_INITIALIZED None)
  | Some s => ret s
  end.

Definition is_initialized (self : XmppBot) : bool := _initialized self.
Definition is_connected (self : XmppBot) : bool := _connected self.

(** A failed [assert]. *)
Definition assertion_error : PyExc := mkExc AssertionError "" None.

(** *** Event callbacks *)

(** [roster] is what awaiting [get_roster()] does. *)
Definition _on_session_start (roster : Outcome) : M XmppBot unit :=
  self <- get ;;
  match _client self with
  | None => raise assertion_error
  | Some _ =>
      emit (SendPresence None None) ;;
      emit GetRoster ;;
      outcome roster ;;
      modify (set_session_started true)
  end.

Definition _on_failed_auth : M XmppBot unit :=
  modify (set_auth_error (Some "Authentication failed")).

Definition _on_disconnected : M XmppBot unit :=
  modify (set_connected false) ;;
  modify (set_session_started false) ;;
  emit (Log INFO LOG_DISCONNECTED).

Definition call_sync_message `{HandlerWorld} (sender body : string)
    (msg : Message) (sync_handler : MessageHandler) : M XmppBot unit :=
  try_except_Exception
    (emit (CallMessage sync_handler sender body msg) ;;
     run_message_handler sync_handler sender body msg)
    (fun e => emit (Log ERROR ("Error in message handler: " +:+ exc_msg e))).

Definition await_async_message `{HandlerWorld} (sender body : string)
    (msg : Message) (async_handler : MessageHandler) : M XmppBot unit :=
  try_except_Exception
    (emit (AwaitMessage async_handler sender body msg) ;;
     run_message_handler async_handler sender body msg)
    (fun e =>
       emit (Log ERROR ("Error in async message handler: " +:+ exc_msg e))).

(** The sync loop runs over the list that [get_message_handlers]
    returns; the async loop over the live view of the mapping. *)
Definition _on_message `{PyRuntime} `{HandlerWorld} (msg : Message)
  : M XmppBot unit :=
  if negb (bool_decide (msg_type msg ∈ ["chat"; "normal"])) then ret tt
  else
    let body := msg_body msg in
    if negb (PyStr.truthy body) then ret tt
    else
      let sender_jid := msg_from msg in
      let sender := jid_str sender_jid in
      let bare_sender := jid_bare sender_jid in
      self <- get ;;
      match _settings self with
      | None => raise assertion_error
      | Some s =>
          if negb (is_jid_allowed s bare_sender) then
            emit (Log WARNING
                    ("Message from unauthorized JID: " +:+ bare_sender))
          else
            emit (Log DEBUG (LOG_MESSAGE_RECEIVED sender)) ;;
            self <- get ;;
            for_each (get_message_handlers (_handlers self))
                     (call_sync_message sender body msg) ;;
            for_each_live _async_message_handlers
                          (await_async_message sender body msg)
      end.

Definition _on_presence_subscribe (presence : Presence) : M XmppBot unit :=
  self <- get ;;
  match _client self with
  | None => raise assertion_error
  | Some _ =>
      let sender := jid_str (presence_from presence) in
      emit (SendPresence (Some sender) (Some "subscribed")) ;;
      emit (Log INFO (LOG_SUBSCRIPTION_APPROVED sender))
  end.

Definition call_sync_presence `{HandlerWorld} (sender ptype status : string)
    (p : Presence) (sync_handler : PresenceHandler) : M XmppBot unit :=
  try_except_Exception
    (emit (CallPresence sync_handler sender ptype status p) ;;
     run_presence_handler sync_handler sender ptype status p)
    (fun e =>
       emit (Log ERROR ("Error in presence handler: " +:+ exc_msg e))).

Definition await_async_presence `{HandlerWorld}
    (sender ptype status : string) (p : Presence)
    (async_handler : PresenceHandler) : M XmppBot unit :=
  try_except_Exception
    (emit (AwaitPresence async_handler sender ptype status p) ;;
     run_presence_handler async_handler sender ptype status p)
    (fun e =>
       emit (Log ERROR
               ("Error in async presence handler: " +:+ exc_msg e))).

Definition _on_presence `{PyRuntime} `{HandlerWorld} (presence : Presence)
  : M XmppBot unit :=
  let sender := jid_str (presence_from presence) in
  let presence_type := presence_type presence in
  let status := presence_status presence in
  emit (Log DEBUG (LOG_PRESENCE_RECEIVED sender status)) ;;
  self <- get ;;
  for_each (get_presence_handlers (_handlers self))
           (call_sync_presence sender presence_type status presence) ;;
  for_each_live _async_presence_handlers
                (await_async_presence sender presence_type status presence).

(** The six events [_connect] subscribes to, as the transport fires
    them. *)
Inductive ClientEvent : Type :=
| session_start (roster : Outcome)
| message (msg : Message)
| presence_subscribe (p : Presence)
| presence (p : Presence)
| failed_auth
| disconnected.

Definition callback `{PyRuntime} `{HandlerWorld} (ev : ClientEvent)
  : M XmppBot unit :=
  match ev with
  | session_start roster => _on_session_start roster
  | message msg => _on_message msg
  | presence_subscribe p => _on_presence_subscribe p
  | presence p => _on_presence p
  | failed_auth => _on_failed_auth
  | disconnected => _on_disconnected
  end.

(** The transport's event loop runs a callback and keeps going when the
    callback raises an exception derived from [Exception]; any other
    exception ends the loop and whoever waits on it. *)
Definition deliver `{PyRuntime} `{HandlerWorld} (ev : ClientEvent)
  : M XmppBot unit :=
  suppress_Exception (callback ev).

(** *** Connecting *)

(** One turn of the wait loop: the events fired while the loop slept,
    and whether the deadline has passed when it wakes. *)
Record Tick : Type := mkTick {
  fired : list ClientEvent;
  deadline_passed : bool
}.

Definition timed_out `{PyRuntime} (client : ClientXMPP) (timeout : Z)
  : M XmppBot unit :=
  emit Disconnect ;;
  outcome (on_disconnect (client_transport client)) ;;
  raise (mkExc ConnectionError
           ("Connection timed out after " +:+ py_str (PInt timeout)
            +:+ " seconds") None).

(** [while not self._session_started and self._auth_error is None].
    The clock advances with every sleep, so a script that runs out
    stands for a deadline that passes with nothing more fired. *)
Fixpoint wait_loop `{PyRuntime} `{HandlerWorld} (client : ClientXMPP)
    (timeout : Z)
    (script : list Tick) : M XmppBot unit :=
  self <- get ;;
  if negb (_session_started self)
     && bool_decide (_auth_error self = None)
  then
    emit Sleep ;;
    match script with
    | [] => timed_out client timeout
    | tick :: rest =>
        for_each (fired tick) deliver ;;
        if deadline_passed tick then timed_out client timeout
        else wait_loop client timeout rest
    end
  else ret tt.

Definition _connect `{PyRuntime} `{HandlerWorld} (transport : Transport)
    (script : list Tick) : M XmppBot unit :=
  self <- get ;;
  match _settings self with
  | None => raise assertion_error
  | Some s =>
      emit (Log INFO (LOG_CONNECTING (jid s))) ;;
      let client := mkClient (full_jid s) (password s) transport in
      emit (NewClient (full_jid s) (password s)) ;;
      outcome (on_construct transport (full_jid s) (password s)) ;;
      modify (set_client (Some client)) ;;
      emit (AddEventHandler "session_start") ;;
      emit (AddEventHandler "message") ;;
      emit (AddEventHandler "presence_subscribe") ;;
      emit (AddEventHandler "presence") ;;
      emit (AddEventHandler "failed_auth") ;;
      emit (AddEventHandler "disconnected") ;;
      modify (set_session_started false) ;;
      modify (set_auth_error None) ;;
      emit Connect ;;
      let timeout := connect_timeout s in
      wait_loop client timeout script ;;
      self <- get ;;
      match _auth_error self with
      | Some err =>
          if PyStr.truthy err
          then raise (mkExc AuthenticationError (ERR_AUTH_FAILED (jid s))
                            None)
          else
            emit (Log INFO LOG_CONNECTED) ;;
            emit (Log INFO LOG_AUTH_SUCCESS) ;;
            modify (set_connected true)
      | None =>
          emit (Log INFO LOG_CONNECTED) ;;
          emit (Log INFO LOG_AUTH_SUCCESS) ;;
          modify (set_connected true)
      end
  end.

Definition of_result {S A} (r : Result A) : M S A :=
  match r with
  | Ok a => ret a
  | Raise e => raise e
  end.

(** [environ] is the process environment [Settings.from_env] reads. *)
Definition initialize `{PyRuntime} `{HandlerWorld}
    (settings : option Settings)
    (environ : gmap string string) (transport : Transport)
    (script : list Tick) : M XmppBot unit :=
  self <- get ;;
  if _initialized self
  then raise (mkExc AlreadyInitializedError ERR_ALREADY_INITIALIZED None)
  else
    settings <- match settings with
                | None => of_result (from_env environ)
                | Some s => ret s
                end ;;
    modify (set_settings (Some settings)) ;;
    (if debug settings then emit BasicConfig else ret tt) ;;
    _connect transport script ;;
    modify (set_initialized true).

(** *** Handler management *)

Definition add_message_handler (name : string) (handler : MessageHandler)
  : M XmppBot unit :=
  self <- get ;;
  modify (set_async_message_handlers
            (LiveDict.set name handler (_async_message_handlers self))).

Definition remove_message_handler (name : string) : M XmppBot unit :=
  self <- get ;;
  if LiveDict.contains name (_async_message_handlers self)
  then modify (set_async_message_handlers
                 (LiveDict.del name (_async_message_handlers self)))
  else zoom _handlers set_handlers (Handlers.remove_message_handler name).

Definition add_presence_handler (name : string)
    (handler : PresenceHandler) : M XmppBot unit :=
  self <- get ;;
  modify (set_async_presence_handlers
            (LiveDict.set name handler (_async_presence_handlers self))).

Definition remove_presence_handler (name : string) : M XmppBot unit :=
  self <- get ;;
  if LiveDict.contains name (_async_presence_handlers self)
  then modify (set_async_presence_handlers
                 (LiveDict.del name (_async_presence_handlers self)))
  else zoom _handlers set_handlers (Handlers.remove_presence_handler name).

(** *** Sending *)

Definition reply_to_user (message : string) (jid : string)
  : M XmppBot unit :=
  self <- get ;;
  if negb (_initialized self)
  then raise (mkExc NotInitializedError ERR_NOT_INITIALIZED None)
  else
    match _connected self, _client self with
    | true, Some client =>
        emit (Log DEBUG (LOG_SENDING_MESSAGE jid)) ;;
        try_except_Exception
          (emit (SendMessage jid message "chat") ;;
           outcome (on_send_message (client_transport client)
                                    jid message "chat") ;;
           emit (Log DEBUG (LOG_MESSAGE_SENT jid)))
          (fun e =>
             emit (Log ERROR ("Send failed: " +:+ exc_msg e)) ;;
             raise (mkExc SendError (ERR_SEND_FAILED jid) (Some e)))
    | _, _ => raise (mkExc SendError (ERR_SEND_FAILED jid) None)
    end.

Definition send_message (message : string) : M XmppBot unit :=
  self <- get ;;
  if negb (_initialized self)
  then raise (mkExc NotInitializedError ERR_NOT_INITIALIZED None)
  else
    match _settings self with
    | None => raise assertion_error
    | Some s => reply_to_user message (default_receiver s)
    end.

Definition send_url (path : string) : M XmppBot unit :=
  self <- get ;;
  if negb (_initialized self)
  then raise (mkExc NotInitializedError ERR_NOT_INITIALIZED None)
  else
    match _settings self with
    | None => raise assertion_error
    | Some s =>
        let url := PyStr.rstrip_char "/" (base_url s) +:+ "/"
                   +:+ PyStr.lstrip_char "/" path in
        send_message url
    end.

(** *** Disconnecting *)

Definition disconnect : M XmppBot unit :=
  self <- get ;;
  if negb (_initialized self) then ret tt
  else
    emit (Log INFO LOG_DISCONNECTING) ;;
    match _client self, _connected self with
    | Some client, true =>
        suppress_Exception
          (emit Disconnect ;;
           outcome (on_disconnect (client_transport client)))
    | _, _ => ret tt
    end ;;
    modify (set_connected false) ;;
    modify (set_initialized false) ;;
    modify (set_session_started false) ;;
    modify (set_client None) ;;
    zoom _handlers set_handlers Handlers.clear ;;
    modify (set_async_message_handlers
              (LiveDict.clear (_async_message_handlers self))) ;;
    modify (set_async_presence_handlers
              (LiveDict.clear (_async_presence_handlers self))) ;;
    emit (Log INFO LOG_DISCONNECTED).

Definition send_message_sync (message : string) : M XmppBot unit :=
  self <- get ;;
  if negb (_initialized self)
  then raise (mkExc NotInitializedError ERR_NOT_INITIALIZED None)
  else
    match _settings self with
    | None => raise assertion_error
    | Some s =>
        match _client self with
        | Some client =>
            emit (SendMessage (default_receiver s) message "chat") ;;
            outcome (on_send_message (client_transport client)
                       (default_receiver s) message "chat")
        | None => ret tt
        end
    end.

Definition shutdown : M XmppBot unit := disconnect.

(** *** Histories of the instance *)

(** What can happen to the instance between its creation and now: a
    public method is called, or the transport fires an event. *)
Inductive Call : Type :=
| call_initialize (settings : option Settings)
    (environ : gmap string string) (transport : Transport)
    (script : list Tick)
| call_disconnect
| call_settings
| call_send_message (message : string)
| call_reply_to_user (message jid : string)
| call_send_url (path : string)
| call_send_message_sync (message : string)
| call_add_message_handler (name : string) (h : MessageHandler)
| call_remove_message_handler (name : string)
| call_add_presence_handler (name : string) (h : PresenceHandler)
| call_remove_presence_handler (name : string)
| call_registry_add_message (name : string) (h : MessageHandler)
| call_registry_add_presence (name : string) (h : PresenceHandler)
| call_event (ev : ClientEvent).

Definition run_call `{PyRuntime} `{HandlerWorld} (c : Call)
  : M XmppBot unit :=
  match c with
  | call_initialize s environ transport script =>
      initialize s environ transport script
  | call_disconnect => disconnect
  | call_settings => settings ;; ret tt
  | call_send_message m => send_message m
  | call_reply_to_user m jid => reply_to_user m jid
  | call_send_url path => send_url path
  | call_send_message_sync m => send_message_sync m
  | call_add_message_handler name h => add_message_handler name h
  | call_remove_message_handler name => remove_message_handler name
  | call_add_presence_handler name h => add_presence_handler name h
  | call_remove_presence_handler name => remove_presence_handler name
  | call_registry_add_message name h =>
      zoom _handlers set_handlers (Handlers.add_message_handler name h)
  | call_registry_add_presence name h =>
      zoom _handlers set_handlers (Handlers.add_presence_handler name h)
  | call_event ev => callback ev
  end.

(** The state after a history; a call that raises leaves the state it
    reached, and the history goes on. *)
Fixpoint after `{PyRuntime} `{HandlerWorld} (history : list Call)
    (b : XmppBot) : XmppBot :=
  match history with
  | [] => b
  | c :: rest => after rest (final_state (run_call c b))
  end.

Definition reachable `{PyRuntime} `{HandlerWorld} (b : XmppBot) : Prop :=
  exists history, after history new_bot = b.

(** *** The class-level singleton *)

(** The class attribute [_instance]: the one bot object, once created. A
    method called on it changes it in place. *)
Definition XmppBotClass : Type := option XmppBot.

(** [XmppBot.get_instance()], that is [cls()]: [__new__] creates the
    object on the first call only, and [__init__] returns at once on an
    object it has already set up. *)
Definition get_instance : M XmppBotClass XmppBot :=
  cls <- get ;;
  match cls with
  | None => modify (fun _ => Some new_bot) ;; ret new_bot
  | Some instance => ret instance
  end.

(** [XmppBot.get_instance().method(...)] *)
Definition on_instance {A} (method : M XmppBot A) : M XmppBotClass A :=
  instance <- get_instance ;;
  zoom (fun _ => instance) (fun instance' _ => Some instance') method.

Definition reset_instance : M XmppBotClass unit :=
  cls <- get ;;
  match cls with
  | Some instance =>
      suppress_Exception
        (zoom (fun _ => instance) (fun instance' _ => Some instance')
              disconnect) ;;
      modify (fun _ => None)
  | None => ret tt
  end.

End Bot.

(* ===================================================================== *)
(** ** Observations on traces and on handlers                             *)
(* ===================================================================== *)

(** One invocation of a message handler, with the arguments it got. *)
Inductive Invocation : Type :=
| SyncCall (h : MessageHandler) (sender body : string) (msg : Message)
| AsyncCall (h : MessageHandler) (sender body : string) (msg : Message).

Definition invocation_of (ev : Effect) : option Invocation :=
  match ev with
  | CallMessage h sender body msg => Some (SyncCall h sender body msg)
  | AwaitMessage h sender body msg => Some (AsyncCall h sender body msg)
  | _ => None
  end.

(** The handler invocations of a trace, in order. *)
Definition invocations (tr : list Effect) : list Invocation :=
  omap invocation_of tr.

Definition is_send (ev : Effect) : bool :=
  match ev with
  | SendMessage _ _ _ => true
  | SendPresence _ _ => true
  | _ => false
  end.

(** The stanzas a trace sends. *)
Definition sends (tr : list Effect) : list Effect := filter is_send tr.

(** An outcome that [except Exception] contains: a return, or an
    exception derived from [Exception]. [KeyboardInterrupt], [SystemExit]
    and [CancelledError] derive from [BaseException] only. *)
Definition ordinary (o : Outcome) : Prop :=
  match o with
  | Returns => True
  | Raises e => isinstance e Exception = true
  end.

(** The message passes the three gates of [_on_message]. *)
Definition accepted (s : Config.Settings) (msg : Message) : bool :=
  bool_decide (msg_type msg ∈ ["chat"; "normal"])
  && PyStr.truthy (msg_body msg)
  && Config.is_jid_allowed s (jid_bare (msg_from msg)).

(** Every message handler registered on the bot, sync then async, as the
    invocation a dispatch of [msg] owes it. *)
Definition owed_invocations (b : Bot.XmppBot) (msg : Message)
  : list Invocation :=
  map (fun h => SyncCall h (jid_str (msg_from msg)) (msg_body msg) msg)
      (Handlers.get_message_handlers (Bot._handlers b))
  ++ map (fun h => AsyncCall h (jid_str (msg_from msg)) (msg_body msg) msg)
         (LiveDict.values (Bot._async_message_handlers b)).

(** One invocation of a presence handler, with the arguments it got. *)
Inductive PresenceInvocation : Type :=
| SyncPresenceCall (h : PresenceHandler) (sender ptype status : string)
                   (p : Presence)
| AsyncPresenceCall (h : PresenceHandler) (sender ptype status : string)
                    (p : Presence).

Definition presence_invocation_of (ev : Effect) : option PresenceInvocation :=
  match ev with
  | CallPresence h sender ptype status p =>
      Some (SyncPresenceCall h sender ptype status p)
  | AwaitPresence h sender ptype status p =>
      Some (AsyncPresenceCall h sender ptype status p)
  | _ => None
  end.

Definition presence_invocations (tr : list Effect)
  : list PresenceInvocation :=
  omap presence_invocation_of tr.

(** A run that an [except Exception] around it contains. *)
Definition within_Exception {S A} (run : S * list Effect * Result A)
  : Prop :=
  match result run with
  | Ok _ => True
  | Raise e => isinstance e Exception = true
  end.

(** A handler call that keeps to itself: it leaves the bot [b] it was
    called on as it is and has no handler invoked; it may send, log, and
    raise. *)
Definition self_contained (b : Bot.XmppBot)
    (run : Bot.XmppBot * list Effect * Result unit) : Prop :=
  final_state run = b
  /\ invocations (trace run) = []
  /\ presence_invocations (trace run) = [].

(** Every message handler registered on the bot keeps to itself on this
    message and returns, or raises an exception derived from
    [Exception]. *)
Definition handlers_ordinary `{Bot.HandlerWorld} (b : Bot.XmppBot)
    (msg : Message) : Prop :=
  Forall (fun h =>
            let run := Bot.run_message_handler h (jid_str (msg_from msg))
                         (msg_body msg) msg b in
            self_contained b run /\ within_Exception run)
         (Handlers.get_message_handlers (Bot._handlers b)
          ++ LiveDict.values (Bot._async_message_handlers b)).

(** The fields [__post_init__] rejects. *)
Definition ill_formed (jid password default_receiver : string) : Prop :=
  jid = "" \/ password = "" \/ default_receiver = ""
  \/ Config.JID_PATTERN_match jid = false
  \/ Config.JID_PATTERN_match default_receiver = false.

(** The address grammar as the specification words it:
    local-part "@" domain-part ["/" resource], with no "@" in the local
    part or the domain part and no "/" in the domain part. *)
Definition spec_address_grammar (s : string) : Prop :=
  exists lp dp : list ascii,
    ("@"%char ∉ lp) /\ ("@"%char ∉ dp) /\ ("/"%char ∉ dp) /\
    (list_ascii_of_string s = lp ++ "@"%char :: dp
     \/ exists res : list ascii,
          list_ascii_of_string s = lp ++ "@"%char :: dp ++ "/"%char :: res).

(** A property of the bot that does not depend on the session fields
    (client, connection flags, auth error) nor on the handler mappings. *)
Definition session_stable (P : Bot.XmppBot -> Prop) : Prop :=
  (forall v b, P b -> P (Bot.set_client v b))
  /\ (forall v b, P b -> P (Bot.set_connected v b))
  /\ (forall v b, P b -> P (Bot.set_session_started v b))
  /\ (forall v b, P b -> P (Bot.set_auth_error v b))
  /\ (forall v b, P b -> P (Bot.set_handlers v b))
  /\ (forall v b, P b -> P (Bot.set_async_message_handlers v b))
  /\ (forall v b, P b -> P (Bot.set_async_presence_handlers v b)).

Definition uninitialized (b : Bot.XmppBot) : Prop :=
  Bot._initialized b = false.

Definition has_settings (b : Bot.XmppBot) : Prop :=
  Bot._settings b <> None.

(** The handlers keep a property of the bot, whatever they are called
    on. *)
Definition world_keeps `{Bot.HandlerWorld} (P : Bot.XmppBot -> Prop)
  : Prop :=
  (forall h sender body msg,
      keeps P (Bot.run_message_handler h sender body msg))
  /\ (forall h sender ptype status p,
        keeps P (Bot.run_presence_handler h sender ptype status p)).

(** No handler changes the bot. *)
Definition detached_world `{Bot.HandlerWorld} : Prop :=
  forall b, world_keeps (fun x => x = b).

(** No handler is registered on the bot. *)
Definition no_handlers (b : Bot.XmppBot) : Prop :=
  Handlers.get_message_handlers (Bot._handlers b) = []
  /\ Handlers.get_presence_handlers (Bot._handlers b) = []
  /\ LiveDict.values (Bot._async_message_handlers b) = []
  /\ LiveDict.values (Bot._async_presence_handlers b) = [].


(** The same for a bot without handlers, where only the roster request of
    a session start can raise something else. *)
Definition roster_ordinary (ev : Bot.ClientEvent) : Prop :=
  match ev with
  | Bot.session_start roster => ordinary roster
  | _ => True
  end.

(** No initialize call of the history has returned. *)
Fixpoint never_initialized `{PyRuntime} `{Bot.HandlerWorld}
    (history : list Bot.Call) (b : Bot.XmppBot) : Prop :=
  match history with
  | [] => True
  | c :: rest =>
      match c with
      | Bot.call_initialize _ _ _ _ =>
          result (Bot.run_call c b) <> Ok tt
      | _ => True
      end
      /\ never_initialized rest (final_state (Bot.run_call c b))
  end.

(* ===================================================================== *)
(** ** Example data, from the test suite                                  *)
(* ===================================================================== *)

Module Examples.
Import Config.

(** conftest.py, [valid_settings] *)
Definition valid_settings : Settings :=
  mkSettings "bot@example.com" "secret123" "user@example.com"
             "https://example.com"
             (Some (list_to_set ["user@example.com"; "admin@example.com"]))
             30 60 Constants.DEFAULT_RETRY_DELAY
             Constants.DEFAULT_SEND_DELAY "test-bot" false.

(** conftest.py, [minimal_settings] *)
Definition minimal_settings : Settings :=
  mkSettings "bot@example.com" "secret" "user@example.com" "" None
             Constants.DEFAULT_CONNECT_TIMEOUT
             Constants.DEFAULT_KEEPALIVE_INTERVAL
             Constants.DEFAULT_RETRY_DELAY Constants.DEFAULT_SEND_DELAY
             Constants.DEFAULT_RESOURCE Constants.DEFAULT_DEBUG.

(** A transport whose calls all return. *)
Definition quiet_transport : Bot.Transport :=
  Bot.mkTransport (fun _ _ => Returns) (fun _ _ _ => Returns) Returns.

(** The session starts during the first sleep, well before the
    deadline. *)
Definition session_starts : list Bot.Tick :=
  [Bot.mkTick [Bot.session_start Returns] false].

(** Five handlers: one that returns, one that raises, one that is
    interrupted, and two that are meant to run once, an async one that
    unregisters the name "once" on the bot and a sync one that unregisters
    it in the registry. The presence handlers are numbered alike. *)
Definition returns_handler : MessageHandler := message_handler 0.
Definition failing_handler : MessageHandler := message_handler 1.
Definition interrupted_handler : MessageHandler := message_handler 2.
Definition one_shot_handler : MessageHandler := message_handler 3.
Definition sync_one_shot_handler : MessageHandler := message_handler 4.

Definition returns_presence_handler : PresenceHandler := presence_handler 0.
Definition failing_presence_handler : PresenceHandler := presence_handler 1.
Definition one_shot_presence_handler : PresenceHandler :=
  presence_handler 3.

Definition example_world : Bot.HandlerWorld :=
  {| Bot.run_message_handler h _ _ _ :=
       match h with
       | message_handler 1 => raise (mkExc RuntimeError "boom" None)
       | message_handler 2 => raise (mkExc KeyboardInterrupt "" None)
       | message_handler 3 => Bot.remove_message_handler "once"
       | message_handler 4 =>
           zoom Bot._handlers Bot.set_handlers
                (Handlers.remove_message_handler "once")
       | _ => ret tt
       end;
     Bot.run_presence_handler h _ _ _ _ :=
       match h with
       | presence_handler 1 => raise (mkExc RuntimeError "boom" None)
       | presence_handler 3 => Bot.remove_presence_handler "once"
       | _ => ret tt
       end |}.

Definition hello : Message :=
  mkMessage "chat" "hello" (mkJID "user@example.com/phone"
                                  "user@example.com").

(** An initialized, connected bot with three sync message handlers, the
    second of which raises, and one async handler. *)
Definition dispatch_bot : Bot.XmppBot :=
  Bot.mkBot (Some valid_settings)
            (Some (Bot.mkClient "bot@example.com/test-bot" "secret123"
                                quiet_transport))
            true true true None
            (Handlers.mkRegistry
               [("first", returns_handler); ("second", failing_handler);
                ("third", returns_handler)] [])
            (LiveDict.mkDict [("fourth", returns_handler)] 1)
            LiveDict.empty.

(** The same bot with two async handlers, the first of which unregisters
    itself. *)
Definition one_shot_bot : Bot.XmppBot :=
  Bot.set_async_message_handlers
    (LiveDict.mkDict [("once", one_shot_handler); ("later", returns_handler)]
                     2)
    dispatch_bot.

(** The same bot with two sync handlers, the first of which unregisters
    itself, and no async handler. *)
Definition sync_one_shot_bot : Bot.XmppBot :=
  Bot.set_async_message_handlers LiveDict.empty
    (Bot.set_handlers
       (Handlers.mkRegistry
          [("once", sync_one_shot_handler); ("later", returns_handler)] [])
       dispatch_bot).

(** The same bot with a second sync handler that is interrupted. *)
Definition interrupted_bot : Bot.XmppBot :=
  Bot.set_handlers
    (Handlers.mkRegistry
       [("first", returns_handler); ("second", interrupted_handler);
        ("third", returns_handler)] [])
    dispatch_bot.


(** An interpreter fragment for the examples: decimal integers, and the
    float literals of the two defaults. *)
(** Whether underscores stand singly between two digits. *)
Fixpoint grouped (after_digit : bool) (s : string) : bool :=
  match s with
  | EmptyString => after_digit
  | String c s' =>
      if Ascii.eqb c "_" then after_digit && grouped false s'
      else grouped true s'
  end.

Fixpoint without_underscores (s : string) : string :=
  match s with
  | EmptyString => EmptyString
  | String c s' =>
      if Ascii.eqb c "_" then without_underscores s'
      else String c (without_underscores s')
  end.

(** [int(s)] on ASCII digits: surrounding whitespace, one sign, and
    single underscores between digits are accepted. *)
Definition example_int (s : string) : Result Z :=
  let stripped := PyStr.strip s in
  let '(negative, digits) :=
    match stripped with
    | String "-" rest => (true, rest)
    | String "+" rest => (false, rest)
    | _ => (false, stripped)
    end in
  match (if grouped false digits
         then DecimalString.NilZero.uint_of_string
                (without_underscores digits)
         else None) with
  | Some u =>
      Ok (if negative then Z.opp (Z.of_uint u) else Z.of_uint u)
  | None =>
      Raise (mkExc ValueError
               ("invalid literal for int() with base 10: '" +:+ s +:+ "'")
               None)
  end.

Definition example_float (s : string) : Result float :=
  if decide (s = "5.0") then Ok Constants.DEFAULT_RETRY_DELAY
  else if decide (s = "0.1") then Ok Constants.DEFAULT_SEND_DELAY
  else Raise (mkExc ValueError
                ("could not convert string to float: '" +:+ s +:+ "'")
                None).

Definition example_repr (o : PyObj) : string :=
  match o with
  | PNone => "None"
  | PBool true => "True"
  | PBool false => "False"
  | PInt z => DecimalString.NilZero.string_of_int (Z.to_int z)
  | PFloat f =>
      if PrimFloat.eqb f Constants.DEFAULT_RETRY_DELAY then "5.0"
      else "0.1"
  | PStr s => s
  | PStrs _ => "[...]"
  end.

Definition example_runtime : PyRuntime.
Proof.
  refine {| py_int := example_int;
            py_float := example_float;
            py_repr := example_repr;
            py_dict_iter_modified V _ _ _ :=
              iter_error "dictionary keys changed during iteration" |}.
  - intros s e. unfold example_int.
    destruct (PyStr.strip s) as [|c rest]; simpl;
      repeat match goal with
             | |- context [match ?x with _ => _ end] => destruct x
             end;
      try discriminate; intros [= <-]; reflexivity.
  - intros s e. unfold example_float.
    destruct (decide (s = "5.0")); [discriminate|].
    destruct (decide (s = "0.1")); [discriminate|].
    intros [= <-]. reflexivity.
Defined.

(** A mapping whose debug flag is the string "false". *)
Definition debug_false_mapping : gmap string PyObj :=
  <["jid" := PStr "bot@example.com"]>
    (<["password" := PStr "secret"]>
       (<["default_receiver" := PStr "user@example.com"]>
          (<["debug" := PStr "false"]> ∅))).

(** An environment whose debug flag is the string "false". *)
Definition debug_false_environ : gmap string string :=
  <["XMPP_JID" := "bot@example.com"]>
    (<["XMPP_PASSWORD" := "secret"]>
       (<["XMPP_DEFAULT_RECEIVER" := "user@example.com"]>
          (<["XMPP_DEBUG" := "false"]> ∅))).

End Examples.

(* ===================================================================== *)
(** ** Further observations                                               *)
(* ===================================================================== *)

(** The addresses [JID_PATTERN] is meant to accept: a non-empty local
    part, "@", a non-empty domain part and, optionally, "/" and a
    non-empty resource; no "@" inside any part, no "/" inside the domain
    part. *)
Definition jid_shape (s : string) : Prop :=
  exists lp dp : string,
    lp <> "" /\ dp <> ""
    /\ PyStr.contains "@" lp = false
    /\ PyStr.contains "@" dp = false
    /\ PyStr.contains "/" dp = false
    /\ (s = lp +:+ "@" +:+ dp
        \/ exists res : string,
             res <> "" /\ PyStr.contains "@" res = false
             /\ s = lp +:+ "@" +:+ dp +:+ "/" +:+ res).

(** The same, on the characters of the string. *)
Definition jid_parts (w : list ascii) : Prop :=
  exists lp dp : list ascii,
    lp <> [] /\ dp <> [] /\
    ("@"%char ∉ lp) /\ ("@"%char ∉ dp) /\ ("/"%char ∉ dp) /\
    (w = lp ++ "@"%char :: dp
     \/ exists res, res <> [] /\ ("@"%char ∉ res)
                    /\ w = lp ++ "@"%char :: dp ++ "/"%char :: res).

(** An environment and a mapping that hold the three required values and
    nothing else. *)
Definition minimal_environ : gmap string string :=
  <["XMPP_JID" := "bot@example.com"]>
    (<["XMPP_PASSWORD" := "secret"]>
       (<["XMPP_DEFAULT_RECEIVER" := "user@example.com"]> ∅)).

Definition minimal_mapping : gmap string PyObj :=
  <["jid" := PStr "bot@example.com"]>
    (<["password" := PStr "secret"]>
       (<["default_receiver" := PStr "user@example.com"]> ∅)).

(** The method calls a [HandlerRegistry] can receive, and the registry
    they leave. *)
Inductive RegistryCall : Type :=
| registry_add_message (name : string) (h : MessageHandler)
| registry_remove_message (name : string)
| registry_add_presence (name : string) (h : PresenceHandler)
| registry_remove_presence (name : string)
| registry_clear.

Definition run_registry_call (c : RegistryCall)
  : M Handlers.HandlerRegistry unit :=
  match c with
  | registry_add_message name h => Handlers.add_message_handler name h
  | registry_remove_message name => Handlers.remove_message_handler name
  | registry_add_presence name h => Handlers.add_presence_handler name h
  | registry_remove_presence name => Handlers.remove_presence_handler name
  | registry_clear => Handlers.clear
  end.

Fixpoint registry_after (history : list RegistryCall)
    (r : Handlers.HandlerRegistry) : Handlers.HandlerRegistry :=
  match history with
  | [] => r
  | c :: rest => registry_after rest (final_state (run_registry_call c r))
  end.

(** No name is registered twice in a mapping. *)
Definition registry_unique (r : Handlers.HandlerRegistry) : Prop :=
  NoDup (PyDict.keys (Handlers._message_handlers r))
  /\ NoDup (PyDict.keys (Handlers._presence_handlers r)).

(** Every presence handler registered on the bot, sync then async, as the
    invocation a dispatch of [p] owes it. *)
Definition owed_presence_invocations (b : Bot.XmppBot) (p : Presence)
  : list PresenceInvocation :=
  map (fun h => SyncPresenceCall h (jid_str (presence_from p))
                  (presence_type p) (presence_status p) p)
      (Handlers.get_presence_handlers (Bot._handlers b))
  ++ map (fun h => AsyncPresenceCall h (jid_str (presence_from p))
                     (presence_type p) (presence_status p) p)
         (LiveDict.values (Bot._async_presence_handlers b)).

Definition presence_handlers_ordinary `{Bot.HandlerWorld} (b : Bot.XmppBot)
    (p : Presence) : Prop :=
  Forall (fun h =>
            let run := Bot.run_presence_handler h (jid_str (presence_from p))
                         (presence_type p) (presence_status p) p b in
            self_contained b run /\ within_Exception run)
         (Handlers.get_presence_handlers (Bot._handlers b)
          ++ LiveDict.values (Bot._async_presence_handlers b)).

(** A property of the bot that the event callbacks cannot break: they set
    the connected flag off, set the session flag either way, and record an
    authentication failure. *)
Definition event_stable (P : Bot.XmppBot -> Prop) : Prop :=
  (forall b, P b -> P (Bot.set_connected false b))
  /\ (forall v b, P b -> P (Bot.set_session_started v b))
  /\ (forall b, P b -> P (Bot.set_auth_error (Some "Authentication failed")
                                             b)).

(** A script in which the transport fires nothing. *)
Definition quiet (script : list Bot.Tick) : Prop :=
  Forall (fun tick => Bot.fired tick = []) script.

(** The effects of [initialize] up to the start of the wait. *)
Definition connect_prelude (s : Config.Settings) : list Effect :=
  (if Config.debug s then [BasicConfig] else [])
  ++ [Log INFO (Constants.LOG_CONNECTING (Config.jid s));
      NewClient (Config.full_jid s) (Config.password s);
      AddEventHandler "session_start"; AddEventHandler "message";
      AddEventHandler "presence_subscribe"; AddEventHandler "presence";
      AddEventHandler "failed_auth"; AddEventHandler "disconnected";
      Connect].

(** The bot as [_connect] leaves it when the wait begins. *)
Definition connecting (s : Config.Settings) (transport : Bot.Transport)
    (b : Bot.XmppBot) : Bot.XmppBot :=
  Bot.set_auth_error None
    (Bot.set_session_started false
       (Bot.set_client
          (Some (Bot.mkClient (Config.full_jid s) (Config.password s)
                              transport))
          (Bot.set_settings (Some s) b))).

Definition timeout_error `{PyRuntime} (s : Config.Settings) : PyExc :=
  mkExc ConnectionError
        ("Connection timed out after "
         +:+ py_str (PInt (Config.connect_timeout s)) +:+ " seconds") None.

(** The URL [send_url] builds. *)
Definition joined_url (base_url path : string) : string :=
  PyStr.rstrip_char "/" base_url +:+ "/" +:+ PyStr.lstrip_char "/" path.

(** Every effect of the method, from any state, satisfies [Q]. *)
Definition emits_only {S A} (Q : Effect -> Prop) (m : M S A) : Prop :=
  forall s, Forall Q (trace (m s)).


(** How [initialize] obtains its settings: the argument, or the
    environment. *)
Definition resolved `{PyRuntime} (settings : option Config.Settings)
    (environ : gmap string string) (s : Config.Settings) : Prop :=
  match settings with
  | Some given => given = s
  | None => Config.from_env environ = Ok s
  end.

(** What the events of the wait leave alone, and the one value they give
    the authentication error. *)
Definition waiting_for (s : Config.Settings) (transport : Bot.Transport)
    (b x : Bot.XmppBot) : Prop :=
  Bot._settings x = Some s
  /\ Bot._client x
     = Some (Bot.mkClient (Config.full_jid s) (Config.password s) transport)
  /\ Bot._initialized x = Bot._initialized b
  /\ Bot._handlers x = Bot._handlers b
  /\ Bot._async_message_handlers x = Bot._async_message_handlers b
  /\ Bot._async_presence_handlers x = Bot._async_presence_handlers b
  /\ (Bot._auth_error x = None
      \/ Bot._auth_error x = Some "Authentication failed").

(** A bot with two sync presence handlers, the first of which raises,
    and one async presence handler; and a presence from an address the
    allow-list of its settings rejects. *)
Definition presence_bot : Bot.XmppBot :=
  Bot.set_async_presence_handlers
    (LiveDict.mkDict [("third", Examples.returns_presence_handler)] 1)
    (Bot.set_handlers
       (Handlers.mkRegistry
          [] [("first", Examples.failing_presence_handler);
              ("second", Examples.returns_presence_handler)])
       Examples.dispatch_bot).

(** The same bot with two async presence handlers, the first of which
    unregisters itself. *)
Definition one_shot_presence_bot : Bot.XmppBot :=
  Bot.set_async_presence_handlers
    (LiveDict.mkDict [("once", Examples.one_shot_presence_handler);
                      ("later", Examples.returns_presence_handler)] 2)
    presence_bot.

Definition stranger_presence : Presence :=
  mkPresence (mkJID "stranger@example.com/phone" "stranger@example.com")
             "available" "online".

(* ===================================================================== *)
(** ** tools/send_test_message.py                                         *)
(* ===================================================================== *)

Module Tool.
Local Open Scope method_scope.

(** [main()]: [initialize] reads the settings from the environment;
    [asleep] is what the transport fires during the one-second sleep. The
    closing [print] is the first case of [report]. *)
Definition main `{PyRuntime} `{Bot.HandlerWorld}
    (environ : gmap string string)
    (transport : Bot.Transport) (script : list Bot.Tick)
    (asleep : list Bot.ClientEvent) : M Bot.XmppBotClass unit :=
  Bot.on_instance
    (Bot.initialize None environ transport script ;;
     Bot.send_message "Test message from XMPP Bot" ;;
     emit Sleep ;;
     for_each asleep Bot.deliver ;;
     Bot.disconnect).

(** How the script ends: with the lines it printed, or with the
    exception no [except] clause took. *)
Inductive Exit : Type :=
| Printed (lines : list string)
| Uncaught (e : PyExc).

(** The [try] statement around [asyncio.run(main())]. *)
Definition report (r : Result unit) : Exit :=
  match r with
  | Ok _ => Printed ["Test message sent successfully!"]
  | Raise e =>
      if isinstance e AuthenticationError then
        Printed ["Authentication failed: " +:+ exc_msg e;
                 "Please check your JID and password in .env file."]
      else if isinstance e ConnectionError then
        Printed ["Connection failed: " +:+ exc_msg e;
                 "Please check your XMPP server address and ensure it is "
                 +:+ "reachable."]
      else if isinstance e XmppBotError then
        Printed ["Bot error: " +:+ exc_msg e;
                 "Please check your configuration in .env file."]
      else Uncaught e
  end.

(** The script, run in a fresh process. *)
Definition script_exit `{PyRuntime} `{Bot.HandlerWorld}
    (environ : gmap string string)
    (transport : Bot.Transport) (script : list Bot.Tick)
    (asleep : list Bot.ClientEvent) : Exit :=
  report (result (main environ transport script asleep None)).

End Tool.







(** No name is registered twice in an async mapping of the bot. *)
Definition async_unique (b : Bot.XmppBot) : Prop :=
  NoDup (LiveDict.keys (Bot._async_message_handlers b))
  /\ NoDup (LiveDict.keys (Bot._async_presence_handlers b)).
(* ===================================================================== *)
(** * Properties                                                          *)
(* ===================================================================== *)

(** ** Strings *)

Lemma split_nonempty sep s : exists hd tl, PyStr.split sep s = hd :: tl.
Proof.
  induction s as [|c s IH]; simpl; [eauto|].
  destruct (Ascii.eqb c sep); [eauto|].
  destruct IH as (hd & tl & ->). eauto.
Qed.

Lemma split_head_no_sep sep s :
  PyStr.contains sep (PyStr.split_head sep s) = false.
Proof.
  unfold PyStr.split_head.
  induction s as [|c s IH]; simpl; [reflexivity|].
  destruct (Ascii.eqb c sep) eqn:E; [reflexivity|].
  destruct (split_nonempty sep s) as (hd & tl & Hs).
  rewrite Hs in IH |- *. simpl. rewrite E, IH. reflexivity.
Qed.

Lemma split_head_id sep s :
  PyStr.contains sep s = false -> PyStr.split_head sep s = s.
Proof.
  unfold PyStr.split_head.
  induction s as [|c s IH]; simpl; [reflexivity|].
  intros H. apply orb_false_iff in H as [E H]. rewrite E.
  specialize (IH H).
  destruct (split_nonempty sep s) as (hd & tl & Hs).
  rewrite Hs in IH |- *. congruence.
Qed.

Lemma split_head_app sep bare res :
  PyStr.contains sep bare = false ->
  PyStr.split_head sep (bare +:+ String sep res) = bare.
Proof.
  unfold PyStr.split_head.
  induction bare as [|c s IH]; simpl.
  - intros _. rewrite Ascii.eqb_refl. reflexivity.
  - intros H. apply orb_false_iff in H as [E H]. rewrite E.
    specialize (IH H).
    destruct (split_nonempty sep (s +:+ String sep res)) as (hd & tl & Hs).
    unfold String.app in *. rewrite Hs in IH |- *. congruence.
Qed.

(** ** Settings: the allow-list *)

Lemma is_jid_allowed_unset (s : Config.Settings) jid :
  Config.allowed_jids s = None -> Config.is_jid_allowed s jid = true.
Proof. unfold Config.is_jid_allowed. intros ->. reflexivity. Qed.

Lemma is_jid_allowed_set (s : Config.Settings) (A : gset string) jid :
  Config.allowed_jids s = Some A ->
  Config.is_jid_allowed s jid = bool_decide (PyStr.split_head "/" jid ∈ A).
Proof. unfold Config.is_jid_allowed. intros ->. reflexivity. Qed.

(** C2. [is_jid_allowed] answers true for every address when the
    allow-list is unset; with a list set it looks up the candidate cut at
    its first "/", so an address with a resource is allowed exactly when
    its bare form is listed. With the list {"user@example.com"} it allows
    "user@example.com" and "user@example.com/resourceX" and rejects
    "stranger@example.com". *)
Theorem is_jid_allowed_bare_semantics :
  (forall (s : Config.Settings) jid,
      Config.allowed_jids s = None -> Config.is_jid_allowed s jid = true)
  /\ (forall (s : Config.Settings) (A : gset string) bare res,
        Config.allowed_jids s = Some A ->
        PyStr.contains "/" bare = false ->
        Config.is_jid_allowed s (bare +:+ "/" +:+ res)
        = Config.is_jid_allowed s bare
        /\ (Config.is_jid_allowed s bare = true <-> bare ∈ A))
  /\ (forall s : Config.Settings,
        Config.allowed_jids s = Some {["user@example.com"]} ->
        Config.is_jid_allowed s "user@example.com" = true
        /\ Config.is_jid_allowed s "user@example.com/resourceX" = true
        /\ Config.is_jid_allowed s "stranger@example.com" = false).
Proof.
  split; [exact is_jid_allowed_unset|].
  assert (Hbare : forall (s : Config.Settings) (A : gset string) bare res,
             Config.allowed_jids s = Some A ->
             PyStr.contains "/" bare = false ->
             Config.is_jid_allowed s (bare +:+ "/" +:+ res)
             = Config.is_jid_allowed s bare
             /\ (Config.is_jid_allowed s bare = true <-> bare ∈ A)).
  { intros s A bare res HA Hb.
    rewrite !(is_jid_allowed_set s A) by assumption.
    change (bare +:+ "/" +:+ res) with (bare +:+ String "/" res).
    rewrite split_head_app, split_head_id by assumption.
    split; [reflexivity|]. apply bool_decide_eq_true. }
  split; [exact Hbare|].
  intros s HA.
  destruct (Hbare s _ "user@example.com" "resourceX" HA eq_refl) as [E1 E2].
  assert (Hin : Config.is_jid_allowed s "user@example.com" = true)
    by (apply E2; set_solver).
  repeat split.
  - exact Hin.
  - exact (eq_trans E1 Hin).
  - destruct (Hbare s _ "stranger@example.com" "" HA eq_refl) as [_ E3].
    apply not_true_is_false. intros Hs. apply E3 in Hs.
    apply elem_of_singleton in Hs. discriminate.
Qed.

Lemma is_jid_allowed_bare_semantics_witness :
  Config.is_jid_allowed Examples.minimal_settings "anyone@anywhere.com" = true
  /\ Config.is_jid_allowed Examples.valid_settings "user@example.com/resource"
     = Config.is_jid_allowed Examples.valid_settings "user@example.com".
Proof.
  destruct is_jid_allowed_bare_semantics as [Hnone [Hbare _]].
  split.
  - apply Hnone. reflexivity.
  - exact (proj1 (Hbare Examples.valid_settings _ "user@example.com"
                          "resource" eq_refl eq_refl)).
Defined.

(** C10. Allow-list parsing accepts an entry that carries a resource
    ("user@example.com/res" matches the address pattern and ends up in the
    parsed set), and a list made only of entries that contain "/" denies
    every sender: the candidate is cut at its first "/" before the lookup,
    so it can equal none of them. *)
Theorem resource_entries_deny_all :
  Config.JID_PATTERN_match "user@example.com/res" = true
  /\ Config._parse_allowed_jids (Some "user@example.com/res")
     = Ok (Some (list_to_set ["user@example.com/res"]))
  /\ (forall (s : Config.Settings) (A : gset string),
        Config.allowed_jids s = Some A ->
        (forall e, e ∈ A -> PyStr.contains "/" e = true) ->
        forall jid, Config.is_jid_allowed s jid = false).
Proof.
  split; [vm_compute; reflexivity|].
  split; [vm_compute; reflexivity|].
  intros s A HA Hres jid.
  rewrite (is_jid_allowed_set s A) by assumption.
  apply bool_decide_eq_false. intros Hin.
  apply Hres in Hin. rewrite split_head_no_sep in Hin. discriminate.
Qed.

(** ** Regular expressions: what a successful match says *)

Lemma nullable_sound r : Regex.nullable r = true -> Regex.lang r [].
Proof.
  induction r; simpl; intros Hn; try discriminate.
  - constructor.
  - apply andb_true_iff in Hn as [H1 H2].
    change (@nil ascii) with (@nil ascii ++ []). constructor; auto.
  - apply orb_true_iff in Hn as [H1 | H2].
    + apply Regex.lang_alt_l; auto.
    + apply Regex.lang_alt_r; auto.
  - constructor.
Qed.

Lemma deriv_sound r : forall a w,
  Regex.lang (Regex.deriv a r) w -> Regex.lang r (a :: w).
Proof.
  induction r as [| |c|cs|r1 IH1 r2 IH2|r1 IH1 r2 IH2|r1 IH1];
    intros a w Hl; simpl in Hl.
  - inversion Hl.
  - inversion Hl.
  - destruct (Ascii.eqb a c) eqn:E; inversion Hl; subst.
    apply Ascii.eqb_eq in E as ->. constructor.
  - destruct (Regex.mem_ascii a cs) eqn:E; inversion Hl; subst.
    constructor. exact E.
  - destruct (Regex.nullable r1) eqn:En.
    + inversion Hl as [| | | | ? ? ? Hc | ? ? ? Hr | |]; subst.
      * inversion Hc as [| | |? ? u v Hu Hv| | | |]; subst.
        change (a :: u ++ v) with ((a :: u) ++ v). constructor; auto.
      * change (a :: w) with ([] ++ a :: w).
        constructor; [apply nullable_sound; exact En | auto].
    + inversion Hl as [| | |? ? u v Hu Hv| | | |]; subst.
      change (a :: u ++ v) with ((a :: u) ++ v). constructor; auto.
  - inversion Hl; subst.
    + apply Regex.lang_alt_l; auto.
    + apply Regex.lang_alt_r; auto.
  - inversion Hl as [| | |? ? u v Hu Hv| | | |]; subst.
    change (a :: u ++ v) with ((a :: u) ++ v).
    apply Regex.lang_star_cons; auto.
Qed.

Lemma fullmatch_sound w : forall r,
  Regex.fullmatch r w = true -> Regex.lang r w.
Proof.
  induction w as [|a w IH]; simpl; intros r Hm.
  - apply nullable_sound; exact Hm.
  - apply deriv_sound, IH, Hm.
Qed.

Lemma mem_ascii_false a cs : Regex.mem_ascii a cs = false -> a ∉ cs.
Proof.
  induction cs as [|c cs IH]; simpl; intros Hm Hin.
  - inversion Hin.
  - apply orb_false_iff in Hm as [Hc Hm].
    apply elem_of_cons in Hin as [-> | Hin].
    + rewrite Ascii.eqb_refl in Hc. discriminate.
    + exact (IH Hm Hin).
Qed.

Lemma lang_star_notin cs r w :
  Regex.lang r w -> r = Regex.Star (Regex.NotIn cs) ->
  forall c, c ∈ cs -> c ∉ w.
Proof.
  induction 1 as [| | | | | | |r0 u v Hu _ Hv IHv]; intros Hr; try discriminate.
  - intros c _ Hin. inversion Hin.
  - injection Hr as ->. intros c Hc Hin.
    inversion Hu as [| |? a Hm| | | | |]; subst.
    apply elem_of_cons in Hin as [-> | Hin].
    + apply mem_ascii_false in Hm. contradiction.
    + exact (IHv eq_refl c Hc Hin).
Qed.

Lemma lang_plus_notin cs w :
  Regex.lang (Regex.Plus (Regex.NotIn cs)) w ->
  w <> [] /\ forall c, c ∈ cs -> c ∉ w.
Proof.
  intros Hl. inversion Hl as [| | |? ? u v Hu Hv| | | |]; subst.
  inversion Hu as [| |? a Hm| | | | |]; subst.
  split; [discriminate|].
  intros c Hc Hin. simpl in Hin.
  apply elem_of_cons in Hin as [-> | Hin].
  - apply mem_ascii_false in Hm. contradiction.
  - exact (lang_star_notin cs _ _ Hv eq_refl c Hc Hin).
Qed.

(** The shape of a word of [JID_PATTERN]'s language. *)
Lemma lang_JID_PATTERN w :
  Regex.lang Config.JID_PATTERN w ->
  exists lp dp : list ascii,
    lp <> [] /\ dp <> [] /\
    ("@"%char ∉ lp) /\ ("@"%char ∉ dp) /\ ("/"%char ∉ dp) /\
    (w = lp ++ "@"%char :: dp
     \/ exists res, res <> [] /\ ("@"%char ∉ res)
                    /\ w = lp ++ "@"%char :: dp ++ "/"%char :: res).
Proof.
  unfold Config.JID_PATTERN. intros Hl.
  inversion Hl as [| | |? ? lp v1 Hlp Hv1| | | |]; subst.
  inversion Hv1 as [| | |? ? at_ v2 Hat Hv2| | | |]; subst.
  inversion Hat; subst.
  inversion Hv2 as [| | |? ? dp v3 Hdp Hv3| | | |]; subst.
  apply lang_plus_notin in Hlp as [Hlp0 Hlp].
  apply lang_plus_notin in Hdp as [Hdp0 Hdp].
  exists lp, dp.
  repeat (split; [first [assumption | apply Hlp; set_solver
                        | apply Hdp; set_solver]|]).
  inversion Hv3 as [| | | | ? ? ? Hres | ? ? ? He | |]; subst.
  - right.
    inversion Hres as [| | |? ? sl res Hsl Hr| | | |]; subst.
    inversion Hsl; subst.
    apply lang_plus_notin in Hr as [Hr0 Hr].
    exists res. split; [assumption|].
    split; [apply Hr; set_solver|]. reflexivity.
  - left. inversion He; subst. rewrite app_nil_r. reflexivity.
Qed.

Lemma drop_last_newline_Some w w' :
  Regex.drop_last_newline w = Some w' -> w = w' ++ [Regex.newline].
Proof.
  unfold Regex.drop_last_newline.
  destruct (rev w) as [|c x] eqn:Hr; [discriminate|].
  destruct (Ascii.eqb c Regex.newline) eqn:E; [|discriminate].
  intros [= <-]. apply Ascii.eqb_eq in E as ->.
  rewrite <- (rev_involutive w), Hr. reflexivity.
Qed.

(** An address the pattern accepts is an address of the specification's
    grammar; so one that fails the grammar fails the pattern. *)
Lemma JID_PATTERN_match_grammar s :
  Config.JID_PATTERN_match s = true -> spec_address_grammar s.
Proof.
  unfold Config.JID_PATTERN_match, Regex.match_dollar, spec_address_grammar.
  intros Hm. apply orb_true_iff in Hm as [Hm | Hm].
  - apply fullmatch_sound, lang_JID_PATTERN in Hm
      as (lp & dp & _ & _ & H1 & H2 & H3 & [Hw | (res & _ & _ & Hw)]);
      exists lp, dp; repeat (split; [assumption|]); eauto.
  - destruct (Regex.drop_last_newline (list_ascii_of_string s)) as [w'|] eqn:Hd;
      [|discriminate].
    apply drop_last_newline_Some in Hd.
    apply fullmatch_sound, lang_JID_PATTERN in Hm
      as (lp & dp & _ & _ & H1 & H2 & H3 & [Hw | (res & _ & _ & Hw)]); subst w'.
    + exists lp, (dp ++ [Regex.newline]).
      split; [assumption|].
      split; [rewrite elem_of_app, list_elem_of_singleton;
              intros [?|?]; [contradiction|discriminate]|].
      split; [rewrite elem_of_app, list_elem_of_singleton;
              intros [?|?]; [contradiction|discriminate]|].
      left. rewrite Hd, <- app_assoc. reflexivity.
    + exists lp, dp. repeat (split; [assumption|]).
      right. exists (res ++ [Regex.newline]).
      rewrite Hd, <- !app_assoc. simpl. rewrite <- app_assoc. reflexivity.
Qed.

Lemma grammar_failure_fails_pattern s :
  ~ spec_address_grammar s -> Config.JID_PATTERN_match s = false.
Proof.
  intros Hn. apply not_true_is_false. intros Hm.
  exact (Hn (JID_PATTERN_match_grammar s Hm)).
Qed.

Lemma resource_entries_deny_all_witness :
  Config.is_jid_allowed
    (Config.mkSettings "bot@example.com" "secret" "user@example.com" ""
       (Some (list_to_set ["user@example.com/res"]))
       30 60 Constants.DEFAULT_RETRY_DELAY Constants.DEFAULT_SEND_DELAY
       "xmpp-bot" false)
    "user@example.com/res" = false.
Proof.
  destruct resource_entries_deny_all as (_ & _ & Hdeny).
  apply (Hdeny _ (list_to_set ["user@example.com/res"])); [reflexivity|].
  intros e He. apply elem_of_list_to_set, list_elem_of_singleton in He.
  subst e. reflexivity.
Defined.

(** ** Settings: validation *)

Section Validation.
Context `{PyRuntime}.
Import Config Constants.

Lemma truthy_false s : PyStr.truthy s = false <-> s = "".
Proof. destruct s; simpl; split; congruence. Qed.

Lemma ValueError_not_ConfigurationError e :
  exc_class e = ValueError -> isinstance e ConfigurationError = false.
Proof. unfold isinstance. intros ->. reflexivity. Qed.

Lemma validate_jid_spec jid field_name :
  match _validate_jid jid field_name with
  | Ok _ => JID_PATTERN_match jid = true
  | Raise e =>
      e = mkExc ValueError (ERR_INVALID_JID jid) None
      /\ JID_PATTERN_match jid = false
  end.
Proof.
  unfold _validate_jid. destruct (JID_PATTERN_match jid); simpl; auto.
Qed.

Lemma post_init_spec self :
  match __post_init__ self with
  | Ok _ => ~ ill_formed (jid self) (password self) (default_receiver self)
  | Raise e =>
      exc_class e = ValueError
      /\ ill_formed (jid self) (password self) (default_receiver self)
  end.
Proof.
  unfold __post_init__, ill_formed.
  destruct (PyStr.truthy (jid self)) eqn:Ej; simpl;
    [|apply truthy_false in Ej; auto].
  destruct (PyStr.truthy (password self)) eqn:Ep; simpl;
    [|apply truthy_false in Ep; auto].
  destruct (PyStr.truthy (default_receiver self)) eqn:Er; simpl;
    [|apply truthy_false in Er; auto].
  pose proof (validate_jid_spec (jid self) "JID") as Hj.
  destruct (_validate_jid (jid self) "JID") as [[]|e]; simpl.
  - pose proof (validate_jid_spec (default_receiver self)
                  "default receiver") as Hr.
    destruct (_validate_jid (default_receiver self) "default receiver")
      as [[]|e]; simpl.
    + intros [Hx|[Hx|[Hx|[Hn|Hn]]]]; try congruence;
        rewrite Hx in *; discriminate.
    + destruct Hr as [-> Hr]. auto 10.
  - destruct Hj as [-> Hj]. auto 10.
Qed.

Lemma new_Settings_spec jid pw recv base allowed ct ki rd sd res dbg :
  match new_Settings jid pw recv base allowed ct ki rd sd res dbg with
  | Ok s =>
      s = mkSettings jid pw recv base allowed ct ki rd sd res dbg
      /\ ~ ill_formed jid pw recv
  | Raise e => exc_class e = ValueError /\ ill_formed jid pw recv
  end.
Proof.
  unfold new_Settings.
  pose proof (post_init_spec
                (mkSettings jid pw recv base allowed ct ki rd sd res dbg))
    as Hp.
  destruct (__post_init__ _) as [[]|e]; simpl in *; auto.
Qed.

Lemma validate_each_raise jids e :
  validate_each jids = Raise e -> exc_class e = ValueError.
Proof.
  induction jids as [|j jids IH]; simpl; [discriminate|].
  pose proof (validate_jid_spec j "allowed JID") as Hj.
  destruct (_validate_jid j "allowed JID") as [[]|e']; simpl; [exact IH|].
  destruct Hj as [-> _]. intros [= <-]. reflexivity.
Qed.

Lemma parse_allowed_jids_raise value e :
  _parse_allowed_jids value = Raise e -> exc_class e = ValueError.
Proof.
  unfold _parse_allowed_jids.
  destruct value as [v|]; [|discriminate].
  destruct (PyStr.truthy v); simpl; [|discriminate].
  destruct (stripped_entries v) as [|j jids] eqn:Es; [discriminate|].
  destruct (validate_each (j :: jids)) as [[]|e'] eqn:Ev; simpl;
    [discriminate|].
  intros [= <-]. exact (validate_each_raise _ _ Ev).
Qed.

Lemma int_or_raise raw default e :
  int_or raw default = Raise e -> exc_class e = ValueError.
Proof.
  destruct raw; simpl; try discriminate; apply py_int_raises.
Qed.

Lemma float_or_raise raw default e :
  float_or raw default = Raise e -> exc_class e = ValueError.
Proof.
  destruct raw; simpl; try discriminate; apply py_float_raises.
Qed.

(** What [from_env] returns: settings that carry the environment's
    values and passed validation, or a [ValueError]. *)
Lemma from_env_spec environ :
  match from_env environ with
  | Ok s =>
      jid s = getenv environ ENV_JID ""
      /\ password s = getenv environ ENV_PASSWORD ""
      /\ default_receiver s = getenv environ ENV_DEFAULT_RECEIVER ""
      /\ debug s = _parse_bool (environ !! ENV_DEBUG) DEFAULT_DEBUG
      /\ ~ ill_formed (jid s) (password s) (default_receiver s)
  | Raise e => exc_class e = ValueError
  end.
Proof.
  unfold from_env.
  destruct (_parse_allowed_jids _) as [allowed|e] eqn:E1; simpl;
    [|exact (parse_allowed_jids_raise _ _ E1)].
  destruct (py_int (getenv environ ENV_CONNECT_TIMEOUT _))
    as [ct|e] eqn:E2; simpl; [|exact (py_int_raises _ _ E2)].
  destruct (py_int (getenv environ ENV_KEEPALIVE_INTERVAL _))
    as [ki|e] eqn:E3; simpl; [|exact (py_int_raises _ _ E3)].
  destruct (py_float (getenv environ ENV_RETRY_DELAY _))
    as [rd|e] eqn:E4; simpl; [|exact (py_float_raises _ _ E4)].
  destruct (py_float (getenv environ ENV_SEND_DELAY _))
    as [sd|e] eqn:E5; simpl; [|exact (py_float_raises _ _ E5)].
  match goal with
  | |- context [new_Settings ?j ?p ?r ?b ?a ?c ?k ?x ?y ?z ?d] =>
      pose proof (new_Settings_spec j p r b a c k x y z d) as Hs;
      destruct (new_Settings j p r b a c k x y z d) as [s|e]
  end.
  - destruct Hs as [-> Hw]. simpl. auto.
  - tauto.
Qed.

(** The same for [from_dict], where it yields a [Settings] at all. *)
Lemma from_dict_spec data r :
  from_dict data = Some r ->
  match r with
  | Ok s =>
      jid s = py_str (dict_get_default data "jid" (PStr ""))
      /\ password s = py_str (dict_get_default data "password" (PStr ""))
      /\ default_receiver s
         = py_str (dict_get_default data "default_receiver" (PStr ""))
      /\ debug s
         = py_bool (dict_get_default data "debug" (PBool DEFAULT_DEBUG))
      /\ ~ ill_formed (jid s) (password s) (default_receiver s)
  | Raise e => exc_class e = ValueError
  end.
Proof.
  unfold from_dict.
  destruct (allowed_jids_of _) as [ra|] eqn:Ea; [|discriminate].
  intros [= <-].
  assert (Hra : forall e, ra = Raise e -> exc_class e = ValueError).
  { intros e ->. unfold allowed_jids_of in Ea.
    destruct (dict_get data "allowed_jids") as [| | | |v|l];
      try discriminate.
    injection Ea as Ea. exact (parse_allowed_jids_raise (Some v) _ Ea). }
  destruct ra as [allowed|e]; simpl; [|auto].
  destruct (int_or (dict_get data "connect_timeout") _)
    as [ct|e] eqn:E2; simpl; [|exact (int_or_raise _ _ _ E2)].
  destruct (int_or (dict_get data "keepalive_interval") _)
    as [ki|e] eqn:E3; simpl; [|exact (int_or_raise _ _ _ E3)].
  destruct (float_or (dict_get data "retry_delay") _)
    as [rd|e] eqn:E4; simpl; [|exact (float_or_raise _ _ _ E4)].
  destruct (float_or (dict_get data "send_delay") _)
    as [sd|e] eqn:E5; simpl; [|exact (float_or_raise _ _ _ E5)].
  match goal with
  | |- context [new_Settings ?j ?p ?r ?b ?a ?c ?k ?x ?y ?z ?d] =>
      pose proof (new_Settings_spec j p r b a c k x y z d) as Hs;
      destruct (new_Settings j p r b a c k x y z d) as [s|e]
  end.
  - destruct Hs as [-> Hw]. simpl. auto.
  - tauto.
Qed.

End Validation.

Lemma initialize_from_env_raises `{PyRuntime} `{Bot.HandlerWorld} environ e
    transport script b :
  Bot._initialized b = false ->
  Config.from_env environ = Raise e ->
  Bot.initialize None environ transport script b = (b, [], Raise e).
Proof.
  intros Hi He. unfold Bot.initialize, bind, get, Bot.of_result.
  rewrite Hi, He. reflexivity.
Qed.

(** C4, as the code has it. Constructing [Settings] with an empty
    identity, credential or default recipient, or with an identity or
    default recipient that the address pattern rejects, raises the built-in
    [ValueError], which is not a [ConfigurationError]: directly, through
    [from_env] and through [from_dict]. Inside [initialize] the failure of
    [from_env] leaves the bot untouched and the trace empty, so nothing
    has reached the network. Construction with non-empty fields whose
    addresses match the pattern succeeds; an address outside the
    specification's grammar is outside the pattern. *)
Theorem invalid_settings_raise_ValueError `{PyRuntime} `{Bot.HandlerWorld} :
  (forall jid pw recv base allowed ct ki rd sd res dbg,
      ill_formed jid pw recv ->
      exists e,
        Config.new_Settings jid pw recv base allowed ct ki rd sd res dbg
        = Raise e
        /\ exc_class e = ValueError
        /\ isinstance e ConfigurationError = false)
  /\ (forall environ,
        ill_formed (Config.getenv environ Constants.ENV_JID "")
                   (Config.getenv environ Constants.ENV_PASSWORD "")
                   (Config.getenv environ Constants.ENV_DEFAULT_RECEIVER "") ->
        exists e,
          Config.from_env environ = Raise e
          /\ exc_class e = ValueError
          /\ isinstance e ConfigurationError = false
          /\ forall transport script,
               Bot.initialize None environ transport script Bot.new_bot
               = (Bot.new_bot, [], Raise e))
  /\ (forall data r,
        Config.from_dict data = Some r ->
        ill_formed
          (py_str (Config.dict_get_default data "jid" (PStr "")))
          (py_str (Config.dict_get_default data "password" (PStr "")))
          (py_str (Config.dict_get_default data "default_receiver"
                     (PStr ""))) ->
        exists e,
          r = Raise e
          /\ exc_class e = ValueError
          /\ isinstance e ConfigurationError = false)
  /\ (forall jid pw recv base allowed ct ki rd sd res dbg,
        jid <> "" -> pw <> "" -> recv <> "" ->
        Config.JID_PATTERN_match jid = true ->
        Config.JID_PATTERN_match recv = true ->
        Config.new_Settings jid pw recv base allowed ct ki rd sd res dbg
        = Ok (Config.mkSettings jid pw recv base allowed ct ki rd sd res
                                dbg))
  /\ (forall address,
        ~ spec_address_grammar address ->
        Config.JID_PATTERN_match address = false).
Proof.
  repeat apply conj.
  - intros jid pw recv base allowed ct ki rd sd res dbg Hbad.
    pose proof (new_Settings_spec jid pw recv base allowed ct ki rd sd res
                  dbg) as Hs.
    destruct (Config.new_Settings _ _ _ _ _ _ _ _ _ _ _) as [s|e].
    + destruct Hs as [_ Hs]. contradiction.
    + exists e. destruct Hs as [Hs _].
      auto using ValueError_not_ConfigurationError.
  - intros environ Hbad.
    pose proof (from_env_spec environ) as Hs.
    destruct (Config.from_env environ) as [s|e] eqn:Ee.
    + destruct Hs as (Hj & Hp & Hr & _ & Hw).
      rewrite Hj, Hp, Hr in Hw. contradiction.
    + exists e. repeat split;
        auto using ValueError_not_ConfigurationError.
      intros transport script.
      apply initialize_from_env_raises; [reflexivity | exact Ee].
  - intros data r Hr Hbad.
    pose proof (from_dict_spec data r Hr) as Hs.
    destruct r as [s|e].
    + destruct Hs as (Hj & Hp & Hd & _ & Hw).
      rewrite Hj, Hp, Hd in Hw. contradiction.
    + exists e. auto using ValueError_not_ConfigurationError.
  - intros jid pw recv base allowed ct ki rd sd res dbg Hj Hp Hr Hmj Hmr.
    pose proof (new_Settings_spec jid pw recv base allowed ct ki rd sd res
                  dbg) as Hs.
    destruct (Config.new_Settings _ _ _ _ _ _ _ _ _ _ _) as [s|e].
    + destruct Hs as [-> _]. reflexivity.
    + destruct Hs as [_ [?|[?|[?|[?|?]]]]]; congruence.
  - exact grammar_failure_fails_pattern.
Qed.

Lemma invalid_settings_raise_ValueError_witness :
  (exists e,
      Config.new_Settings_minimal "" "secret" "user@example.com" = Raise e
      /\ exc_class e = ValueError
      /\ isinstance e ConfigurationError = false)
  /\ Config.new_Settings_minimal "bot@example.com" "secret"
       "user@example.com"
     = Ok Examples.minimal_settings.
Proof.
  destruct (@invalid_settings_raise_ValueError Examples.example_runtime
              Examples.example_world)
    as (Hbad & _ & _ & Hok & _).
  split.
  - apply Hbad. left. reflexivity.
  - apply Hok; [discriminate | discriminate | discriminate
               | vm_compute; reflexivity | vm_compute; reflexivity].
Defined.

(** C4, as the specification states it, fails: the error raised for an
    empty identity is a [ValueError], not a [ConfigurationError]. And an
    identity whose resource holds an "@" is an address of the
    specification's grammar that the constructor rejects. *)
Lemma settings_error_is_not_ConfigurationError :
  Config.new_Settings_minimal "" "secret" "user@example.com"
  = Raise (mkExc ValueError "JID is required" None)
  /\ ~ raises (Config.new_Settings_minimal "" "secret" "user@example.com")
              ConfigurationError
  /\ spec_address_grammar "bot@example.com/home@work"
  /\ Config.new_Settings_minimal "bot@example.com/home@work" "secret"
       "user@example.com"
     = Raise (mkExc ValueError
                "Invalid JID format: bot@example.com/home@work" None).
Proof.
  split; [reflexivity|]. split; [vm_compute; discriminate|].
  split; [|vm_compute; reflexivity].
  exists (list_ascii_of_string "bot"), (list_ascii_of_string "example.com").
  assert (Hnot : forall (c : ascii) w,
             Regex.mem_ascii c w = false -> c ∉ w)
    by exact mem_ascii_false.
  split; [apply Hnot; reflexivity|].
  split; [apply Hnot; reflexivity|].
  split; [apply Hnot; reflexivity|].
  right. exists (list_ascii_of_string "home@work"). reflexivity.
Qed.

(** ** Settings: the debug flag *)

Lemma parse_bool_tokens v default :
  Config._parse_bool (Some v) default = true
  <-> PyStr.lower v ∈ ["true"; "1"; "yes"; "on"].
Proof. unfold Config._parse_bool. apply bool_decide_eq_true. Qed.

(** [from_env] follows the truthy-token rule. *)
Lemma from_env_debug_rule `{PyRuntime} environ s v :
  Config.from_env environ = Ok s ->
  environ !! Constants.ENV_DEBUG = Some v ->
  Config.debug s = true <-> PyStr.lower v ∈ ["true"; "1"; "yes"; "on"].
Proof.
  intros Hs Hv. pose proof (from_env_spec environ) as Hspec.
  rewrite Hs in Hspec. destruct Hspec as (_ & _ & _ & -> & _).
  rewrite Hv. apply parse_bool_tokens.
Qed.

(** [from_dict] does not: whatever it returns for a mapping whose debug
    value is a non-empty string has the flag set. *)
Lemma from_dict_debug_nonempty_string `{PyRuntime} data s v :
  Config.from_dict data = Some (Ok s) ->
  data !! "debug" = Some (PStr v) -> v <> "" ->
  Config.debug s = true.
Proof.
  intros Hs Hv Hne. pose proof (from_dict_spec data _ Hs) as Hspec.
  destruct Hspec as (_ & _ & _ & -> & _).
  unfold Config.dict_get_default. rewrite Hv. simpl.
  destruct v; [contradiction | reflexivity].
Qed.

(** C9. On the mapping {jid: "bot@example.com", password: "secret",
    default_receiver: "user@example.com", debug: "false"}, [from_dict]
    returns settings whose debug field is true, although "false" is not a
    truthy token: [_parse_bool] answers false on it, and [from_env] on the
    same four values returns settings with the flag off. *)
Theorem from_dict_debug_ignores_tokens :
  (exists s,
      Config.from_dict (H:=Examples.example_runtime)
        Examples.debug_false_mapping = Some (Ok s)
      /\ Config.debug s = true)
  /\ Config._parse_bool (Some "false") Constants.DEFAULT_DEBUG = false
  /\ (exists s,
        Config.from_env (H:=Examples.example_runtime)
          Examples.debug_false_environ = Ok s
        /\ Config.debug s = false).
Proof.
  split; [|split].
  - eexists. split; [vm_compute; reflexivity | reflexivity].
  - reflexivity.
  - eexists. split; [vm_compute; reflexivity | reflexivity].
Qed.

(** ** Dictionaries *)

Section DictFacts.
Context {V : Type}.
Implicit Types (d : PyDict.dict V) (name k : string) (v : V).

Lemma dict_contains_get name d :
  PyDict.contains name d = true <-> is_Some (PyDict.get name d).
Proof.
  induction d as [|[k x] d IH]; simpl.
  - split; [discriminate | intros [? ?]; discriminate].
  - destruct (decide (k = name)); [|exact IH].
    split; eauto.
Qed.

Lemma dict_get_absent name d :
  PyDict.contains name d = false <-> PyDict.get name d = None.
Proof.
  induction d as [|[k x] d IH]; simpl; [tauto|].
  destruct (decide (k = name)); [|exact IH].
  split; discriminate.
Qed.

Lemma dict_contains_keys name d :
  PyDict.contains name d = true <-> name ∈ PyDict.keys d.
Proof.
  induction d as [|[k x] d IH]; simpl.
  - split; [discriminate | intros Hin; inversion Hin].
  - rewrite elem_of_cons. destruct (decide (k = name)) as [->|Hne].
    + tauto.
    + rewrite IH. split; [tauto|]. intros [->|?]; [contradiction|done].
Qed.

Lemma dict_get_set_eq name v d : PyDict.get name (PyDict.set name v d) = Some v.
Proof.
  induction d as [|[k x] d IH]; simpl.
  - destruct (decide (name = name)); congruence.
  - destruct (decide (k = name)) as [->|Hne]; simpl.
    + destruct (decide (name = name)); congruence.
    + destruct (decide (k = name)); [contradiction | exact IH].
Qed.

Lemma dict_get_set_ne name k v d :
  name <> k -> PyDict.get k (PyDict.set name v d) = PyDict.get k d.
Proof.
  intros Hne. induction d as [|[k' x] d IH]; simpl.
  - destruct (decide (name = k)); [contradiction | reflexivity].
  - destruct (decide (k' = name)) as [->|Hne']; simpl.
    + destruct (decide (name = k)); [contradiction | reflexivity].
    + destruct (decide (k' = k)); [reflexivity | exact IH].
Qed.

(** Assigning to a key that is present keeps the keys, and their order. *)
Lemma dict_keys_set_present name v d :
  PyDict.contains name d = true ->
  PyDict.keys (PyDict.set name v d) = PyDict.keys d.
Proof.
  induction d as [|[k x] d IH]; simpl; [discriminate|].
  destruct (decide (k = name)); simpl; [reflexivity|].
  intros Hc. rewrite (IH Hc). reflexivity.
Qed.

Lemma dict_keys_set_absent name v d :
  PyDict.contains name d = false ->
  PyDict.keys (PyDict.set name v d) = PyDict.keys d ++ [name].
Proof.
  induction d as [|[k x] d IH]; simpl; [reflexivity|].
  destruct (decide (k = name)); simpl; [discriminate|].
  intros Hc. rewrite (IH Hc). reflexivity.
Qed.

Lemma dict_contains_set name v d :
  PyDict.contains name (PyDict.set name v d) = true.
Proof. apply dict_contains_get. rewrite dict_get_set_eq. eauto. Qed.

Lemma dict_contains_del name d :
  NoDup (PyDict.keys d) -> PyDict.contains name (PyDict.del name d) = false.
Proof.
  induction d as [|[k x] d IH]; simpl; [reflexivity|].
  intros Hnd. apply NoDup_cons in Hnd as [Hk Hnd].
  destruct (decide (k = name)) as [->|Hne]; simpl.
  - apply not_true_is_false. rewrite dict_contains_keys. exact Hk.
  - destruct (decide (k = name)); [contradiction | exact (IH Hnd)].
Qed.

Lemma dict_get_del_ne name k d :
  name <> k -> PyDict.get k (PyDict.del name d) = PyDict.get k d.
Proof.
  intros Hne. induction d as [|[k' x] d IH]; simpl; [reflexivity|].
  destruct (decide (k' = name)) as [->|Hne']; simpl.
  - destruct (decide (name = k)); [contradiction | reflexivity].
  - destruct (decide (k' = k)); [reflexivity | exact IH].
Qed.

Lemma dict_keys_del_sublist name d :
  sublist (PyDict.keys (PyDict.del name d)) (PyDict.keys d).
Proof.
  induction d as [|[k x] d IH]; simpl; [constructor|].
  destruct (decide (k = name)); simpl.
  - apply sublist_cons. reflexivity.
  - apply sublist_skip. exact IH.
Qed.

(** The two updates keep the keys distinct. *)
Lemma dict_set_NoDup name v d :
  NoDup (PyDict.keys d) -> NoDup (PyDict.keys (PyDict.set name v d)).
Proof.
  intros Hnd. destruct (PyDict.contains name d) eqn:Hc.
  - rewrite dict_keys_set_present by assumption. exact Hnd.
  - rewrite dict_keys_set_absent by assumption.
    apply NoDup_app. split; [exact Hnd|]. split; [|apply NoDup_singleton].
    intros k Hk Hk'. apply list_elem_of_singleton in Hk'. subst k.
    apply dict_contains_keys in Hk. congruence.
Qed.

Lemma dict_del_NoDup name d :
  NoDup (PyDict.keys d) -> NoDup (PyDict.keys (PyDict.del name d)).
Proof.
  intros Hnd. eapply sublist_NoDup; [exact Hnd|apply dict_keys_del_sublist].
Qed.

End DictFacts.

(** ** The handler registry *)

(** C8. In the sync registry, for messages and for presence alike: adding
    under a name that is free succeeds and registers the handler; adding
    under a name that is taken raises [HandlerExistsError] and changes
    nothing, so after two adds under one name the first handler is still
    the one registered; removing a name that is not registered raises
    [HandlerNotFoundError] and changes nothing. *)
Theorem registry_add_remove_errors :
  (forall r name h,
      Handlers.has_message_handler r name = false ->
      let run := Handlers.add_message_handler name h r in
      result run = Ok tt
      /\ PyDict.get name (Handlers._message_handlers (final_state run))
         = Some h
      /\ Handlers._presence_handlers (final_state run)
         = Handlers._presence_handlers r)
  /\ (forall r name h,
        Handlers.has_message_handler r name = true ->
        Handlers.add_message_handler name h r
        = (r, [], Raise (mkExc HandlerExistsError
                           (Constants.ERR_HANDLER_EXISTS name) None)))
  /\ (forall r name h h',
        Handlers.has_message_handler r name = false ->
        let r1 := final_state (Handlers.add_message_handler name h r) in
        let run := Handlers.add_message_handler name h' r1 in
        result run = Raise (mkExc HandlerExistsError
                              (Constants.ERR_HANDLER_EXISTS name) None)
        /\ PyDict.get name (Handlers._message_handlers (final_state run))
           = Some h)
  /\ (forall r name,
        Handlers.has_message_handler r name = false ->
        Handlers.remove_message_handler name r
        = (r, [], Raise (mkExc HandlerNotFoundError
                           (Constants.ERR_HANDLER_NOT_FOUND name) None)))
  /\ (forall r name h,
        Handlers.has_presence_handler r name = false ->
        let run := Handlers.add_presence_handler name h r in
        result run = Ok tt
        /\ PyDict.get name (Handlers._presence_handlers (final_state run))
           = Some h
        /\ Handlers._message_handlers (final_state run)
           = Handlers._message_handlers r)
  /\ (forall r name h,
        Handlers.has_presence_handler r name = true ->
        Handlers.add_presence_handler name h r
        = (r, [], Raise (mkExc HandlerExistsError
                           (Constants.ERR_HANDLER_EXISTS name) None)))
  /\ (forall r name h h',
        Handlers.has_presence_handler r name = false ->
        let r1 := final_state (Handlers.add_presence_handler name h r) in
        let run := Handlers.add_presence_handler name h' r1 in
        result run = Raise (mkExc HandlerExistsError
                              (Constants.ERR_HANDLER_EXISTS name) None)
        /\ PyDict.get name (Handlers._presence_handlers (final_state run))
           = Some h)
  /\ (forall r name,
        Handlers.has_presence_handler r name = false ->
        Handlers.remove_presence_handler name r
        = (r, [], Raise (mkExc HandlerNotFoundError
                           (Constants.ERR_HANDLER_NOT_FOUND name) None))).
Proof.
  unfold Handlers.has_message_handler, Handlers.has_presence_handler.
  repeat apply conj.
  - intros r name h Hc.
    unfold Handlers.add_message_handler, bind, get, modify, emit.
    rewrite Hc. cbn. rewrite dict_get_set_eq. auto.
  - intros r name h Hc.
    unfold Handlers.add_message_handler, bind, get, raise.
    rewrite Hc. reflexivity.
  - intros r name h h' Hc. cbv zeta.
    assert (Hr1 : final_state (Handlers.add_message_handler name h r)
                  = Handlers.set_message_handlers
                      (PyDict.set name h (Handlers._message_handlers r)) r).
    { unfold Handlers.add_message_handler, bind, get, modify, emit.
      rewrite Hc. reflexivity. }
    rewrite Hr1.
    unfold Handlers.add_message_handler, bind, get, raise. cbn.
    rewrite dict_contains_set. cbn. rewrite dict_get_set_eq. auto.
  - intros r name Hc.
    unfold Handlers.remove_message_handler, bind, get, raise.
    rewrite Hc. reflexivity.
  - intros r name h Hc.
    unfold Handlers.add_presence_handler, bind, get, modify, emit.
    rewrite Hc. cbn. rewrite dict_get_set_eq. auto.
  - intros r name h Hc.
    unfold Handlers.add_presence_handler, bind, get, raise.
    rewrite Hc. reflexivity.
  - intros r name h h' Hc. cbv zeta.
    assert (Hr1 : final_state (Handlers.add_presence_handler name h r)
                  = Handlers.set_presence_handlers
                      (PyDict.set name h (Handlers._presence_handlers r)) r).
    { unfold Handlers.add_presence_handler, bind, get, modify, emit.
      rewrite Hc. reflexivity. }
    rewrite Hr1.
    unfold Handlers.add_presence_handler, bind, get, raise. cbn.
    rewrite dict_contains_set. cbn. rewrite dict_get_set_eq. auto.
  - intros r name Hc.
    unfold Handlers.remove_presence_handler, bind, get, raise.
    rewrite Hc. reflexivity.
Qed.

Lemma registry_add_remove_errors_witness :
  result (Handlers.add_message_handler "echo" Examples.returns_handler
            Handlers.new_registry) = Ok tt
  /\ result (Handlers.add_message_handler "echo" Examples.failing_handler
               (final_state
                  (Handlers.add_message_handler "echo"
                     Examples.returns_handler Handlers.new_registry)))
     = Raise (mkExc HandlerExistsError "Handler 'echo' already registered"
                    None)
  /\ Handlers.remove_presence_handler "echo" Handlers.new_registry
     = (Handlers.new_registry, [],
        Raise (mkExc HandlerNotFoundError "Handler 'echo' not found" None)).
Proof.
  destruct registry_add_remove_errors
    as (Hadd & _ & Htwice & _ & _ & _ & _ & Hremove).
  split; [|split].
  - apply (Hadd Handlers.new_registry "echo" Examples.returns_handler).
    reflexivity.
  - apply (Htwice Handlers.new_registry "echo" Examples.returns_handler
             Examples.failing_handler).
    reflexivity.
  - apply (Hremove Handlers.new_registry "echo"). reflexivity.
Defined.

(** ** The bot's handler operations *)

Section LiveDictFacts.
Context {V : Type}.
Implicit Types d : LiveDict.dict V.

Lemma live_get_set_eq name v d :
  LiveDict.get name (LiveDict.set name v d) = Some v.
Proof. apply dict_get_set_eq. Qed.

Lemma live_get_set_ne name k v d :
  name <> k -> LiveDict.get k (LiveDict.set name v d) = LiveDict.get k d.
Proof. apply dict_get_set_ne. Qed.

Lemma live_keys_set_present name v d :
  LiveDict.contains name d = true ->
  LiveDict.keys (LiveDict.set name v d) = LiveDict.keys d.
Proof. apply dict_keys_set_present. Qed.

Lemma live_keys_set_absent name v d :
  LiveDict.contains name d = false ->
  LiveDict.keys (LiveDict.set name v d) = LiveDict.keys d ++ [name].
Proof. apply dict_keys_set_absent. Qed.

Lemma live_contains_del name d :
  NoDup (LiveDict.keys d) ->
  LiveDict.contains name (LiveDict.del name d) = false.
Proof. apply dict_contains_del. Qed.

Lemma live_get_del_ne name k d :
  name <> k -> LiveDict.get k (LiveDict.del name d) = LiveDict.get k d.
Proof. apply dict_get_del_ne. Qed.

Lemma live_set_NoDup name v d :
  NoDup (LiveDict.keys d) -> NoDup (LiveDict.keys (LiveDict.set name v d)).
Proof. apply dict_set_NoDup. Qed.

Lemma live_del_NoDup name d :
  NoDup (LiveDict.keys d) -> NoDup (LiveDict.keys (LiveDict.del name d)).
Proof. apply dict_del_NoDup. Qed.

Lemma filter_other_names name (ks : list string) :
  name ∉ ks -> filter (fun k => k <> name) ks = ks.
Proof.
  induction ks as [|k ks IH]; [reflexivity|].
  intros Hnot. apply not_elem_of_cons in Hnot as [Hne Hnot].
  rewrite filter_cons_True by congruence. rewrite IH by exact Hnot.
  reflexivity.
Qed.

(** Deleting a name takes one key away and keeps the others in place. *)
Lemma dict_keys_del name (l : PyDict.dict V) :
  NoDup (PyDict.keys l) ->
  PyDict.keys (PyDict.del name l)
  = filter (fun k => k <> name) (PyDict.keys l).
Proof.
  induction l as [|[k x] l IH]; simpl; [reflexivity|].
  intros Hnd. apply NoDup_cons in Hnd as [Hk Hnd].
  destruct (decide (k = name)) as [->|Hne]; simpl.
  - rewrite filter_cons_False by (intros Hx; apply Hx; reflexivity).
    symmetry. apply filter_other_names. exact Hk.
  - rewrite filter_cons_True by exact Hne. rewrite <- IH by exact Hnd.
    reflexivity.
Qed.

Lemma live_keys_del name d :
  NoDup (LiveDict.keys d) ->
  LiveDict.keys (LiveDict.del name d)
  = filter (fun k => k <> name) (LiveDict.keys d).
Proof. apply dict_keys_del. Qed.

End LiveDictFacts.

(** The four operations keep the names of the async mappings unique,
    and so does [disconnect]; in a fresh bot they are. *)
Lemma async_unique_kept :
  async_unique Bot.new_bot
  /\ (forall b name h,
        async_unique b ->
        async_unique (final_state (Bot.add_message_handler name h b)))
  /\ (forall b name,
        async_unique b ->
        async_unique (final_state (Bot.remove_message_handler name b)))
  /\ (forall b name h,
        async_unique b ->
        async_unique (final_state (Bot.add_presence_handler name h b)))
  /\ (forall b name,
        async_unique b ->
        async_unique (final_state (Bot.remove_presence_handler name b)))
  /\ (forall b,
        async_unique b -> async_unique (final_state (Bot.disconnect b))).
Proof.
  unfold async_unique. split; [split; constructor|].
  split; [|split; [|split; [|split]]].
  - intros b name h [Hm Hp]. split; [|exact Hp].
    apply live_set_NoDup. exact Hm.
  - intros b name [Hm Hp].
    unfold Bot.remove_message_handler, bind, get, modify, zoom.
    destruct (LiveDict.contains name (Bot._async_message_handlers b)).
    + split; [apply live_del_NoDup; exact Hm | exact Hp].
    + destruct (Handlers.remove_message_handler name (Bot._handlers b))
        as [[r tr] res]. split; assumption.
  - intros b name h [Hm Hp]. split; [exact Hm|].
    apply live_set_NoDup. exact Hp.
  - intros b name [Hm Hp].
    unfold Bot.remove_presence_handler, bind, get, modify, zoom.
    destruct (LiveDict.contains name (Bot._async_presence_handlers b)).
    + split; [exact Hm | apply live_del_NoDup; exact Hp].
    + destruct (Handlers.remove_presence_handler name (Bot._handlers b))
        as [[r tr] res]. split; assumption.
  - intros b [Hm Hp].
    unfold Bot.disconnect, suppress_Exception, try_except_Exception, zoom,
      Handlers.clear, bind, get, modify, ret, emit, outcome, raise,
      final_state.
    destruct (Bot._initialized b); cbn [negb]; [|split; assumption].
    destruct (Bot._client b) as [client|];
      [destruct (Bot._connected b);
       [destruct (Bot.on_disconnect (Bot.client_transport client)) as [|e];
        [|destruct (isinstance e Exception)]|]|];
      simpl; split; first [assumption | constructor].
Qed.

(** C7. On the bot, [add_message_handler] and [add_presence_handler]
    always return: they assign into the async mapping, so a name already
    there keeps its place and gets the new handler, a new name goes last,
    every other name keeps its handler, and the sync registry is not
    consulted. [remove_message_handler] and [remove_presence_handler]
    delete the name from the async mapping when it is there, leaving the
    other names and the sync registry alone; otherwise they behave as the
    sync registry's remove on that name, which raises
    [HandlerNotFoundError], with nothing changed, when the name is in
    neither. *)
Theorem bot_handler_operations :
  (forall b name h,
      let run := Bot.add_message_handler name h b in
      let before := Bot._async_message_handlers b in
      let after_ := Bot._async_message_handlers (final_state run) in
      result run = Ok tt
      /\ LiveDict.get name after_ = Some h
      /\ (forall other,
            other <> name ->
            LiveDict.get other after_ = LiveDict.get other before)
      /\ LiveDict.keys after_
         = (if LiveDict.contains name before then LiveDict.keys before
            else LiveDict.keys before ++ [name])
      /\ Bot._handlers (final_state run) = Bot._handlers b
      /\ Bot._async_presence_handlers (final_state run)
         = Bot._async_presence_handlers b)
  /\ (forall b name,
        LiveDict.contains name (Bot._async_message_handlers b) = true ->
        NoDup (LiveDict.keys (Bot._async_message_handlers b)) ->
        let run := Bot.remove_message_handler name b in
        let before := Bot._async_message_handlers b in
        let after_ := Bot._async_message_handlers (final_state run) in
        result run = Ok tt
        /\ LiveDict.contains name after_ = false
        /\ (forall other,
              other <> name ->
              LiveDict.get other after_ = LiveDict.get other before)
        /\ LiveDict.keys after_
           = filter (fun k => k <> name) (LiveDict.keys before)
        /\ Bot._handlers (final_state run) = Bot._handlers b
        /\ Bot._async_presence_handlers (final_state run)
           = Bot._async_presence_handlers b)
  /\ (forall b name,
        LiveDict.contains name (Bot._async_message_handlers b) = false ->
        let run := Bot.remove_message_handler name b in
        let sync := Handlers.remove_message_handler name (Bot._handlers b) in
        run = (Bot.set_handlers (final_state sync) b, trace sync,
               result sync))
  /\ (forall b name,
        LiveDict.contains name (Bot._async_message_handlers b) = false ->
        Handlers.has_message_handler (Bot._handlers b) name = false ->
        Bot.remove_message_handler name b
        = (b, [],
           Raise (mkExc HandlerNotFoundError
                    (Constants.ERR_HANDLER_NOT_FOUND name) None)))
  /\ (forall b name h,
        let run := Bot.add_presence_handler name h b in
        let before := Bot._async_presence_handlers b in
        let after_ := Bot._async_presence_handlers (final_state run) in
        result run = Ok tt
        /\ LiveDict.get name after_ = Some h
        /\ (forall other,
              other <> name ->
              LiveDict.get other after_ = LiveDict.get other before)
        /\ LiveDict.keys after_
           = (if LiveDict.contains name before then LiveDict.keys before
              else LiveDict.keys before ++ [name])
        /\ Bot._handlers (final_state run) = Bot._handlers b
        /\ Bot._async_message_handlers (final_state run)
           = Bot._async_message_handlers b)
  /\ (forall b name,
        LiveDict.contains name (Bot._async_presence_handlers b) = true ->
        NoDup (LiveDict.keys (Bot._async_presence_handlers b)) ->
        let run := Bot.remove_presence_handler name b in
        let before := Bot._async_presence_handlers b in
        let after_ := Bot._async_presence_handlers (final_state run) in
        result run = Ok tt
        /\ LiveDict.contains name after_ = false
        /\ (forall other,
              other <> name ->
              LiveDict.get other after_ = LiveDict.get other before)
        /\ LiveDict.keys after_
           = filter (fun k => k <> name) (LiveDict.keys before)
        /\ Bot._handlers (final_state run) = Bot._handlers b
        /\ Bot._async_message_handlers (final_state run)
           = Bot._async_message_handlers b)
  /\ (forall b name,
        LiveDict.contains name (Bot._async_presence_handlers b) = false ->
        let run := Bot.remove_presence_handler name b in
        let sync := Handlers.remove_presence_handler name (Bot._handlers b) in
        run = (Bot.set_handlers (final_state sync) b, trace sync,
               result sync))
  /\ (forall b name,
        LiveDict.contains name (Bot._async_presence_handlers b) = false ->
        Handlers.has_presence_handler (Bot._handlers b) name = false ->
        Bot.remove_presence_handler name b
        = (b, [],
           Raise (mkExc HandlerNotFoundError
                    (Constants.ERR_HANDLER_NOT_FOUND name) None))).
Proof.
  unfold Handlers.has_message_handler, Handlers.has_presence_handler.
  split; [|split; [|split; [|split; [|split; [|split; [|split]]]]]].
  - intros b name h. cbv zeta.
    unfold Bot.add_message_handler, bind, get, modify, result, final_state.
    cbn [fst snd Bot._async_message_handlers Bot.set_async_message_handlers
         Bot._handlers Bot._async_presence_handlers].
    split; [reflexivity|]. split; [apply live_get_set_eq|].
    split; [intros other Hne; apply live_get_set_ne; congruence|].
    split; [|split; reflexivity].
    destruct (LiveDict.contains name (Bot._async_message_handlers b)) eqn:Hc;
      [apply live_keys_set_present | apply live_keys_set_absent]; exact Hc.
  - intros b name Hc Hnd. cbv zeta.
    unfold Bot.remove_message_handler, bind, get, modify, result,
      final_state.
    rewrite Hc.
    cbn [fst snd Bot._async_message_handlers Bot.set_async_message_handlers
         Bot._handlers Bot._async_presence_handlers].
    split; [reflexivity|]. split; [apply live_contains_del; exact Hnd|].
    split; [intros other Hne; apply live_get_del_ne; congruence|].
    split; [apply live_keys_del; exact Hnd|]. split; reflexivity.
  - intros b name Hc. cbv zeta.
    unfold Bot.remove_message_handler, bind, get, zoom, final_state, trace,
      result.
    rewrite Hc.
    destruct (Handlers.remove_message_handler name (Bot._handlers b))
      as [[r tr] res]. reflexivity.
  - intros b name Hc Hs.
    unfold Bot.remove_message_handler, bind, get, zoom.
    rewrite Hc.
    unfold Handlers.remove_message_handler, bind, get, raise.
    rewrite Hs. destruct b. reflexivity.
  - intros b name h. cbv zeta.
    unfold Bot.add_presence_handler, bind, get, modify, result, final_state.
    cbn [fst snd Bot._async_message_handlers
         Bot.set_async_presence_handlers
         Bot._handlers Bot._async_presence_handlers].
    split; [reflexivity|]. split; [apply live_get_set_eq|].
    split; [intros other Hne; apply live_get_set_ne; congruence|].
    split; [|split; reflexivity].
    destruct (LiveDict.contains name (Bot._async_presence_handlers b))
      eqn:Hc;
      [apply live_keys_set_present | apply live_keys_set_absent]; exact Hc.
  - intros b name Hc Hnd. cbv zeta.
    unfold Bot.remove_presence_handler, bind, get, modify, result,
      final_state.
    rewrite Hc.
    cbn [fst snd Bot._async_message_handlers
         Bot.set_async_presence_handlers
         Bot._handlers Bot._async_presence_handlers].
    split; [reflexivity|]. split; [apply live_contains_del; exact Hnd|].
    split; [intros other Hne; apply live_get_del_ne; congruence|].
    split; [apply live_keys_del; exact Hnd|]. split; reflexivity.
  - intros b name Hc. cbv zeta.
    unfold Bot.remove_presence_handler, bind, get, zoom, final_state, trace,
      result.
    rewrite Hc.
    destruct (Handlers.remove_presence_handler name (Bot._handlers b))
      as [[r tr] res]. reflexivity.
  - intros b name Hc Hs.
    unfold Bot.remove_presence_handler, bind, get, zoom.
    rewrite Hc.
    unfold Handlers.remove_presence_handler, bind, get, raise.
    rewrite Hs. destruct b. reflexivity.
Qed.

Lemma bot_handler_operations_witness :
  let add name h b := final_state (Bot.add_message_handler name h b) in
  let b := add "c" Examples.returns_handler
             (add "b" Examples.failing_handler
                (add "a" Examples.returns_handler Bot.new_bot)) in
  let removed := final_state (Bot.remove_message_handler "b" b) in
  LiveDict.keys (Bot._async_message_handlers b) = ["a"; "b"; "c"]
  /\ LiveDict.keys
       (Bot._async_message_handlers (add "b" Examples.returns_handler b))
     = ["a"; "b"; "c"]
  /\ LiveDict.get "b"
       (Bot._async_message_handlers (add "b" Examples.returns_handler b))
     = Some Examples.returns_handler
  /\ LiveDict.contains "b" (Bot._async_message_handlers removed) = false
  /\ LiveDict.get "a" (Bot._async_message_handlers removed)
     = Some Examples.returns_handler
  /\ LiveDict.get "c" (Bot._async_message_handlers removed)
     = Some Examples.returns_handler
  /\ LiveDict.keys (Bot._async_message_handlers removed) = ["a"; "c"]
  /\ Bot.remove_message_handler "b" removed
     = (removed, [],
        Raise (mkExc HandlerNotFoundError "Handler 'b' not found" None)).
Proof.
  intros add b removed.
  destruct bot_handler_operations as (Hadd & Hdel & _ & Hmiss & _).
  destruct async_unique_kept as (Hnew & Hkept & _).
  assert (Hunique : async_unique b)
    by (unfold b, add; repeat apply Hkept; exact Hnew).
  destruct (Hdel b "b" eq_refl (proj1 Hunique))
    as (_ & Hgone & Hothers & Hkeys & _).
  destruct (Hadd b "b" Examples.returns_handler)
    as (_ & Hget & _ & Hsame & _).
  cbv zeta in Hgone, Hothers, Hkeys, Hget, Hsame. unfold removed.
  split; [reflexivity|]. split; [exact Hsame|]. split; [exact Hget|].
  split; [exact Hgone|].
  split; [rewrite (Hothers "a") by discriminate; reflexivity|].
  split; [rewrite (Hothers "c") by discriminate; reflexivity|].
  split; [rewrite Hkeys; reflexivity|].
  apply Hmiss; [exact Hgone | reflexivity].
Defined.
(** ** Message dispatch *)

Lemma invocations_app t1 t2 :
  invocations (t1 ++ t2) = invocations t1 ++ invocations t2.
Proof. apply omap_app. Qed.

Lemma presence_invocations_app t1 t2 :
  presence_invocations (t1 ++ t2)
  = presence_invocations t1 ++ presence_invocations t2.
Proof. apply omap_app. Qed.

Lemma sends_app t1 t2 : sends (t1 ++ t2) = sends t1 ++ sends t2.
Proof. apply filter_app. Qed.



(** ** Traces of composed methods *)



(** ** Loops over a live view *)

Section LiveLoops.
Context `{PyRuntime} {S V : Type}.
Variables (view : S -> LiveDict.dict V) (body : V -> M S unit).

Lemma live_size_values (d : LiveDict.dict V) :
  length (LiveDict.values d) = LiveDict.size d.
Proof. unfold LiveDict.values, PyDict.values, LiveDict.size. apply length_map. Qed.

(** On the dict it was created on, the iterator gives the values in
    order, then stops. *)
Lemma live_next_unchanged (d : LiveDict.dict V) k :
  live_next d k d
  = match LiveDict.values d !! k with
    | Some v => iter_yield v
    | None => iter_stop
    end.
Proof. unfold live_next. rewrite !Nat.eqb_refl. reflexivity. Qed.

(** A loop whose body leaves the state alone and returns runs over the
    values the view had at the start. *)
Lemma live_loop_unchanged s n : forall k,
  n + k = length (LiveDict.values (view s)) ->
  (forall v, v ∈ LiveDict.values (view s) ->
     exists tr, body v s = (s, tr, Ok tt)) ->
  live_loop n (view s) k view body s
  = for_each (drop k (LiveDict.values (view s))) body s.
Proof.
  induction n as [|n IH]; intros k Hk Hbody; simpl;
    unfold bind at 1, get at 1; rewrite live_next_unchanged.
  - rewrite lookup_ge_None_2 by lia. rewrite drop_ge by lia. reflexivity.
  - destruct (LiveDict.values (view s) !! k) as [v|] eqn:Hv.
    2:{ apply lookup_ge_None_1 in Hv. lia. }
    rewrite (drop_S _ _ _ Hv). cbn [for_each].
    destruct (Hbody v (list_elem_of_lookup_2 _ _ _ Hv)) as [tr Hrun].
    unfold bind at 1. rewrite Hrun.
    rewrite (IH (Datatypes.S k)) by (auto; lia).
    unfold bind. rewrite Hrun.
    destruct (for_each _ body s) as [[s2 t2] r]. reflexivity.
Qed.

Lemma for_each_live_unchanged s :
  (forall v, v ∈ LiveDict.values (view s) ->
     exists tr, body v s = (s, tr, Ok tt)) ->
  for_each_live view body s = for_each (LiveDict.values (view s)) body s.
Proof.
  intros Hbody. unfold for_each_live, bind at 1, get at 1.
  rewrite (live_loop_unchanged s _ 0) by (auto; rewrite live_size_values; lia).
  destruct (for_each _ body s) as [[s2 t2] r]. reflexivity.
Qed.

Lemma for_each_live_empty s :
  LiveDict.values (view s) = [] ->
  for_each_live view body s = (s, [], Ok tt).
Proof.
  intros Hvs. unfold for_each_live, bind at 1, get at 1.
  rewrite <- live_size_values, Hvs. simpl.
  unfold bind, get. rewrite live_next_unchanged, Hvs. reflexivity.
Qed.


End LiveLoops.

Section Dispatch.
Context `{PyRuntime} `{Bot.HandlerWorld}.
Variables (sender body : string) (msg : Message).

(** One guarded call of a handler that keeps to itself: the handler is
    invoked once, the bot is unchanged and the guard returns, with the
    exception in the log. *)
Lemma call_sync_message_contained b h :
  let run := Bot.run_message_handler h sender body msg b in
  self_contained b run -> within_Exception run ->
  exists tr,
    Bot.call_sync_message sender body msg h b = (b, tr, Ok tt)
    /\ invocations tr = [SyncCall h sender body msg]
    /\ forall e, result run = Raise e ->
         Log ERROR ("Error in message handler: " +:+ exc_msg e) ∈ tr.
Proof.
  cbv zeta.
  unfold Bot.call_sync_message, try_except_Exception, bind, emit,
    self_contained, within_Exception, final_state, trace, result.
  destruct (Bot.run_message_handler h sender body msg b) as [[b1 t1] r].
  cbn [fst snd]. intros (-> & Hinv & _) Hr.
  destruct r as [[]|e].
  - eexists. split; [reflexivity|].
    split; [|discriminate].
    change (CallMessage h sender body msg :: t1)
      with ([CallMessage h sender body msg] ++ t1).
    rewrite invocations_app, Hinv. reflexivity.
  - rewrite Hr. eexists. split; [reflexivity|]. split.
    + change (?x :: ?l ++ ?m) with ([x] ++ l ++ m).
      rewrite !invocations_app, Hinv. reflexivity.
    + intros e' [= <-]. set_solver.
Qed.

Lemma await_async_message_contained b h :
  let run := Bot.run_message_handler h sender body msg b in
  self_contained b run -> within_Exception run ->
  exists tr,
    Bot.await_async_message sender body msg h b = (b, tr, Ok tt)
    /\ invocations tr = [AsyncCall h sender body msg]
    /\ forall e, result run = Raise e ->
         Log ERROR ("Error in async message handler: " +:+ exc_msg e) ∈ tr.
Proof.
  cbv zeta.
  unfold Bot.await_async_message, try_except_Exception, bind, emit,
    self_contained, within_Exception, final_state, trace, result.
  destruct (Bot.run_message_handler h sender body msg b) as [[b1 t1] r].
  cbn [fst snd]. intros (-> & Hinv & _) Hr.
  destruct r as [[]|e].
  - eexists. split; [reflexivity|].
    split; [|discriminate].
    change (AwaitMessage h sender body msg :: t1)
      with ([AwaitMessage h sender body msg] ++ t1).
    rewrite invocations_app, Hinv. reflexivity.
  - rewrite Hr. eexists. split; [reflexivity|]. split.
    + change (?x :: ?l ++ ?m) with ([x] ++ l ++ m).
      rewrite !invocations_app, Hinv. reflexivity.
    + intros e' [= <-]. set_solver.
Qed.

(** A loop of guarded calls invokes every handler of its list, once and
    in order, whatever the earlier ones raised. *)
Lemma for_each_contained (call : MessageHandler -> M Bot.XmppBot unit)
    (owed : MessageHandler -> Invocation) (prefix : string) b hs :
  (forall h,
     let run := Bot.run_message_handler h sender body msg b in
     self_contained b run -> within_Exception run ->
     exists tr,
       call h b = (b, tr, Ok tt)
       /\ invocations tr = [owed h]
       /\ forall e, result run = Raise e ->
            Log ERROR (prefix +:+ exc_msg e) ∈ tr) ->
  Forall (fun h =>
            let run := Bot.run_message_handler h sender body msg b in
            self_contained b run /\ within_Exception run) hs ->
  exists tr,
    for_each hs call b = (b, tr, Ok tt)
    /\ invocations tr = map owed hs
    /\ forall h e, h ∈ hs ->
         result (Bot.run_message_handler h sender body msg b) = Raise e ->
         Log ERROR (prefix +:+ exc_msg e) ∈ tr.
Proof.
  intros Hcall. induction 1 as [|h hs [Hself Hin] _ IH]; simpl.
  - exists []. repeat split. intros h e Hh. inversion Hh.
  - destruct (Hcall h Hself Hin) as (t1 & E1 & I1 & L1).
    destruct IH as (t2 & E2 & I2 & L2).
    exists (t1 ++ t2). unfold bind. rewrite E1, E2.
    rewrite invocations_app, I1, I2.
    repeat split.
    intros h' e Hh He. apply elem_of_app.
    apply elem_of_cons in Hh as [-> | Hh]; eauto.
Qed.
End Dispatch.



(** An accepted message, with handlers that keep to themselves and stay
    within [Exception]: the callback returns with the bot unchanged, every
    registered handler is invoked, sync then async, and what a handler
    raised is in the log. *)
Lemma on_message_accepted `{PyRuntime} `{Bot.HandlerWorld} b s msg :
  Bot._settings b = Some s ->
  accepted s msg = true ->
  handlers_ordinary b msg ->
  let sender := jid_str (msg_from msg) in
  let body := msg_body msg in
  exists tr,
    Bot._on_message msg b = (b, tr, Ok tt)
    /\ invocations tr = owed_invocations b msg
    /\ (forall h e,
          h ∈ Handlers.get_message_handlers (Bot._handlers b) ->
          result (Bot.run_message_handler h sender body msg b) = Raise e ->
          Log ERROR ("Error in message handler: " +:+ exc_msg e) ∈ tr)
    /\ (forall h e,
          h ∈ LiveDict.values (Bot._async_message_handlers b) ->
          result (Bot.run_message_handler h sender body msg b) = Raise e ->
          Log ERROR ("Error in async message handler: " +:+ exc_msg e) ∈ tr).
Proof.
  intros Hs Hacc Hord sender body. unfold accepted in Hacc.
  apply andb_true_iff in Hacc as [Hacc Hallowed].
  apply andb_true_iff in Hacc as [Htype Hbody].
  apply Forall_app in Hord as [Hsync Hasync].
  destruct (for_each_contained sender body msg
              (Bot.call_sync_message sender body msg)
              (fun h => SyncCall h sender body msg)
              "Error in message handler: " b _
              (call_sync_message_contained sender body msg b) Hsync)
    as (t1 & E1 & I1 & L1).
  destruct (for_each_contained sender body msg
              (Bot.await_async_message sender body msg)
              (fun h => AsyncCall h sender body msg)
              "Error in async message handler: " b _
              (await_async_message_contained sender body msg b) Hasync)
    as (t2 & E2 & I2 & L2).
  assert (Hlive : for_each_live Bot._async_message_handlers
                    (Bot.await_async_message sender body msg) b
                  = (b, t2, Ok tt)).
  { rewrite for_each_live_unchanged; [exact E2|].
    intros v Hv. rewrite Forall_forall in Hasync.
    destruct (Hasync v Hv) as [Hself Hin].
    destruct (await_async_message_contained sender body msg b v Hself Hin)
      as (tr & E & _). eauto. }
  exists (Log DEBUG (Constants.LOG_MESSAGE_RECEIVED sender) :: t1 ++ t2).
  split.
  { unfold Bot._on_message. rewrite Htype, Hbody. simpl.
    unfold bind at 1, get at 1. rewrite Hs, Hallowed. simpl.
    unfold bind at 1, emit at 1. unfold bind at 1, get at 1.
    fold sender body. unfold bind. rewrite E1, Hlive. reflexivity. }
  split.
  { change (?x :: ?l) with ([x] ++ l). rewrite !invocations_app, I1, I2.
    reflexivity. }
  split.
  - intros h e Hh He. right. apply elem_of_app. left. eauto.
  - intros h e Hh He. right. apply elem_of_app. right. eauto.
Qed.



(** C3. The sync loop runs over a list made at the call; the async loop
    runs over the live view of the async mapping, with the [for] outside
    the guard. So: (1) in the dispatch of an accepted message with
    handlers that keep to themselves and return or raise within
    [Exception], the callback returns, the bot is unchanged, and the
    handler invocations are exactly the registered sync handlers followed
    by the registered async handlers, each one once, also those after a
    handler that raised, with each raised exception in the log; (2) on
    [one_shot_bot], whose first async handler unregisters itself, under any
    interpreter the callback raises [RuntimeError] and the async handler
    registered after it is never invoked; (3) the same handler in the sync
    registry ([sync_one_shot_bot]) is followed by the handler registered
    after it, and the callback returns. *)
Theorem dispatch_isolates_handler_failures :
  (forall (R : PyRuntime) (W : Bot.HandlerWorld) b s msg,
      Bot._settings b = Some s ->
      accepted s msg = true ->
      handlers_ordinary b msg ->
      let run := Bot._on_message msg b in
      let sender := jid_str (msg_from msg) in
      let body := msg_body msg in
      result run = Ok tt
      /\ final_state run = b
      /\ invocations (trace run)
         = map (fun h => SyncCall h sender body msg)
               (Handlers.get_message_handlers (Bot._handlers b))
           ++ map (fun h => AsyncCall h sender body msg)
                  (LiveDict.values (Bot._async_message_handlers b))
      /\ (forall h e,
            h ∈ Handlers.get_message_handlers (Bot._handlers b) ->
            result (Bot.run_message_handler h sender body msg b) = Raise e ->
            Log ERROR ("Error in message handler: " +:+ exc_msg e)
            ∈ trace run)
      /\ (forall h e,
            h ∈ LiveDict.values (Bot._async_message_handlers b) ->
            result (Bot.run_message_handler h sender body msg b) = Raise e ->
            Log ERROR ("Error in async message handler: " +:+ exc_msg e)
            ∈ trace run))
  /\ (forall R : PyRuntime,
        let run :=
          @Bot._on_message R Examples.example_world Examples.hello
            Examples.one_shot_bot in
        LiveDict.get "once"
          (Bot._async_message_handlers Examples.one_shot_bot)
        = Some Examples.one_shot_handler
        /\ LiveDict.get "later"
             (Bot._async_message_handlers Examples.one_shot_bot)
           = Some Examples.returns_handler
        /\ result run
           = Raise (mkExc RuntimeError
                      "dictionary changed size during iteration" None)
        /\ invocations (trace run)
           = [SyncCall Examples.returns_handler "user@example.com/phone"
                "hello" Examples.hello;
              SyncCall Examples.failing_handler "user@example.com/phone"
                "hello" Examples.hello;
              SyncCall Examples.returns_handler "user@example.com/phone"
                "hello" Examples.hello;
              AsyncCall Examples.one_shot_handler "user@example.com/phone"
                "hello" Examples.hello]
        /\ LiveDict.keys (Bot._async_message_handlers (final_state run))
           = ["later"])
  /\ (forall R : PyRuntime,
        let run :=
          @Bot._on_message R Examples.example_world Examples.hello
            Examples.sync_one_shot_bot in
        result run = Ok tt
        /\ invocations (trace run)
           = [SyncCall Examples.sync_one_shot_handler
                "user@example.com/phone" "hello" Examples.hello;
              SyncCall Examples.returns_handler "user@example.com/phone"
                "hello" Examples.hello]
        /\ PyDict.keys
             (Handlers._message_handlers
                (Bot._handlers (final_state run)))
           = ["later"]).
Proof.
  split; [|split].
  - intros R W b s msg Hs Hacc Hord run sender body. subst run sender body.
    destruct (on_message_accepted b s msg Hs Hacc Hord)
      as (tr & -> & Hinv & Hsync & Hasync).
    unfold result, trace, final_state. cbn [fst snd].
    rewrite Hinv. unfold owed_invocations. auto.
  - intros R. repeat split; vm_compute; reflexivity.
  - intros R. repeat split; vm_compute; reflexivity.
Qed.

(** One of three sync handlers raises; the other two and the async handler
    are still invoked, once each. *)
Lemma dispatch_isolates_handler_failures_witness :
  let run :=
    @Bot._on_message Examples.example_runtime Examples.example_world
      Examples.hello Examples.dispatch_bot in
  result run = Ok tt
  /\ invocations (trace run)
     = [SyncCall Examples.returns_handler "user@example.com/phone" "hello"
          Examples.hello;
        SyncCall Examples.failing_handler "user@example.com/phone" "hello"
          Examples.hello;
        SyncCall Examples.returns_handler "user@example.com/phone" "hello"
          Examples.hello;
        AsyncCall Examples.returns_handler "user@example.com/phone" "hello"
          Examples.hello]
  /\ Log ERROR "Error in message handler: boom" ∈ trace run.
Proof.
  assert (Hord : @handlers_ordinary Examples.example_world
                   Examples.dispatch_bot Examples.hello).
  { unfold handlers_ordinary.
    match goal with
    | |- Forall _ ?l => let l' := eval vm_compute in l in change l with l'
    end.
    repeat (apply Forall_cons_2; [split; [repeat split|vm_compute; auto]|]).
    apply Forall_nil_2. }
  destruct dispatch_isolates_handler_failures as (Hgeneral & _).
  destruct (Hgeneral Examples.example_runtime Examples.example_world
              Examples.dispatch_bot Examples.valid_settings Examples.hello
              eq_refl eq_refl Hord)
    as (Hres & _ & Hinv & Hlog & _).
  split; [exact Hres|]. split; [exact Hinv|].
  apply (Hlog Examples.failing_handler (mkExc RuntimeError "boom" None)).
  - right. left.
  - reflexivity.
Defined.

(** The guard is [except Exception]: an exit that derives from
    [BaseException] only goes through it, and the handlers after it are
    not reached. *)
Example interrupt_leaves_the_callback :
  let run :=
    @Bot._on_message Examples.example_runtime Examples.example_world
      Examples.hello Examples.interrupted_bot in
  result run = Raise (mkExc KeyboardInterrupt "" None)
  /\ invocations (trace run)
     = [SyncCall Examples.returns_handler "user@example.com/phone" "hello"
          Examples.hello;
        SyncCall Examples.interrupted_handler "user@example.com/phone"
          "hello" Examples.hello].
Proof. split; vm_compute; reflexivity. Qed.

(** ** What the methods leave alone *)

Section Keeps.
Context {S : Type} (P : S -> Prop).

Lemma keeps_ret {A} (a : A) : keeps P (ret a).
Proof. intros s Hs. exact Hs. Qed.

Lemma keeps_raise {A} e : keeps P (@raise S A e).
Proof. intros s Hs. exact Hs. Qed.

Lemma keeps_emit ev : keeps P (emit ev).
Proof. intros s Hs. exact Hs. Qed.

Lemma keeps_get : keeps P get.
Proof. intros s Hs. exact Hs. Qed.

Lemma keeps_outcome o : keeps P (outcome o).
Proof. intros s Hs. destruct o; exact Hs. Qed.

Lemma keeps_of_result {A} (r : Result A) : keeps P (Bot.of_result r).
Proof. intros s Hs. destruct r; exact Hs. Qed.

Lemma keeps_modify f : (forall s, P s -> P (f s)) -> keeps P (modify f).
Proof. intros Hf s Hs. exact (Hf s Hs). Qed.

Lemma keeps_bind {A B} (m : M S A) (k : A -> M S B) :
  keeps P m -> (forall a, keeps P (k a)) -> keeps P (bind m k).
Proof.
  intros Hm Hk s Hs. specialize (Hm s Hs). unfold bind, final_state in *.
  destruct (m s) as [[s1 t1] [a|e]]; simpl in *; [|exact Hm].
  specialize (Hk a s1 Hm). unfold final_state in Hk.
  destruct (k a s1) as [[s2 t2] r]. exact Hk.
Qed.

Lemma keeps_try {A} (body : M S A) handler :
  keeps P body -> (forall e, keeps P (handler e)) ->
  keeps P (try_except_Exception body handler).
Proof.
  intros Hm Hk s Hs. specialize (Hm s Hs).
  unfold try_except_Exception, final_state in *.
  destruct (body s) as [[s1 t1] [a|e]]; simpl in *; [exact Hm|].
  destruct (isinstance e Exception); [|exact Hm].
  specialize (Hk e s1 Hm). unfold final_state in Hk.
  destruct (handler e s1) as [[s2 t2] r]. exact Hk.
Qed.

Lemma keeps_for_each {X} (xs : list X) body :
  (forall x, keeps P (body x)) -> keeps P (for_each xs body).
Proof.
  intros Hb. induction xs as [|x xs IH]; simpl.
  - apply keeps_ret.
  - apply keeps_bind; auto.
Qed.

Lemma keeps_live_loop `{PyRuntime} {V} n start (view : S -> LiveDict.dict V)
    body : forall k,
  (forall v, keeps P (body v)) -> keeps P (live_loop n start k view body).
Proof.
  induction n as [|n IH]; intros k Hb; simpl;
    (apply keeps_bind; [apply keeps_get|]); intros self;
    destruct (live_next start k (view self));
    try apply keeps_ret; try apply keeps_raise.
  apply keeps_bind; auto.
Qed.

Lemma keeps_for_each_live `{PyRuntime} {V} (view : S -> LiveDict.dict V)
    body :
  (forall v, keeps P (body v)) -> keeps P (for_each_live view body).
Proof.
  intros Hb. unfold for_each_live.
  apply keeps_bind; [apply keeps_get|]. intros self.
  apply keeps_live_loop. exact Hb.
Qed.

Lemma keeps_zoom {T A} (proj : S -> T) upd (m : M T A) :
  (forall t s, P s -> P (upd t s)) -> keeps P (zoom proj upd m).
Proof.
  intros Hu s Hs. unfold zoom, final_state.
  destruct (m (proj s)) as [[t' tr] r]. simpl. auto.
Qed.
End Keeps.

Ltac keeps_step :=
  lazymatch goal with
  | |- keeps _ (bind _ _) => apply keeps_bind; [|intros ?]
  | |- keeps _ (ret _) => apply keeps_ret
  | |- keeps _ (raise _) => apply keeps_raise
  | |- keeps _ (emit _) => apply keeps_emit
  | |- keeps _ get => apply keeps_get
  | |- keeps _ (outcome _) => apply keeps_outcome
  | |- keeps _ (Bot.of_result _) => apply keeps_of_result
  | |- keeps _ (modify _) => apply keeps_modify; solve [auto]
  | |- keeps _ (try_except_Exception _ _) => apply keeps_try; [|intros ?]
  | |- keeps _ (suppress_Exception _) => apply keeps_try; [|intros ?]
  | |- keeps _ (for_each _ _) => apply keeps_for_each; intros ?
  | |- keeps _ (for_each_live _ _) => apply keeps_for_each_live; intros ?
  | |- keeps _ (zoom _ _ _) => apply keeps_zoom; solve [auto]
  | |- keeps _ (if ?c then _ else _) => destruct c
  | |- keeps _ (match ?x with _ => _ end) => destruct x
  end.

Ltac keeps_auto := cbv zeta; repeat keeps_step.

Section BotKeeps.
Context `{PyRuntime} `{Bot.HandlerWorld}.
Context (P : Bot.XmppBot -> Prop) (Hstable : session_stable P).
Context (Hworld : world_keeps P).

Local Ltac use_stable :=
  destruct Hstable as (? & ? & ? & ? & ? & ? & ?).

Lemma callback_keeps ev : keeps P (Bot.callback ev).
Proof.
  use_stable. destruct Hworld as [Hmessage Hpresence]. destruct ev; simpl.
  - unfold Bot._on_session_start. keeps_auto.
  - unfold Bot._on_message, Bot.call_sync_message, Bot.await_async_message.
    repeat first [apply Hmessage | keeps_step | progress cbv zeta].
  - unfold Bot._on_presence_subscribe. keeps_auto.
  - unfold Bot._on_presence, Bot.call_sync_presence,
      Bot.await_async_presence.
    repeat first [apply Hpresence | keeps_step | progress cbv zeta].
  - unfold Bot._on_failed_auth. keeps_auto.
  - unfold Bot._on_disconnected. keeps_auto.
Qed.

Lemma deliver_keeps ev : keeps P (Bot.deliver ev).
Proof.
  unfold Bot.deliver, suppress_Exception.
  apply keeps_try; [apply callback_keeps | intros e; apply keeps_ret].
Qed.

Lemma timed_out_keeps client timeout : keeps P (Bot.timed_out client timeout).
Proof. unfold Bot.timed_out. keeps_auto. Qed.

Lemma wait_loop_keeps client timeout script :
  keeps P (Bot.wait_loop client timeout script).
Proof.
  induction script as [|tick rest IH]; simpl.
  - keeps_auto. apply timed_out_keeps.
  - keeps_auto; [apply deliver_keeps | apply timed_out_keeps | exact IH].
Qed.

Lemma connect_keeps transport script :
  keeps P (Bot._connect transport script).
Proof.
  use_stable. unfold Bot._connect.
  repeat first [apply wait_loop_keeps | keeps_step | progress cbv zeta].
Qed.

Lemma reply_to_user_keeps message jid :
  keeps P (Bot.reply_to_user message jid).
Proof. unfold Bot.reply_to_user. keeps_auto. Qed.

Lemma send_message_keeps message : keeps P (Bot.send_message message).
Proof.
  unfold Bot.send_message.
  repeat first [apply reply_to_user_keeps | keeps_step].
Qed.

Lemma send_url_keeps path : keeps P (Bot.send_url path).
Proof.
  unfold Bot.send_url.
  repeat first [apply send_message_keeps | keeps_step | progress cbv zeta].
Qed.

Lemma send_message_sync_keeps message :
  keeps P (Bot.send_message_sync message).
Proof. unfold Bot.send_message_sync. keeps_auto. Qed.

Lemma settings_keeps : keeps P Bot.settings.
Proof. unfold Bot.settings. keeps_auto. Qed.

Lemma handler_operations_keep :
  (forall name h, keeps P (Bot.add_message_handler name h))
  /\ (forall name, keeps P (Bot.remove_message_handler name))
  /\ (forall name h, keeps P (Bot.add_presence_handler name h))
  /\ (forall name, keeps P (Bot.remove_presence_handler name)).
Proof.
  use_stable.
  unfold Bot.add_message_handler, Bot.remove_message_handler,
    Bot.add_presence_handler, Bot.remove_presence_handler.
  repeat split; intros; keeps_auto.
Qed.

Lemma disconnect_keeps :
  (forall b, P b -> P (Bot.set_initialized false b)) ->
  keeps P Bot.disconnect.
Proof.
  intros Hoff. use_stable. unfold Bot.disconnect. keeps_auto.
Qed.

(** Everything [initialize] does before it sets the flag. *)
Lemma initialize_keeps settings environ transport script :
  (forall s b, P b -> P (Bot.set_settings (Some s) b)) ->
  (forall b, P b -> P (Bot.set_initialized true b)) ->
  keeps P (Bot.initialize settings environ transport script).
Proof.
  intros Hset Hon. use_stable. unfold Bot.initialize.
  repeat first [apply connect_keeps | keeps_step].
Qed.
End BotKeeps.

(** ** The initialized flag and the settings along a history *)

Lemma unless_of_keeps {S} (P : S -> Prop) (m : M S unit) :
  keeps P m -> keeps_unless_returned P m.
Proof. intros Hk s Hs _. exact (Hk s Hs). Qed.

Lemma unless_modify {S} (P : S -> Prop) (f : S -> S) :
  keeps_unless_returned P (modify f).
Proof. intros s _ Hr. contradiction Hr. reflexivity. Qed.

Lemma unless_bind {S A} (P : S -> Prop) (m : M S A) (k : A -> M S unit) :
  keeps P m -> (forall a, keeps_unless_returned P (k a)) ->
  keeps_unless_returned P (bind m k).
Proof.
  intros Hm Hk s Hs. specialize (Hm s Hs).
  unfold bind, final_state, result in *.
  destruct (m s) as [[s1 t1] [a|e]]; simpl in *; [|intros _; exact Hm].
  specialize (Hk a s1 Hm). unfold final_state, result in Hk.
  destruct (k a s1) as [[s2 t2] r]. exact Hk.
Qed.

Lemma bind_returned {S A B} (m : M S A) (k : A -> M S B) s b :
  result (bind m k s) = Ok b ->
  exists a,
    result (m s) = Ok a
    /\ result (k a (final_state (m s))) = Ok b
    /\ final_state (bind m k s) = final_state (k a (final_state (m s))).
Proof.
  unfold bind, final_state, result.
  destruct (m s) as [[s1 t1] [a|e]]; simpl; [|discriminate].
  destruct (k a s1) as [[s2 t2] r] eqn:Ek. simpl. intros ->.
  exists a. rewrite Ek. auto.
Qed.

Lemma uninitialized_stable : session_stable uninitialized.
Proof. repeat split; intros v b Hb; exact Hb. Qed.

Lemma has_settings_stable : session_stable has_settings.
Proof. repeat split; intros v b Hb; exact Hb. Qed.

(** The handlers of the examples only reach the handler mappings. *)
Lemma example_world_keeps (P : Bot.XmppBot -> Prop) :
  session_stable P -> @world_keeps Examples.example_world P.
Proof.
  intros Hst.
  destruct (@handler_operations_keep P Hst) as (_ & Hrm & _ & Hrp).
  destruct Hst as (_ & _ & _ & _ & Hhandlers & _).
  split.
  - intros [id] sender body msg.
    do 5 (destruct id as [|id]; simpl;
          try apply keeps_ret; try apply keeps_raise; try apply Hrm;
          try (apply keeps_zoom; auto)).
  - intros [id] sender ptype status p.
    do 5 (destruct id as [|id]; simpl;
          try apply keeps_ret; try apply keeps_raise; try apply Hrp;
          try (apply keeps_zoom; auto)).
Qed.

Section Histories.
Context `{PyRuntime} `{Bot.HandlerWorld}.

(** An [initialize] that does not return leaves the flag off. *)
Lemma initialize_unless_returned settings environ transport script :
  world_keeps uninitialized ->
  keeps_unless_returned uninitialized
    (Bot.initialize settings environ transport script).
Proof.
  intros Hworld. pose proof uninitialized_stable as Hst.
  unfold Bot.initialize.
  apply unless_bind; [apply keeps_get | intros self].
  destruct (Bot._initialized self);
    [apply unless_of_keeps, keeps_raise|].
  apply unless_bind;
    [destruct settings; [apply keeps_ret | apply keeps_of_result]
    | intros s].
  apply unless_bind; [apply keeps_modify; auto | intros _].
  apply unless_bind;
    [destruct (Config.debug s); [apply keeps_emit | apply keeps_ret]
    | intros _].
  apply unless_bind; [apply connect_keeps; assumption | intros _].
  apply unless_modify.
Qed.

(** An [initialize] that returns leaves settings in place. *)
Lemma initialize_returned_has_settings settings environ transport script b :
  world_keeps has_settings ->
  result (Bot.initialize settings environ transport script b) = Ok tt ->
  has_settings
    (final_state (Bot.initialize settings environ transport script b)).
Proof.
  unfold Bot.initialize. intros Hworld Hr.
  apply bind_returned in Hr as (self & Hself & Hr & Hf). rewrite Hf. clear Hf.
  change (final_state (get b)) with b in *.
  injection Hself as <-.
  destruct (Bot._initialized b); [discriminate|].
  apply bind_returned in Hr as (s & Hs & Hr & Hf). rewrite Hf. clear Hf.
  set (b1 := final_state _) in *.
  apply bind_returned in Hr as ([] & _ & Hr & Hf). rewrite Hf. clear Hf.
  change (final_state (modify (Bot.set_settings (Some s)) b1))
    with (Bot.set_settings (Some s) b1) in *.
  apply keeps_bind.
  - destruct (Config.debug s); [apply keeps_emit | apply keeps_ret].
  - intros _. apply keeps_bind;
      [apply connect_keeps; [apply has_settings_stable | exact Hworld]
      | intros _; apply keeps_modify; auto].
  - discriminate.
Qed.

Lemma run_call_keeps (P : Bot.XmppBot -> Prop) c :
  session_stable P ->
  world_keeps P ->
  (forall b, P b -> P (Bot.set_initialized false b)) ->
  (forall s b, P b -> P (Bot.set_settings (Some s) b)) ->
  match c with
  | Bot.call_initialize _ _ _ _ => True
  | _ => keeps P (Bot.run_call c)
  end.
Proof.
  intros Hst Hworld Hoff Hset.
  destruct (handler_operations_keep P Hst) as (Ham & Hrm & Hap & Hrp).
  destruct c; simpl; auto using disconnect_keeps, send_message_keeps,
    reply_to_user_keeps, send_url_keeps, send_message_sync_keeps,
    callback_keeps.
  - apply keeps_bind; [apply settings_keeps | intros ?; apply keeps_ret].
  - apply keeps_zoom. apply Hst.
  - apply keeps_zoom. apply Hst.
Qed.

(** Settings, once stored, are never cleared: no method assigns [None]
    to [_settings], [disconnect] included. *)
Lemma settings_never_cleared history :
  world_keeps has_settings ->
  forall b, has_settings b -> has_settings (Bot.after history b).
Proof.
  intros Hworld.
  induction history as [|c rest IH]; intros b Hb; simpl; [exact Hb|].
  apply IH.
  pose proof (run_call_keeps has_settings c has_settings_stable Hworld) as Hk.
  destruct c; try (apply Hk; [auto | intros ? ? ?; discriminate | exact Hb]).
  simpl. apply initialize_keeps;
    [apply has_settings_stable | exact Hworld | intros ? ? ?; discriminate
    | auto | exact Hb].
Qed.

Lemma run_call_stays_uninitialized c b :
  world_keeps uninitialized ->
  uninitialized b ->
  match c with
  | Bot.call_initialize _ _ _ _ => result (Bot.run_call c b) <> Ok tt
  | _ => True
  end ->
  uninitialized (final_state (Bot.run_call c b)).
Proof.
  intros Hworld Hb Hc.
  pose proof (run_call_keeps uninitialized c uninitialized_stable Hworld)
    as Hk.
  destruct c; try (apply Hk; [reflexivity | auto | exact Hb]).
  simpl in *. apply initialize_unless_returned; assumption.
Qed.

(** Until an [initialize] has returned, the flag is off. *)
Lemma never_initialized_flag history :
  world_keeps uninitialized ->
  forall b,
    uninitialized b -> never_initialized history b ->
    uninitialized (Bot.after history b).
Proof.
  intros Hworld. induction history as [|c rest IH]; intros b Hb Hn; simpl; [exact Hb|].
  destruct Hn as [Hc Hn]. apply IH; [|exact Hn].
  apply run_call_stays_uninitialized; assumption.
Qed.

(** While the flag is on, settings are present. *)
Lemma initialized_has_settings b :
  world_keeps uninitialized -> world_keeps has_settings ->
  Bot.reachable b -> Bot._initialized b = true -> has_settings b.
Proof.
  intros Hflagged Hsettings [history <-].
  assert (Hinv : forall history b0,
             (Bot._initialized b0 = true -> has_settings b0) ->
             Bot._initialized (Bot.after history b0) = true ->
             has_settings (Bot.after history b0)).
  { clear history. induction history as [|c rest IH]; intros b0 Hb0; simpl;
      [exact Hb0|].
    apply IH. intros Hon.
    destruct (Bot._initialized b0) eqn:Hflag.
    - apply (settings_never_cleared [c]); auto.
    - destruct (result (Bot.run_call c b0)) as [[]|e] eqn:Hres.
      + destruct c;
          [simpl in *; apply initialize_returned_has_settings;
           [exact Hsettings | exact Hres]
          | ..];
          exfalso;
          match type of Hon with
          | Bot._initialized (final_state (Bot.run_call ?c _)) = true =>
              pose proof (run_call_stays_uninitialized c b0 Hflagged Hflag I)
                as Hu
          end;
          unfold uninitialized in Hu; congruence.
      + assert (Hu : uninitialized (final_state (Bot.run_call c b0))).
        { apply run_call_stays_uninitialized; [exact Hflagged|exact Hflag|].
          destruct c; auto. rewrite Hres. discriminate. }
        unfold uninitialized in Hu. congruence. }
  apply Hinv. discriminate.
Qed.

End Histories.

(** ** Sending *)

(** C6. With the initialized flag off, [send_message], [reply_to_user]
    and [send_url] raise [NotInitializedError] and do nothing else; the
    flag is off in every state reached by a history in which no
    [initialize] has returned, the handlers that the events of the history
    reach leaving the flag as it is. With the flag on, [reply_to_user] on a bot
    that is not connected, or has no client, raises [SendError] with the
    message "Failed to send message to <recipient>" and does nothing
    else. *)
Theorem send_requires_initialize `{PyRuntime} `{Bot.HandlerWorld} :
  let not_initialized :=
    mkExc NotInitializedError Constants.ERR_NOT_INITIALIZED None in
  (forall b message jid path,
      Bot._initialized b = false ->
      Bot.send_message message b = (b, [], Raise not_initialized)
      /\ Bot.reply_to_user message jid b = (b, [], Raise not_initialized)
      /\ Bot.send_url path b = (b, [], Raise not_initialized))
  /\ (forall history message jid path,
        world_keeps uninitialized ->
        never_initialized history Bot.new_bot ->
        let b := Bot.after history Bot.new_bot in
        result (Bot.send_message message b) = Raise not_initialized
        /\ result (Bot.reply_to_user message jid b) = Raise not_initialized
        /\ result (Bot.send_url path b) = Raise not_initialized)
  /\ (forall b message jid,
        Bot._initialized b = true ->
        Bot._connected b = false \/ Bot._client b = None ->
        Bot.reply_to_user message jid b
        = (b, [], Raise (mkExc SendError
                           ("Failed to send message to " +:+ jid) None))).
Proof.
  intros not_initialized.
  assert (Hoff : forall b message jid path,
             Bot._initialized b = false ->
             Bot.send_message message b = (b, [], Raise not_initialized)
             /\ Bot.reply_to_user message jid b
                = (b, [], Raise not_initialized)
             /\ Bot.send_url path b = (b, [], Raise not_initialized)).
  { intros b message jid path Hflag.
    unfold Bot.send_message, Bot.reply_to_user, Bot.send_url, bind, get,
      raise.
    rewrite Hflag. auto. }
  split; [exact Hoff|]. split.
  - intros history message jid path Hworld Hnever b.
    assert (Hflag : Bot._initialized b = false)
      by (apply (never_initialized_flag history);
          [exact Hworld | reflexivity | exact Hnever]).
    destruct (Hoff b message jid path Hflag) as (-> & -> & ->). auto.
  - intros b message jid Hflag Hdown.
    unfold Bot.reply_to_user, bind, get, raise. rewrite Hflag. simpl.
    destruct Hdown as [-> | ->]; [reflexivity|].
    destruct (Bot._connected b); reflexivity.
Qed.

Lemma send_requires_initialize_witness :
  result (Bot.send_url "/status"
            (@Bot.after Examples.example_runtime Examples.example_world
               [Bot.call_event (Bot.message Examples.hello);
                Bot.call_disconnect]
               Bot.new_bot))
  = Raise (mkExc NotInitializedError
             "Bot is not initialized. Call initialize() first." None)
  /\ Bot.reply_to_user "hi" "other@example.com"
       (Bot.set_connected false Examples.dispatch_bot)
     = (Bot.set_connected false Examples.dispatch_bot, [],
        Raise (mkExc SendError "Failed to send message to other@example.com"
                     None)).
Proof.
  destruct (@send_requires_initialize Examples.example_runtime
              Examples.example_world)
    as (_ & Hhist & Hdown).
  split.
  - apply (Hhist [Bot.call_event (Bot.message Examples.hello);
                  Bot.call_disconnect] "" "" "/status").
    + apply example_world_keeps, uninitialized_stable.
    + repeat split.
  - apply Hdown; [reflexivity | left; reflexivity].
Defined.

(** ** Settings across the lifecycle *)

(** C5. After [initialize(valid_settings)] has returned and [disconnect()]
    has run, the initialized flag is off and the [settings] property still
    returns the settings, where it raised [NotInitializedError] on the
    fresh bot; the same after an [initialize] that times out. So the
    property "settings present if and only if initialized" fails on a
    reachable state, whatever the interpreter and the handlers. *)
Theorem settings_survive_disconnect `{PyRuntime} `{Bot.HandlerWorld} :
  let start := Bot.call_initialize (Some Examples.valid_settings) ∅
                 Examples.quiet_transport Examples.session_starts in
  let stall := Bot.call_initialize (Some Examples.valid_settings) ∅
                 Examples.quiet_transport [] in
  let after_ := Bot.after in
  result (Bot.settings Bot.new_bot)
  = Raise (mkExc NotInitializedError Constants.ERR_NOT_INITIALIZED None)
  /\ Bot.is_initialized (after_ [start] Bot.new_bot) = true
  /\ Bot.is_initialized (after_ [start; Bot.call_disconnect] Bot.new_bot)
     = false
  /\ result (Bot.settings (after_ [start; Bot.call_disconnect] Bot.new_bot))
     = Ok Examples.valid_settings
  /\ Bot.is_initialized (after_ [stall] Bot.new_bot) = false
  /\ result (Bot.settings (after_ [stall] Bot.new_bot))
     = Ok Examples.valid_settings
  /\ ~ (forall b,
          Bot.reachable b ->
          (exists s, result (Bot.settings b) = Ok s)
          <-> Bot._initialized b = true).
Proof.
  intros start stall after_.
  assert (Hoff : Bot.is_initialized
                   (after_ [start; Bot.call_disconnect] Bot.new_bot) = false)
    by (vm_compute; reflexivity).
  assert (Hset : result (Bot.settings
                           (after_ [start; Bot.call_disconnect] Bot.new_bot))
                 = Ok Examples.valid_settings)
    by (vm_compute; reflexivity).
  repeat split; try (vm_compute; reflexivity); try assumption.
  intros Hiff.
  destruct (Hiff (after_ [start; Bot.call_disconnect] Bot.new_bot)) as [Hto _].
  - exists [start; Bot.call_disconnect]. reflexivity.
  - unfold Bot.is_initialized in Hoff. rewrite Hoff in Hto.
    discriminate Hto. eauto.
Qed.

(* ===================================================================== *)
(** * Further properties                                                  *)
(* ===================================================================== *)

(** ** Strings as lists of characters *)

Lemma list_of_app s1 s2 :
  list_ascii_of_string (s1 +:+ s2)
  = list_ascii_of_string s1 ++ list_ascii_of_string s2.
Proof.
  induction s1 as [|c s1 IH]; [reflexivity|].
  change (String c s1 +:+ s2) with (String c (s1 +:+ s2)).
  simpl. rewrite IH. reflexivity.
Qed.

Lemma string_of_app l1 l2 :
  string_of_list_ascii (l1 ++ l2)
  = string_of_list_ascii l1 +:+ string_of_list_ascii l2.
Proof. induction l1 as [|c l1 IH]; simpl; [reflexivity|]. rewrite IH. reflexivity. Qed.

Lemma contains_elem_of c s :
  PyStr.contains c s = false <-> c ∉ list_ascii_of_string s.
Proof.
  induction s as [|d s IH]; simpl.
  - split; [intros _ Hin; inversion Hin | reflexivity].
  - rewrite orb_false_iff, not_elem_of_cons, IH.
    rewrite Ascii.eqb_neq. split; intros [? ?]; split; congruence.
Qed.

Lemma list_of_empty s : list_ascii_of_string s = [] <-> s = "".
Proof. destruct s; simpl; split; congruence. Qed.

(** ** Regular expressions: every word of the language is matched *)

Lemma nullable_complete r w :
  Regex.lang r w -> w = [] -> Regex.nullable r = true.
Proof.
  induction 1 as [| | |r1 r2 u v _ IH1 _ IH2| | | |]; intros Hw; simpl;
    try discriminate; try reflexivity.
  - apply app_eq_nil in Hw as [-> ->]. rewrite IH1, IH2; reflexivity.
  - rewrite IHlang by assumption. reflexivity.
  - rewrite IHlang by assumption. apply orb_true_r.
Qed.

Lemma deriv_complete r w :
  Regex.lang r w -> forall a w', w = a :: w' ->
  Regex.lang (Regex.deriv a r) w'.
Proof.
  induction 1 as [|c|cs b Hb|r1 r2 u v Hu IH1 Hv IH2|r1 r2 u Hu IH
                 |r1 r2 u Hu IH| |r u v Hu IH1 Hv IH2];
    intros a w' Hw; simpl; try discriminate.
  - injection Hw as <- <-. rewrite Ascii.eqb_refl. constructor.
  - injection Hw as <- <-. rewrite Hb. constructor.
  - destruct u as [|b u]; simpl in Hw.
    + rewrite (nullable_complete r1 [] Hu eq_refl).
      apply Regex.lang_alt_r. exact (IH2 a w' Hw).
    + injection Hw as <- <-.
      assert (Hc : Regex.lang (Regex.Cat (Regex.deriv b r1) r2) (u ++ v))
        by (constructor; [exact (IH1 b u eq_refl) | exact Hv]).
      destruct (Regex.nullable r1); [apply Regex.lang_alt_l|]; exact Hc.
  - apply Regex.lang_alt_l. exact (IH a w' Hw).
  - apply Regex.lang_alt_r. exact (IH a w' Hw).
  - destruct u as [|b u]; simpl in Hw.
    + exact (IH2 a w' Hw).
    + injection Hw as <- <-.
      constructor; [exact (IH1 b u eq_refl) | exact Hv].
Qed.

Lemma fullmatch_complete w : forall r,
  Regex.lang r w -> Regex.fullmatch r w = true.
Proof.
  induction w as [|a w IH]; simpl; intros r Hl.
  - exact (nullable_complete r [] Hl eq_refl).
  - apply IH. exact (deriv_complete r (a :: w) Hl a w eq_refl).
Qed.

Lemma fullmatch_lang r w : Regex.fullmatch r w = true <-> Regex.lang r w.
Proof. split; [apply fullmatch_sound | apply fullmatch_complete]. Qed.

Lemma mem_ascii_elem_of a cs : Regex.mem_ascii a cs = false <-> a ∉ cs.
Proof.
  split; [apply mem_ascii_false|].
  induction cs as [|c cs IH]; simpl; [reflexivity|].
  intros Hn. apply not_elem_of_cons in Hn as [Hne Hn].
  rewrite (IH Hn), orb_false_r. apply Ascii.eqb_neq. exact Hne.
Qed.

Lemma lang_star_notin_intro cs w :
  (forall c, c ∈ cs -> c ∉ w) ->
  Regex.lang (Regex.Star (Regex.NotIn cs)) w.
Proof.
  induction w as [|a w IH]; intros Hw; [constructor|].
  change (a :: w) with ([a] ++ w). constructor.
  - constructor. apply mem_ascii_elem_of. intros Hin.
    apply (Hw a Hin). left.
  - apply IH. intros c Hc Hin. apply (Hw c Hc). right. exact Hin.
Qed.

Lemma lang_plus_notin_iff cs w :
  Regex.lang (Regex.Plus (Regex.NotIn cs)) w
  <-> w <> [] /\ forall c, c ∈ cs -> c ∉ w.
Proof.
  split; [apply lang_plus_notin|].
  intros [Hne Hw]. destruct w as [|a w]; [contradiction|].
  change (a :: w) with ([a] ++ w). constructor.
  - constructor. apply mem_ascii_elem_of. intros Hin.
    apply (Hw a Hin). left.
  - apply lang_star_notin_intro. intros c Hc Hin.
    apply (Hw c Hc). right. exact Hin.
Qed.

Lemma lang_JID_PATTERN_iff w :
  Regex.lang Config.JID_PATTERN w <-> jid_parts w.
Proof.
  split; [apply lang_JID_PATTERN|].
  intros (lp & dp & Hlp0 & Hdp0 & Hlp & Hdp1 & Hdp2 & Hw).
  assert (Hl : Regex.lang (Regex.Plus (Regex.NotIn ["@"%char])) lp).
  { apply lang_plus_notin_iff. split; [assumption|].
    intros c Hc. apply list_elem_of_singleton in Hc as ->. assumption. }
  assert (Hd : Regex.lang
                 (Regex.Plus (Regex.NotIn ["@"%char; "/"%char])) dp).
  { apply lang_plus_notin_iff. split; [assumption|].
    intros c Hc. apply elem_of_cons in Hc as [-> | Hc]; [assumption|].
    apply list_elem_of_singleton in Hc as ->. assumption. }
  unfold Config.JID_PATTERN.
  destruct Hw as [-> | (res & Hr0 & Hr & ->)].
  - constructor; [exact Hl|].
    change ("@"%char :: dp) with (["@"%char] ++ dp).
    constructor; [constructor|].
    rewrite <- (app_nil_r dp). constructor; [exact Hd|].
    apply Regex.lang_alt_r. constructor.
  - constructor; [exact Hl|].
    change ("@"%char :: dp ++ "/"%char :: res)
      with (["@"%char] ++ dp ++ "/"%char :: res).
    constructor; [constructor|].
    constructor; [exact Hd|].
    apply Regex.lang_alt_l.
    change ("/"%char :: res) with (["/"%char] ++ res).
    constructor; [constructor|].
    apply lang_plus_notin_iff. split; [assumption|].
    intros c Hc. apply list_elem_of_singleton in Hc as ->. assumption.
Qed.

(** A trailing newline joins the last part, so the [$] of the pattern
    admits nothing that the pattern without it would not. *)
Lemma jid_parts_newline w : jid_parts w -> jid_parts (w ++ [Regex.newline]).
Proof.
  intros (lp & dp & Hlp0 & Hdp0 & Hlp & Hdp1 & Hdp2 & Hw).
  destruct Hw as [-> | (res & Hr0 & Hr & ->)].
  - exists lp, (dp ++ [Regex.newline]).
    split; [assumption|]. split; [intros E; destruct dp; discriminate|].
    split; [assumption|].
    split; [rewrite elem_of_app, list_elem_of_singleton;
            intros [?|?]; [contradiction|discriminate]|].
    split; [rewrite elem_of_app, list_elem_of_singleton;
            intros [?|?]; [contradiction|discriminate]|].
    left. rewrite <- app_assoc. reflexivity.
  - exists lp, dp. repeat (split; [assumption|]).
    right. exists (res ++ [Regex.newline]).
    split; [intros E; destruct res; discriminate|].
    split; [rewrite elem_of_app, list_elem_of_singleton;
            intros [?|?]; [contradiction|discriminate]|].
    rewrite <- !app_assoc. simpl. rewrite <- app_assoc. reflexivity.
Qed.

Lemma JID_PATTERN_match_parts s :
  Config.JID_PATTERN_match s = true <-> jid_parts (list_ascii_of_string s).
Proof.
  unfold Config.JID_PATTERN_match, Regex.match_dollar.
  rewrite orb_true_iff, fullmatch_lang, lang_JID_PATTERN_iff.
  split; [|auto].
  intros [Hp | Hp]; [exact Hp|].
  destruct (Regex.drop_last_newline (list_ascii_of_string s)) as [w'|] eqn:Hd;
    [|discriminate].
  apply drop_last_newline_Some in Hd. rewrite Hd.
  apply jid_parts_newline, lang_JID_PATTERN_iff, fullmatch_lang, Hp.
Qed.

Lemma jid_parts_shape s : jid_parts (list_ascii_of_string s) <-> jid_shape s.
Proof.
  split.
  - intros (lp & dp & Hlp0 & Hdp0 & Hlp & Hdp1 & Hdp2 & Hw).
    exists (string_of_list_ascii lp), (string_of_list_ascii dp).
    rewrite <- !list_of_empty, !contains_elem_of,
      !list_ascii_of_string_of_list_ascii.
    repeat (split; [assumption|]).
    destruct Hw as [Hw | (res & Hr0 & Hr & Hw)]; [left | right].
    + rewrite <- (string_of_list_ascii_of_string s), Hw, string_of_app.
      reflexivity.
    + exists (string_of_list_ascii res).
      rewrite <- list_of_empty, contains_elem_of,
        list_ascii_of_string_of_list_ascii.
      repeat (split; [assumption|]).
      rewrite <- (string_of_list_ascii_of_string s), Hw, string_of_app.
      simpl. rewrite string_of_app. reflexivity.
  - intros (lp & dp & Hlp0 & Hdp0 & Hlp & Hdp1 & Hdp2 & Hw).
    exists (list_ascii_of_string lp), (list_ascii_of_string dp).
    rewrite !list_of_empty, <- !contains_elem_of.
    repeat (split; [assumption|]).
    destruct Hw as [-> | (res & Hr0 & Hr & ->)]; [left | right].
    + rewrite !list_of_app. reflexivity.
    + exists (list_ascii_of_string res).
      rewrite list_of_empty, <- contains_elem_of.
      repeat (split; [assumption|]).
      rewrite !list_of_app. reflexivity.
Qed.

(** X1. [JID_PATTERN.match] accepts exactly the strings made of a
    non-empty local part, "@", a non-empty domain part and optionally "/"
    and a non-empty resource, where no part holds an "@" and the domain
    part holds no "/". The local part may hold a "/"; whitespace and
    newlines count as ordinary characters, the trailing [$] included. *)
Theorem JID_PATTERN_accepts_exactly s :
  Config.JID_PATTERN_match s = true <-> jid_shape s.
Proof. rewrite JID_PATTERN_match_parts. apply jid_parts_shape. Qed.

(** ** Settings: the derived accessors *)

Lemma split_no_sep sep s :
  PyStr.contains sep s = false -> PyStr.split sep s = [s].
Proof.
  induction s as [|c s IH]; simpl; [reflexivity|].
  intros Hc. apply orb_false_iff in Hc as [E Hc].
  rewrite E, (IH Hc). reflexivity.
Qed.

Lemma split_app_sep sep a b :
  PyStr.contains sep a = false ->
  PyStr.split sep (a +:+ String sep b) = a :: PyStr.split sep b.
Proof.
  induction a as [|c a IH]; intros Hc.
  - change ("" +:+ String sep b) with (String sep b). simpl.
    rewrite Ascii.eqb_refl. reflexivity.
  - change (String c a +:+ String sep b) with (String c (a +:+ String sep b)).
    simpl in *. apply orb_false_iff in Hc as [E Hc].
    rewrite E, (IH Hc). reflexivity.
Qed.

Lemma contains_app c a b :
  PyStr.contains c (a +:+ b) = PyStr.contains c a || PyStr.contains c b.
Proof.
  induction a as [|d a IH]; [reflexivity|].
  change (String d a +:+ b) with (String d (a +:+ b)).
  simpl. rewrite IH. apply orb_assoc.
Qed.

Lemma string_app_empty_r s : s +:+ "" = s.
Proof.
  induction s as [|c s IH]; [reflexivity|].
  change (String c s +:+ "") with (String c (s +:+ "")).
  rewrite IH. reflexivity.
Qed.

Lemma post_init_matches s :
  Config.__post_init__ s = Ok tt ->
  Config.JID_PATTERN_match (Config.jid s) = true
  /\ Config.JID_PATTERN_match (Config.default_receiver s) = true.
Proof.
  intros Hok. pose proof (post_init_spec s) as Hs. rewrite Hok in Hs.
  unfold ill_formed in Hs.
  destruct (Config.JID_PATTERN_match (Config.jid s));
    destruct (Config.JID_PATTERN_match (Config.default_receiver s));
    tauto.
Qed.

(** X2. For settings that passed validation, [jid_user] and [jid_domain]
    take the identity apart without failing: the identity is the user
    part, "@", the domain part and then either nothing or "/" and a
    non-empty resource; both parts are non-empty, neither holds an "@",
    and the domain part holds no "/". *)
Theorem jid_accessors_decompose s :
  Config.__post_init__ s = Ok tt ->
  exists domain rest,
    Config.jid_domain s = Some domain
    /\ Config.jid s = Config.jid_user s +:+ "@" +:+ domain +:+ rest
    /\ (rest = "" \/ exists res, res <> "" /\ rest = "/" +:+ res)
    /\ Config.jid_user s <> "" /\ domain <> ""
    /\ PyStr.contains "@" (Config.jid_user s) = false
    /\ PyStr.contains "@" domain = false
    /\ PyStr.contains "/" domain = false.
Proof.
  intros Hok. apply post_init_matches in Hok as [Hm _].
  rewrite JID_PATTERN_match_parts in Hm.
  apply jid_parts_shape in Hm
    as (lp & dp & Hlp0 & Hdp0 & Hlp & Hdp1 & Hdp2 & Hjid).
  unfold Config.jid_user, Config.jid_domain, PyStr.split_head.
  destruct Hjid as [Hjid | (res & Hr0 & Hr & Hjid)]; rewrite Hjid.
  - change (lp +:+ "@" +:+ dp) with (lp +:+ String "@" dp).
    rewrite split_app_sep, (split_no_sep "@" dp) by assumption.
    fold (PyStr.split_head "/" dp). rewrite split_head_id by assumption.
    exists dp, "". rewrite string_app_empty_r. repeat split; auto.
  - change (lp +:+ "@" +:+ dp +:+ "/" +:+ res)
      with (lp +:+ String "@" (dp +:+ String "/" res)).
    assert (Hrest : PyStr.contains "@" (dp +:+ String "/" res) = false).
    { rewrite contains_app, Hdp1. simpl. exact Hr. }
    rewrite split_app_sep, (split_no_sep "@" _ Hrest) by assumption.
    fold (PyStr.split_head "/" (dp +:+ String "/" res)).
    rewrite split_head_app by assumption.
    exists dp, ("/" +:+ res). repeat split; eauto.
Qed.

Lemma jid_accessors_decompose_witness :
  exists domain rest,
    Config.jid_domain Examples.valid_settings = Some domain
    /\ Config.jid Examples.valid_settings
       = Config.jid_user Examples.valid_settings +:+ "@" +:+ domain +:+ rest.
Proof.
  destruct (jid_accessors_decompose Examples.valid_settings)
    as (domain & rest & Hd & Hj & _); [vm_compute; reflexivity|].
  exists domain, rest. split; assumption.
Defined.

(** X3. [full_jid] always holds a "/" and never changes the bare address:
    cut at the first "/", the full identity and the configured identity
    agree, so the allow-list of any settings treats the two alike. *)
Theorem full_jid_keeps_bare s :
  PyStr.contains "/" (Config.full_jid s) = true
  /\ PyStr.split_head "/" (Config.full_jid s)
     = PyStr.split_head "/" (Config.jid s)
  /\ forall s', Config.is_jid_allowed s' (Config.full_jid s)
                = Config.is_jid_allowed s' (Config.jid s).
Proof.
  assert (Hhead : PyStr.split_head "/" (Config.full_jid s)
                  = PyStr.split_head "/" (Config.jid s)).
  { unfold Config.full_jid.
    destruct (PyStr.contains "/" (Config.jid s)) eqn:Hc; [reflexivity|].
    change (Config.jid s +:+ "/" +:+ Config.resource s)
      with (Config.jid s +:+ String "/" (Config.resource s)).
    rewrite split_head_app, split_head_id by assumption. reflexivity. }
  split; [|split; [exact Hhead|]].
  - unfold Config.full_jid.
    destruct (PyStr.contains "/" (Config.jid s)) eqn:Hc; [exact Hc|].
    rewrite !contains_app. simpl. apply orb_true_r.
  - intros s'. unfold Config.is_jid_allowed. rewrite Hhead. reflexivity.
Qed.

(** ** Settings: parsing the allow-list *)

Lemma stripped_entries_elem v e :
  e ∈ Config.stripped_entries v
  <-> e <> "" /\ exists x, x ∈ PyStr.split "," v /\ e = PyStr.strip x.
Proof.
  unfold Config.stripped_entries. rewrite list_elem_of_omap.
  split.
  - intros (x & Hx & Hf).
    destruct (PyStr.truthy (PyStr.strip x)) eqn:Ht; [|discriminate].
    injection Hf as <-. split; [|eauto].
    intros E. rewrite E in Ht. discriminate.
  - intros (Hne & x & Hx & ->). exists x. split; [exact Hx|].
    destruct (PyStr.strip x); [contradiction | reflexivity].
Qed.

Lemma validate_each_spec jids :
  match Config.validate_each jids with
  | Ok _ => forall e, e ∈ jids -> Config.JID_PATTERN_match e = true
  | Raise exc =>
      exists bad, bad ∈ jids /\ Config.JID_PATTERN_match bad = false
                  /\ exc = mkExc ValueError (Constants.ERR_INVALID_JID bad)
                                 None
  end.
Proof.
  induction jids as [|j jids IH]; simpl.
  - intros e He. inversion He.
  - pose proof (validate_jid_spec j "allowed JID") as Hj.
    destruct (Config._validate_jid j "allowed JID") as [[]|exc]; simpl.
    + destruct (Config.validate_each jids) as [[]|exc].
      * intros e He. apply elem_of_cons in He as [-> | He]; auto.
      * destruct IH as (bad & Hin & Hbad & ->). exists bad.
        split; [right; exact Hin | auto].
    + destruct Hj as [-> Hj]. exists j. split; [left | auto].
Qed.

(** X4. What [_parse_allowed_jids] returns. No restriction ([None]) when
    the value is missing or every comma-separated piece is blank. A set
    otherwise, which is never empty and holds exactly the non-blank
    pieces, each stripped of surrounding whitespace and each matching the
    address pattern. A [ValueError] naming a stripped piece that fails
    the pattern, if there is one. *)
Theorem parse_allowed_jids_result value :
  match Config._parse_allowed_jids value with
  | Ok None =>
      forall v, value = Some v ->
      forall x, x ∈ PyStr.split "," v -> PyStr.strip x = ""
  | Ok (Some allowed) =>
      exists v,
        value = Some v
        /\ allowed <> ∅
        /\ (forall e, e ∈ allowed
                      <-> e <> "" /\ exists x, x ∈ PyStr.split "," v
                                               /\ e = PyStr.strip x)
        /\ (forall e, e ∈ allowed -> Config.JID_PATTERN_match e = true)
  | Raise exc =>
      exists v bad,
        value = Some v
        /\ bad ∈ Config.stripped_entries v
        /\ Config.JID_PATTERN_match bad = false
        /\ exc = mkExc ValueError (Constants.ERR_INVALID_JID bad) None
  end.
Proof.
  unfold Config._parse_allowed_jids.
  destruct value as [v|]; [|intros v [=]].
  assert (Hblank : Config.stripped_entries v = [] ->
                   forall x, x ∈ PyStr.split "," v -> PyStr.strip x = "").
  { intros Hnil x Hx.
    destruct (PyStr.strip x) as [|c r] eqn:Hs; [reflexivity|].
    assert (Hin : String c r ∈ Config.stripped_entries v).
    { apply stripped_entries_elem. split; [discriminate|]. eauto. }
    rewrite Hnil in Hin. inversion Hin. }
  destruct (PyStr.truthy v) eqn:Hv; simpl.
  - destruct (Config.stripped_entries v) as [|j jids] eqn:Hs.
    + intros v' [= <-]. exact (Hblank eq_refl).
    + pose proof (validate_each_spec (j :: jids)) as Hval.
      destruct (Config.validate_each (j :: jids)) as [[]|exc]; unfold rbind.
      * exists v. split; [reflexivity|].
        split; [intros E; assert (j ∈ (∅ : gset string))
                  by (rewrite <- E; set_solver); set_solver|].
        split.
        -- intros e. rewrite elem_of_list_to_set, <- Hs.
           apply stripped_entries_elem.
        -- intros e He. apply Hval. apply elem_of_list_to_set in He.
           exact He.
      * destruct Hval as (bad & Hin & Hbad & ->).
        exists v, bad. rewrite Hs. auto.
  - intros v' [= <-]. apply Hblank.
    destruct v; [reflexivity | discriminate].
Qed.

(** ** Settings: what the two constructors fill in *)

Lemma from_dict_allowed `{PyRuntime} data s :
  Config.from_dict data = Some (Ok s) ->
  Config.allowed_jids_of (Config.dict_get data "allowed_jids")
  = Some (Ok (Config.allowed_jids s)).
Proof.
  unfold Config.from_dict.
  destruct (Config.allowed_jids_of _) as [ra|]; [|discriminate].
  intros [= Hr]. destruct ra as [allowed|e]; simpl in Hr; [|discriminate].
  destruct (Config.int_or (Config.dict_get data "connect_timeout") _)
    as [ct|e]; simpl in Hr; [|discriminate].
  destruct (Config.int_or (Config.dict_get data "keepalive_interval") _)
    as [ki|e]; simpl in Hr; [|discriminate].
  destruct (Config.float_or (Config.dict_get data "retry_delay") _)
    as [rd|e]; simpl in Hr; [|discriminate].
  destruct (Config.float_or (Config.dict_get data "send_delay") _)
    as [sd|e]; simpl in Hr; [|discriminate].
  match type of Hr with
  | Config.new_Settings ?j ?p ?r ?b ?a ?c ?k ?x ?y ?z ?d = _ =>
      pose proof (new_Settings_spec j p r b a c k x y z d) as Hs
  end.
  rewrite Hr in Hs. destruct Hs as [-> _]. reflexivity.
Qed.

(** X5. [from_dict] takes an allow-list given as a collection as it is:
    the entries are neither stripped nor checked against the address
    pattern, and an empty collection becomes "no restriction", which
    allows every sender. A [Settings] built directly with the empty set
    denies every sender instead. *)
Theorem from_dict_collection_allow_list `{PyRuntime} :
  (forall data entries s,
      data !! "allowed_jids" = Some (PStrs entries) ->
      Config.from_dict data = Some (Ok s) ->
      Config.allowed_jids s
      = match entries with
        | [] => None
        | _ => Some (list_to_set entries)
        end
      /\ forall jid,
           Config.is_jid_allowed s jid = true
           <-> entries = [] \/ PyStr.split_head "/" jid ∈ entries)
  /\ (forall s jid,
        Config.allowed_jids s = Some ∅ ->
        Config.is_jid_allowed s jid = false).
Proof.
  split.
  - intros data entries s Hl Hs.
    apply from_dict_allowed in Hs.
    unfold Config.dict_get, Config.dict_get_default in Hs.
    rewrite Hl in Hs. simpl in Hs.
    assert (Ha : Config.allowed_jids s
                 = match entries with
                   | [] => None
                   | _ => Some (list_to_set entries)
                   end)
      by (destruct entries; congruence).
    split; [exact Ha|].
    intros jid. unfold Config.is_jid_allowed. rewrite Ha.
    destruct entries as [|e entries].
    + split; auto.
    + rewrite bool_decide_eq_true, elem_of_list_to_set.
      split; [auto | intros [?|?]; [discriminate | assumption]].
  - intros s jid Ha. unfold Config.is_jid_allowed. rewrite Ha.
    apply bool_decide_eq_false. set_solver.
Qed.

Lemma from_dict_collection_allow_list_witness :
  exists s,
    Config.from_dict (H:=Examples.example_runtime)
      (<["allowed_jids" := PStrs [" not an address "]]> minimal_mapping)
    = Some (Ok s)
    /\ Config.allowed_jids s = Some (list_to_set [" not an address "]).
Proof.
  destruct (@from_dict_collection_allow_list Examples.example_runtime)
    as [Hcoll _].
  eexists. split; [vm_compute; reflexivity|].
  refine (proj1 (Hcoll (<["allowed_jids" := PStrs [" not an address "]]>
                          minimal_mapping)
                       [" not an address "] _ _ _));
    vm_compute; reflexivity.
Defined.

(** X6. With the three required values and nothing else, both
    constructors build what the direct call with every default builds:
    [from_dict] whatever the interpreter, [from_env] as soon as [int] and
    [float] read back the rendering of the four numeric defaults. *)
Theorem constructors_apply_defaults `{PyRuntime} :
  (forall data,
      data !! "allowed_jids" = None ->
      data !! "connect_timeout" = None ->
      data !! "keepalive_interval" = None ->
      data !! "retry_delay" = None ->
      data !! "send_delay" = None ->
      data !! "base_url" = None ->
      data !! "resource" = None ->
      data !! "debug" = None ->
      Config.from_dict data
      = Some (Config.new_Settings_minimal
                (py_str (Config.dict_get_default data "jid" (PStr "")))
                (py_str (Config.dict_get_default data "password" (PStr "")))
                (py_str (Config.dict_get_default data "default_receiver"
                           (PStr "")))))
  /\ (forall environ,
        py_int (py_str (PInt Constants.DEFAULT_CONNECT_TIMEOUT))
        = Ok Constants.DEFAULT_CONNECT_TIMEOUT ->
        py_int (py_str (PInt Constants.DEFAULT_KEEPALIVE_INTERVAL))
        = Ok Constants.DEFAULT_KEEPALIVE_INTERVAL ->
        py_float (py_str (PFloat Constants.DEFAULT_RETRY_DELAY))
        = Ok Constants.DEFAULT_RETRY_DELAY ->
        py_float (py_str (PFloat Constants.DEFAULT_SEND_DELAY))
        = Ok Constants.DEFAULT_SEND_DELAY ->
        environ !! Constants.ENV_ALLOWED_JIDS = None ->
        environ !! Constants.ENV_CONNECT_TIMEOUT = None ->
        environ !! Constants.ENV_KEEPALIVE_INTERVAL = None ->
        environ !! Constants.ENV_RETRY_DELAY = None ->
        environ !! Constants.ENV_SEND_DELAY = None ->
        environ !! Constants.ENV_BASE_URL = None ->
        environ !! Constants.ENV_RESOURCE = None ->
        environ !! Constants.ENV_DEBUG = None ->
        Config.from_env environ
        = Config.new_Settings_minimal
            (Config.getenv environ Constants.ENV_JID "")
            (Config.getenv environ Constants.ENV_PASSWORD "")
            (Config.getenv environ Constants.ENV_DEFAULT_RECEIVER "")).
Proof.
  split.
  - intros data Ha Hc Hk Hr Hs Hb Hres Hd.
    unfold Config.from_dict, Config.dict_get, Config.dict_get_default.
    rewrite Ha, Hc, Hk, Hr, Hs, Hb, Hres, Hd. reflexivity.
  - intros environ Hi1 Hi2 Hf1 Hf2 Ha Hc Hk Hr Hs Hb Hres Hd.
    unfold Config.from_env, Config.getenv.
    rewrite Ha, Hc, Hk, Hr, Hs, Hb, Hres, Hd. simpl.
    simpl in Hi1, Hi2, Hf1, Hf2.
    rewrite Hi1. simpl. rewrite Hi2. simpl. rewrite Hf1. simpl.
    rewrite Hf2. reflexivity.
Qed.

Lemma constructors_apply_defaults_witness :
  Config.from_dict (H:=Examples.example_runtime) minimal_mapping
  = Some (Ok Examples.minimal_settings)
  /\ Config.from_env (H:=Examples.example_runtime) minimal_environ
     = Ok Examples.minimal_settings.
Proof.
  destruct (@constructors_apply_defaults Examples.example_runtime)
    as [Hdict Henv].
  split.
  - rewrite (Hdict minimal_mapping) by (vm_compute; reflexivity).
    vm_compute. reflexivity.
  - rewrite (Henv minimal_environ) by (vm_compute; reflexivity).
    vm_compute. reflexivity.
Defined.

(** ** The handler registry: order, round trip, unique names *)

Section MoreDictFacts.
Context {V : Type}.
Implicit Types (d : PyDict.dict V) (name k : string) (v : V).

Lemma dict_values_set_absent name v d :
PyDict.contains name d = false ->
PyDict.values (PyDict.set name v d) = PyDict.values d ++ [v].
Proof.
induction d as [|[k x] d IH]; simpl; [reflexivity|].
destruct (decide (k = name)); simpl; [discriminate|].
intros Hc. rewrite (IH Hc). reflexivity.
Qed.

Lemma dict_del_set_absent name v d :
PyDict.contains name d = false ->
PyDict.del name (PyDict.set name v d) = d.
Proof.
induction d as [|[k x] d IH]; simpl.
- destruct (decide (name = name)); congruence.
- destruct (decide (k = name)) as [|Hne]; simpl; [discriminate|].
  destruct (decide (k = name)); [contradiction|].
  intros Hc. rewrite (IH Hc). reflexivity.
Qed.

Lemma dict_contains_del_ne name k d :
name <> k -> PyDict.contains k (PyDict.del name d) = PyDict.contains k d.
Proof.
intros Hne. induction d as [|[k' x] d IH]; simpl; [reflexivity|].
destruct (decide (k' = name)) as [->|Hne']; simpl.
- destruct (decide (name = k)); [contradiction | reflexivity].
- destruct (decide (k' = k)); [reflexivity | exact IH].
Qed.

Lemma dict_length_del name d :
PyDict.contains name d = true ->
length (PyDict.values (PyDict.del name d)) + 1
= length (PyDict.values d).
Proof.
induction d as [|[k x] d IH]; simpl; [discriminate|].
destruct (decide (k = name)); simpl.
- intros _. rewrite Nat.add_1_r. reflexivity.
- intros Hc. rewrite (IH Hc). reflexivity.
Qed.
End MoreDictFacts.

(** X7. In the sync registry a handler added under a free name goes to
    the end of the handler list, so handlers are listed (and dispatched)
    in registration order; removing that name again gives back the
    registry as it was. For messages and for presence. *)
Theorem registry_add_appends_remove_restores :
  (forall r name h,
      Handlers.has_message_handler r name = false ->
      let r1 := final_state (Handlers.add_message_handler name h r) in
      Handlers.get_message_handlers r1
      = Handlers.get_message_handlers r ++ [h]
      /\ Handlers.get_presence_handlers r1 = Handlers.get_presence_handlers r
      /\ result (Handlers.remove_message_handler name r1) = Ok tt
      /\ final_state (Handlers.remove_message_handler name r1) = r)
  /\ (forall r name h,
        Handlers.has_presence_handler r name = false ->
        let r1 := final_state (Handlers.add_presence_handler name h r) in
        Handlers.get_presence_handlers r1
        = Handlers.get_presence_handlers r ++ [h]
        /\ Handlers.get_message_handlers r1 = Handlers.get_message_handlers r
        /\ result (Handlers.remove_presence_handler name r1) = Ok tt
        /\ final_state (Handlers.remove_presence_handler name r1) = r).
Proof.
  unfold Handlers.has_message_handler, Handlers.has_presence_handler.
  split; intros r name h Hc; cbv zeta.
  - assert (Hr1 : final_state (Handlers.add_message_handler name h r)
                  = Handlers.set_message_handlers
                      (PyDict.set name h (Handlers._message_handlers r)) r).
    { unfold Handlers.add_message_handler, bind, get, modify, emit.
      rewrite Hc. reflexivity. }
    rewrite Hr1.
    unfold Handlers.get_message_handlers, Handlers.get_presence_handlers,
      Handlers.remove_message_handler, bind, get, modify, emit, raise.
    cbn [Handlers._message_handlers Handlers._presence_handlers
         Handlers.set_message_handlers].
    rewrite dict_contains_set, dict_values_set_absent by assumption.
    cbn. rewrite dict_del_set_absent by assumption.
    destruct r. repeat split.
  - assert (Hr1 : final_state (Handlers.add_presence_handler name h r)
                  = Handlers.set_presence_handlers
                      (PyDict.set name h (Handlers._presence_handlers r)) r).
    { unfold Handlers.add_presence_handler, bind, get, modify, emit.
      rewrite Hc. reflexivity. }
    rewrite Hr1.
    unfold Handlers.get_message_handlers, Handlers.get_presence_handlers,
      Handlers.remove_presence_handler, bind, get, modify, emit, raise.
    cbn [Handlers._message_handlers Handlers._presence_handlers
         Handlers.set_presence_handlers].
    rewrite dict_contains_set, dict_values_set_absent by assumption.
    cbn. rewrite dict_del_set_absent by assumption.
    destruct r. repeat split.
Qed.

Lemma registry_add_appends_remove_restores_witness :
  Handlers.get_message_handlers
    (final_state
       (Handlers.add_message_handler "echo" Examples.failing_handler
          (Bot._handlers Examples.dispatch_bot)))
  = Handlers.get_message_handlers (Bot._handlers Examples.dispatch_bot)
    ++ [Examples.failing_handler].
Proof.
  destruct registry_add_appends_remove_restores as [Hmsg _].
  apply (Hmsg (Bot._handlers Examples.dispatch_bot) "echo"
           Examples.failing_handler).
  reflexivity.
Defined.

Lemma run_registry_call_unique c r :
  registry_unique r -> registry_unique (final_state (run_registry_call c r)).
Proof.
  intros [Hm Hp]. unfold registry_unique.
  destruct c as [name h|name|name h|name|]; simpl.
  - unfold Handlers.add_message_handler, bind, get, modify, emit, raise.
    destruct (PyDict.contains name (Handlers._message_handlers r));
      cbn -[PyDict.keys PyDict.set]; auto using dict_set_NoDup.
  - unfold Handlers.remove_message_handler, bind, get, modify, emit, raise.
    destruct (PyDict.contains name (Handlers._message_handlers r));
      cbn -[PyDict.keys PyDict.del]; auto using dict_del_NoDup.
  - unfold Handlers.add_presence_handler, bind, get, modify, emit, raise.
    destruct (PyDict.contains name (Handlers._presence_handlers r));
      cbn -[PyDict.keys PyDict.set]; auto using dict_set_NoDup.
  - unfold Handlers.remove_presence_handler, bind, get, modify, emit, raise.
    destruct (PyDict.contains name (Handlers._presence_handlers r));
      cbn -[PyDict.keys PyDict.del]; auto using dict_del_NoDup.
  - cbn. split; constructor.
Qed.

Lemma registry_after_unique history : forall r,
  registry_unique r -> registry_unique (registry_after history r).
Proof.
  induction history as [|c rest IH]; intros r Hr; simpl; [exact Hr|].
  apply IH, run_registry_call_unique, Hr.
Qed.

(** X8. Whatever calls a registry has received since it was created, no
    name is registered twice in it; so removing a registered name leaves
    that name unregistered, takes exactly one handler off the list, and
    changes nothing for the other names nor for the other kind. *)
Theorem registry_remove_unregisters history name :
  let r := registry_after history Handlers.new_registry in
  registry_unique r
  /\ (Handlers.has_message_handler r name = true ->
      let r' := final_state (Handlers.remove_message_handler name r) in
      result (Handlers.remove_message_handler name r) = Ok tt
      /\ Handlers.has_message_handler r' name = false
      /\ length (Handlers.get_message_handlers r') + 1
         = length (Handlers.get_message_handlers r)
      /\ Handlers._presence_handlers r' = Handlers._presence_handlers r
      /\ forall other,
           other <> name ->
           Handlers.has_message_handler r' other
           = Handlers.has_message_handler r other
           /\ PyDict.get other (Handlers._message_handlers r')
              = PyDict.get other (Handlers._message_handlers r))
  /\ (Handlers.has_presence_handler r name = true ->
      let r' := final_state (Handlers.remove_presence_handler name r) in
      result (Handlers.remove_presence_handler name r) = Ok tt
      /\ Handlers.has_presence_handler r' name = false
      /\ length (Handlers.get_presence_handlers r') + 1
         = length (Handlers.get_presence_handlers r)
      /\ Handlers._message_handlers r' = Handlers._message_handlers r
      /\ forall other,
           other <> name ->
           Handlers.has_presence_handler r' other
           = Handlers.has_presence_handler r other
           /\ PyDict.get other (Handlers._presence_handlers r')
              = PyDict.get other (Handlers._presence_handlers r)).
Proof.
  intros r.
  assert (Hu : registry_unique r).
  { apply registry_after_unique. split; constructor. }
  split; [exact Hu|]. destruct Hu as [Hm Hp].
  unfold Handlers.has_message_handler, Handlers.has_presence_handler,
    Handlers.get_message_handlers, Handlers.get_presence_handlers.
  split; intros Hc; cbv zeta.
  - unfold Handlers.remove_message_handler, bind, get, modify, emit, raise.
    rewrite Hc. cbn.
    split; [reflexivity|]. split; [apply dict_contains_del, Hm|].
    split; [apply dict_length_del, Hc|]. split; [reflexivity|].
    intros other Hne.
    split; [apply dict_contains_del_ne | apply dict_get_del_ne]; congruence.
  - unfold Handlers.remove_presence_handler, bind, get, modify, emit, raise.
    rewrite Hc. cbn.
    split; [reflexivity|]. split; [apply dict_contains_del, Hp|].
    split; [apply dict_length_del, Hc|]. split; [reflexivity|].
    intros other Hne.
    split; [apply dict_contains_del_ne | apply dict_get_del_ne]; congruence.
Qed.

Lemma registry_remove_unregisters_witness :
  let r := registry_after
             [registry_add_message "echo" Examples.returns_handler;
              registry_add_message "log" Examples.failing_handler]
             Handlers.new_registry in
  Handlers.has_message_handler
    (final_state (Handlers.remove_message_handler "echo" r)) "echo" = false
  /\ Handlers.has_message_handler
       (final_state (Handlers.remove_message_handler "echo" r)) "log" = true.
Proof.
  intros r.
  destruct (registry_remove_unregisters
              [registry_add_message "echo" Examples.returns_handler;
               registry_add_message "log" Examples.failing_handler] "echo")
    as (_ & Hmsg & _).
  destruct (Hmsg eq_refl) as (_ & Hgone & _ & _ & Hother).
  split; [exact Hgone|].
  destruct (Hother "log") as [Hlog _]; [discriminate|].
  exact (eq_trans Hlog eq_refl).
Defined.
(** ** Connecting *)

Section Connecting.
Context `{PyRuntime} `{Bot.HandlerWorld}.

(** [initialize], once past its two guards and with the client built, in
    terms of the wait loop. *)
Lemma initialize_runs settings environ transport script b s :
  Bot._initialized b = false ->
  resolved settings environ s ->
  Bot.on_construct transport (Config.full_jid s) (Config.password s)
  = Returns ->
  Bot.initialize settings environ transport script b
  = match Bot.wait_loop
            (Bot.mkClient (Config.full_jid s) (Config.password s) transport)
            (Config.connect_timeout s) script (connecting s transport b)
    with
    | (b1, tw, Raise e) => (b1, connect_prelude s ++ tw, Raise e)
    | (b1, tw, Ok _) =>
        let connected :=
          (Bot.set_initialized true (Bot.set_connected true b1),
           connect_prelude s ++ tw
           ++ [Log INFO Constants.LOG_CONNECTED;
               Log INFO Constants.LOG_AUTH_SUCCESS],
           Ok tt) in
        match Bot._auth_error b1 with
        | Some err =>
            if PyStr.truthy err
            then (b1, connect_prelude s ++ tw,
                  Raise (mkExc AuthenticationError
                           (Constants.ERR_AUTH_FAILED (Config.jid s)) None))
            else connected
        | None => connected
        end
    end.
Proof.
  intros Hflag Hs Hbuilt.
  assert (Hset : match settings with
                 | Some s0 => ret s0
                 | None => Bot.of_result (Config.from_env environ)
                 end b = (b, [], Ok s)).
  { unfold resolved in Hs.
    destruct settings as [given|]; [subst; reflexivity|].
    rewrite Hs. reflexivity. }
  unfold Bot.initialize, bind at 1, get at 1. rewrite Hflag.
  cbv beta iota zeta. unfold bind at 1. rewrite Hset.
  unfold connect_prelude.
  destruct (Config.debug s);
    cbv beta iota zeta
        delta [bind get emit modify raise ret Bot._connect connecting
               connect_prelude Bot._settings Bot.set_settings outcome];
    rewrite Hbuilt; cbv beta iota zeta;
    set (w := Bot.wait_loop _ _ script _); clearbody w;
    destruct w as [[b1 tw] [[]|e]];
    try (destruct (Bot._auth_error b1) as [err|];
         [destruct (PyStr.truthy err)|]);
    cbn [app]; rewrite ?app_nil_r; reflexivity.
Qed.

(** An [initialize] whose client cannot be built. *)
Lemma initialize_not_built settings environ transport script b s e :
  Bot._initialized b = false ->
  resolved settings environ s ->
  Bot.on_construct transport (Config.full_jid s) (Config.password s)
  = Raises e ->
  Bot.initialize settings environ transport script b
  = (Bot.set_settings (Some s) b,
     (if Config.debug s then [BasicConfig] else [])
     ++ [Log INFO (Constants.LOG_CONNECTING (Config.jid s));
         NewClient (Config.full_jid s) (Config.password s)],
     Raise e).
Proof.
  intros Hflag Hs Hbuilt.
  assert (Hset : match settings with
                 | Some s0 => ret s0
                 | None => Bot.of_result (Config.from_env environ)
                 end b = (b, [], Ok s)).
  { unfold resolved in Hs.
    destruct settings as [given|]; [subst; reflexivity|].
    rewrite Hs. reflexivity. }
  unfold Bot.initialize, bind at 1, get at 1. rewrite Hflag.
  cbv beta iota zeta. unfold bind at 1. rewrite Hset.
  destruct (Config.debug s);
    cbv beta iota zeta
        delta [bind get emit modify raise ret Bot._connect
               Bot._settings Bot.set_settings outcome];
    rewrite Hbuilt; reflexivity.
Qed.

(** Handlers that leave the bot alone keep every property of it. *)
Lemma detached_keeps (P : Bot.XmppBot -> Prop) :
  detached_world -> world_keeps P.
Proof.
  intros Hd. split.
  - intros h sender body msg b Hb. destruct (Hd b) as [Hm _].
    rewrite (Hm h sender body msg b eq_refl). exact Hb.
  - intros h sender ptype status p b Hb. destruct (Hd b) as [_ Hp].
    rewrite (Hp h sender ptype status p b eq_refl). exact Hb.
Qed.

(** On a bot without handlers a message changes nothing, invokes nothing
    and raises at most the failed assertion. *)
Lemma on_message_handlerless msg b :
  no_handlers b ->
  final_state (Bot._on_message msg b) = b
  /\ within_Exception (Bot._on_message msg b)
  /\ invocations (trace (Bot._on_message msg b)) = [].
Proof.
  intros (Hsync & _ & Hasync & _).
  assert (Hrun : exists tr r,
             Bot._on_message msg b = (b, tr, r)
             /\ within_Exception (b, tr, r) /\ invocations tr = []).
  { unfold Bot._on_message.
    destruct (bool_decide (msg_type msg ∈ ["chat"; "normal"])); simpl;
      [|eexists _, _; repeat split].
    destruct (PyStr.truthy (msg_body msg)); simpl;
      [|eexists _, _; repeat split].
    unfold bind at 1, get at 1.
    destruct (Bot._settings b) as [s|]; [|eexists _, _; repeat split].
    destruct (negb (Config.is_jid_allowed s (jid_bare (msg_from msg))));
      [eexists _, _; repeat split|].
    unfold bind, get, emit. rewrite Hsync. cbn [for_each]. unfold ret at 1.
    rewrite (for_each_live_empty Bot._async_message_handlers _ b Hasync).
    eexists _, _. repeat split. }
  destruct Hrun as (tr & r & -> & Hin & Hinv). auto.
Qed.

Lemma on_presence_handlerless p b :
  no_handlers b ->
  final_state (Bot._on_presence p b) = b
  /\ result (Bot._on_presence p b) = Ok tt
  /\ presence_invocations (trace (Bot._on_presence p b)) = [].
Proof.
  intros (_ & Hsync & _ & Hasync).
  assert (Hrun : exists tr,
             Bot._on_presence p b = (b, tr, Ok tt)
             /\ presence_invocations tr = []).
  { unfold Bot._on_presence. cbv zeta.
    unfold bind, get, emit. rewrite Hsync. cbn [for_each]. unfold ret at 1.
    rewrite (for_each_live_empty Bot._async_presence_handlers _ b Hasync).
    eexists. repeat split. }
  destruct Hrun as (tr & -> & Hinv). auto.
Qed.

(** What the callbacks keep: a property that the flags they set cannot
    break, when the handlers keep it or the bot has none. *)
Lemma callback_keeps_events (P : Bot.XmppBot -> Prop) ev :
  event_stable P -> world_keeps P -> keeps P (Bot.callback ev).
Proof.
  intros (Hc & Hs & Ha) [Hmessage Hpresence]. destruct ev; simpl.
  - unfold Bot._on_session_start. keeps_auto.
  - unfold Bot._on_message, Bot.call_sync_message, Bot.await_async_message.
    repeat first [apply Hmessage | keeps_step | progress cbv zeta].
  - unfold Bot._on_presence_subscribe. keeps_auto.
  - unfold Bot._on_presence, Bot.call_sync_presence,
      Bot.await_async_presence.
    repeat first [apply Hpresence | keeps_step | progress cbv zeta].
  - unfold Bot._on_failed_auth. keeps_auto.
  - unfold Bot._on_disconnected. keeps_auto.
Qed.

Lemma callback_keeps_handlerless (P : Bot.XmppBot -> Prop) ev :
  event_stable P -> (forall x, P x -> no_handlers x) ->
  keeps P (Bot.callback ev).
Proof.
  intros (Hc & Hs & Ha) Hnone. destruct ev; simpl.
  - unfold Bot._on_session_start. keeps_auto.
  - intros b Hb.
    rewrite (proj1 (on_message_handlerless msg b (Hnone b Hb))). exact Hb.
  - unfold Bot._on_presence_subscribe. keeps_auto.
  - intros b Hb.
    rewrite (proj1 (on_presence_handlerless p b (Hnone b Hb))). exact Hb.
  - unfold Bot._on_failed_auth. keeps_auto.
  - unfold Bot._on_disconnected. keeps_auto.
Qed.

Lemma callbacks_keep (P : Bot.XmppBot -> Prop) :
  detached_world \/ (forall x, P x -> no_handlers x) ->
  event_stable P ->
  forall ev, keeps P (Bot.callback ev).
Proof.
  intros [Hd | Hnone] Hst ev.
  - apply callback_keeps_events; [exact Hst | apply detached_keeps, Hd].
  - apply callback_keeps_handlerless; assumption.
Qed.

(** On a bot without handlers only the roster request can take a
    callback outside [Exception]. *)
Lemma callback_contained_handlerless ev b :
  no_handlers b -> roster_ordinary ev -> within_Exception (Bot.callback ev b).
Proof.
  intros Hnone Hev. destruct ev; simpl in *.
  - unfold Bot._on_session_start, within_Exception, result, bind, get, emit,
      outcome, raise, ret, modify.
    destruct (Bot._client b); [|reflexivity].
    destruct roster; simpl; [exact I | exact Hev].
  - apply (on_message_handlerless msg b Hnone).
  - unfold Bot._on_presence_subscribe, within_Exception, result, bind, get,
      emit, raise.
    destruct (Bot._client b); [exact I | reflexivity].
  - unfold within_Exception.
    rewrite (proj1 (proj2 (on_presence_handlerless p b Hnone))). exact I.
  - exact I.
  - exact I.
Qed.

(** What the event loop makes of a callback. *)
Lemma deliver_run ev b :
  Bot.deliver ev b
  = match Bot.callback ev b with
    | (b1, t1, Raise e) =>
        if isinstance e Exception then (b1, t1 ++ [], Ok tt)
        else (b1, t1, Raise e)
    | run => run
    end.
Proof. reflexivity. Qed.

Lemma deliver_contained ev b :
  within_Exception (Bot.callback ev b) ->
  result (Bot.deliver ev b) = Ok tt
  /\ final_state (Bot.deliver ev b) = final_state (Bot.callback ev b).
Proof.
  rewrite deliver_run. unfold within_Exception, result, final_state.
  destruct (Bot.callback ev b) as [[b1 t1] [[]|e]]; simpl; [auto|].
  intros ->. auto.
Qed.


Lemma deliver_keeps_callback (P : Bot.XmppBot -> Prop) ev :
  keeps P (Bot.callback ev) -> keeps P (Bot.deliver ev).
Proof.
  intros Hk. unfold Bot.deliver, suppress_Exception.
  apply keeps_try; [exact Hk | intros e; apply keeps_ret].
Qed.

(** A turn whose callbacks all stay within [Exception] is delivered to
    its end. *)
Lemma deliver_all_returns (P : Bot.XmppBot -> Prop) evs :
  (forall ev, keeps P (Bot.callback ev)) ->
  (forall ev x, ev ∈ evs -> P x -> within_Exception (Bot.callback ev x)) ->
  forall b,
    P b ->
    result (for_each evs Bot.deliver b) = Ok tt
    /\ P (final_state (for_each evs Bot.deliver b)).
Proof.
  intros Hk. induction evs as [|ev evs IH]; intros Hin b Hb; [auto|].
  cbn [for_each]. unfold bind.
  destruct (deliver_contained ev b (Hin ev b (list_elem_of_here _ _) Hb))
    as [Hr Hf].
  pose proof (deliver_keeps_callback P ev (Hk ev) b Hb) as Hb1.
  unfold result, final_state in Hr, Hf, Hb1.
  destruct (Bot.deliver ev b) as [[b1 t1] r]. simpl in Hr, Hb1. subst r.
  destruct (IH (fun ev' x Hev => Hin ev' x (list_elem_of_further _ _ _ Hev))
              b1 Hb1) as [Hr2 Hb2].
  unfold result, final_state in *.
  destruct (for_each evs Bot.deliver b1) as [[b2 t2] r2]. auto.
Qed.


Lemma wait_loop_keeps_callbacks (P : Bot.XmppBot -> Prop) client timeout
    script :
  (forall ev, keeps P (Bot.callback ev)) ->
  keeps P (Bot.wait_loop client timeout script).
Proof.
  intros Hk.
  assert (Hout : keeps P (Bot.timed_out client timeout))
    by (unfold Bot.timed_out; keeps_auto).
  induction script as [|tick rest IH]; simpl.
  - keeps_auto. exact Hout.
  - keeps_auto;
      [apply deliver_keeps_callback, Hk | exact Hout | exact IH].
Qed.

Lemma timed_out_raises client timeout b :
  final_state (Bot.timed_out client timeout b) = b
  /\ exists e,
       result (Bot.timed_out client timeout b) = Raise e
       /\ match Bot.on_disconnect (Bot.client_transport client) with
          | Returns =>
              e = mkExc ConnectionError
                    ("Connection timed out after "
                     +:+ py_str (PInt timeout) +:+ " seconds") None
              /\ trace (Bot.timed_out client timeout b) = [Disconnect]
          | Raises e' => e = e'
          end.
Proof.
  unfold Bot.timed_out, bind, emit, outcome, raise, final_state, result,
    trace.
  destruct (Bot.on_disconnect (Bot.client_transport client)); simpl; eauto.
Qed.

(** One turn of the wait loop. *)
Lemma wait_loop_step client timeout script b :
  Bot.wait_loop client timeout script b
  = if negb (Bot._session_started b)
       && bool_decide (Bot._auth_error b = None)
    then
      match script with
      | [] =>
          match Bot.timed_out client timeout b with
          | (b1, t1, r) => (b1, Sleep :: t1, r)
          end
      | tick :: rest =>
          match for_each (Bot.fired tick) Bot.deliver b with
          | (b1, t1, Raise e) => (b1, Sleep :: t1, Raise e)
          | (b1, t1, Ok _) =>
              match (if Bot.deadline_passed tick
                     then Bot.timed_out client timeout b1
                     else Bot.wait_loop client timeout rest b1)
              with
              | (b2, t2, r) => (b2, Sleep :: t1 ++ t2, r)
              end
          end
      end
    else (b, [], Ok tt).
Proof.
  destruct script as [|tick rest]; simpl; unfold bind at 1, get at 1;
    cbv beta iota zeta;
    destruct (negb (Bot._session_started b)
              && bool_decide (Bot._auth_error b = None));
    try reflexivity; unfold bind at 1, emit at 1; cbv beta iota zeta.
  - destruct (Bot.timed_out client timeout b) as [[b1 t1] r]. reflexivity.
  - unfold bind at 1.
    destruct (for_each (Bot.fired tick) Bot.deliver b) as [[b1 t1] [[]|e]];
      [|reflexivity].
    destruct (Bot.deadline_passed tick);
      [destruct (Bot.timed_out client timeout b1) as [[b2 t2] r]
      |destruct (Bot.wait_loop client timeout rest b1) as [[b2 t2] r]];
      reflexivity.
Qed.

(** The wait loop returns only with the session started or an
    authentication failure recorded. *)
Lemma wait_loop_returned client timeout script : forall b b1 tw,
  Bot.wait_loop client timeout script b = (b1, tw, Ok tt) ->
  Bot._session_started b1 = true \/ Bot._auth_error b1 <> None.
Proof.
  assert (Htimeout : forall b b1 t1,
             Bot.timed_out client timeout b <> (b1, t1, Ok tt)).
  { intros b b1 t1 Heq.
    destruct (timed_out_raises client timeout b) as [_ (e & He & _)].
    rewrite Heq in He. discriminate. }
  induction script as [|tick rest IH]; intros b b1 tw;
    rewrite wait_loop_step;
    destruct (negb (Bot._session_started b)
              && bool_decide (Bot._auth_error b = None)) eqn:Hc.
  - destruct (Bot.timed_out client timeout b) as [[b2 t2] r] eqn:Ht.
    intros [= -> <- ->]. exfalso. exact (Htimeout _ _ _ Ht).
  - intros [= <- <-]. apply andb_false_iff in Hc as [Hc | Hc].
    + left. destruct (Bot._session_started b); [reflexivity|discriminate].
    + right. apply bool_decide_eq_false in Hc. exact Hc.
  - destruct (for_each (Bot.fired tick) Bot.deliver b) as [[b2 t2] [[]|e]];
      [|discriminate].
    destruct (Bot.deadline_passed tick).
    + destruct (Bot.timed_out client timeout b2) as [[b3 t3] r] eqn:Ht.
      intros [= -> <- ->]. exfalso. exact (Htimeout _ _ _ Ht).
    + destruct (Bot.wait_loop client timeout rest b2) as [[b3 t3] r] eqn:Hw.
      intros [= -> <- ->]. exact (IH _ _ _ Hw).
  - intros [= <- <-]. apply andb_false_iff in Hc as [Hc | Hc].
    + left. destruct (Bot._session_started b); [reflexivity|discriminate].
    + right. apply bool_decide_eq_false in Hc. exact Hc.
Qed.


(** An [initialize] that returns found the flag off and settings it could
    use. *)
Lemma initialize_returned_resolved settings environ transport script b :
  result (Bot.initialize settings environ transport script b) = Ok tt ->
  Bot._initialized b = false /\ exists s, resolved settings environ s.
Proof.
  unfold Bot.initialize, bind at 1, get at 1, result.
  destruct (Bot._initialized b); [discriminate|].
  cbv beta iota zeta. unfold bind at 1. intros Hr. split; [reflexivity|].
  destruct settings as [given|]; [exists given; reflexivity|].
  unfold resolved. destruct (Config.from_env environ) as [s|e];
    [exists s; reflexivity | discriminate].
Qed.

Lemma waiting_for_stable s transport b :
  event_stable (waiting_for s transport b).
Proof.
  unfold waiting_for.
  repeat split; intros; simpl; intuition auto.
Qed.

Lemma waiting_for_connecting s transport b :
  waiting_for s transport b (connecting s transport b).
Proof. unfold waiting_for. simpl. intuition auto. Qed.

Lemma waiting_for_none s transport b x :
  no_handlers b -> waiting_for s transport b x -> no_handlers x.
Proof.
  unfold no_handlers, waiting_for.
  intros (H1 & H2 & H3 & H4) (_ & _ & _ & -> & -> & -> & _). auto.
Qed.

Lemma waiting_callbacks_keep s transport b :
  detached_world \/ no_handlers b ->
  forall ev, keeps (waiting_for s transport b) (Bot.callback ev).
Proof.
  intros Hw. apply callbacks_keep; [|apply waiting_for_stable].
  destruct Hw as [Hd | Hnone]; [left; exact Hd | right].
  intros x Hx. exact (waiting_for_none s transport b x Hnone Hx).
Qed.

(** With nothing fired, the loop sleeps until the deadline and gives
    up. *)
Lemma wait_loop_quiet client timeout script : forall b,
  quiet script ->
  Bot._session_started b = false -> Bot._auth_error b = None ->
  exists n,
    1 <= n <= S (length script)
    /\ Bot.wait_loop client timeout script b
       = (b, repeat Sleep n ++ [Disconnect],
          Raise (match Bot.on_disconnect (Bot.client_transport client) with
                 | Returns =>
                     mkExc ConnectionError
                       ("Connection timed out after "
                        +:+ py_str (PInt timeout) +:+ " seconds") None
                 | Raises e => e
                 end)).
Proof.
  assert (Hout : forall b,
             Bot.timed_out client timeout b
             = (b, [Disconnect],
                Raise (match Bot.on_disconnect (Bot.client_transport client)
                       with
                       | Returns =>
                           mkExc ConnectionError
                             ("Connection timed out after "
                              +:+ py_str (PInt timeout) +:+ " seconds") None
                       | Raises e => e
                       end))).
  { intros b. unfold Bot.timed_out, bind, emit, outcome, raise, ret.
    destruct (Bot.on_disconnect (Bot.client_transport client)); reflexivity. }
  induction script as [|tick rest IH]; intros b Hq Hs Ha;
    rewrite wait_loop_step, Hs, Ha;
    rewrite bool_decide_eq_true_2 by reflexivity; cbn [negb andb].
  - exists 1. split; [simpl; lia|]. rewrite Hout. reflexivity.
  - inversion Hq as [|? ? Hfired Hrest]; subst. rewrite Hfired.
    cbn [for_each]. unfold ret at 1. destruct (Bot.deadline_passed tick).
    + exists 1. split; [simpl; lia|]. rewrite Hout. reflexivity.
    + destruct (IH b Hrest Hs Ha) as (n & Hn & ->).
      exists (S n). split; [simpl in *; lia | reflexivity].
Qed.

(** An [initialize] that returns has built its client. *)
Lemma initialize_returned_built settings environ transport script b s :
  result (Bot.initialize settings environ transport script b) = Ok tt ->
  resolved settings environ s ->
  Bot.on_construct transport (Config.full_jid s) (Config.password s)
  = Returns.
Proof.
  intros Hr Hs.
  destruct (initialize_returned_resolved _ _ _ _ _ Hr) as [Hflag _].
  destruct (Bot.on_construct transport (Config.full_jid s)
              (Config.password s)) as [|e] eqn:Hbuilt; [reflexivity|].
  rewrite (initialize_not_built _ _ _ _ _ s e Hflag Hs Hbuilt) in Hr.
  discriminate Hr.
Qed.

(** The run of an [initialize] that returns. *)
Lemma initialize_returned_run settings environ transport script b :
  (forall s ev, keeps (waiting_for s transport b) (Bot.callback ev)) ->
  result (Bot.initialize settings environ transport script b) = Ok tt ->
  exists s waited,
    resolved settings environ s
    /\ Bot._initialized b = false
    /\ Bot.on_construct transport (Config.full_jid s) (Config.password s)
       = Returns
    /\ Bot.initialize settings environ transport script b
       = (Bot.mkBot (Some s)
            (Some (Bot.mkClient (Config.full_jid s) (Config.password s)
                                transport))
            true true true None (Bot._handlers b)
            (Bot._async_message_handlers b)
            (Bot._async_presence_handlers b),
          connect_prelude s ++ waited
          ++ [Log INFO Constants.LOG_CONNECTED;
              Log INFO Constants.LOG_AUTH_SUCCESS],
          Ok tt).
Proof.
  intros Hk Hr.
  destruct (initialize_returned_resolved _ _ _ _ _ Hr) as [Hflag [s Hs]].
  pose proof (initialize_returned_built _ _ _ _ _ s Hr Hs) as Hbuilt.
  exists s. revert Hr. rewrite (initialize_runs _ _ _ _ _ s Hflag Hs Hbuilt).
  pose proof (wait_loop_keeps_callbacks (waiting_for s transport b)
                (Bot.mkClient (Config.full_jid s) (Config.password s)
                              transport)
                (Config.connect_timeout s) script (Hk s) _
                (waiting_for_connecting s transport b)) as Hw.
  destruct (Bot.wait_loop _ _ script _) as [[b1 tw] [[]|e]] eqn:Hrun;
    [|discriminate].
  pose proof (wait_loop_returned _ _ _ _ _ _ Hrun) as Hret.
  unfold final_state in Hw. simpl in Hw.
  destruct Hw as (Hset & Hcl & Hin & Hh & Hm & Hp & [Hauth | Hauth]);
    rewrite Hauth; [|discriminate].
  cbv zeta. intros _. destruct Hret as [Hstart | Hbad]; [|congruence].
  exists tw. split; [exact Hs|]. split; [exact Hflag|].
  split; [exact Hbuilt|].
  clear Hrun. destruct b1. simpl in *. subst. reflexivity.
Qed.


End Connecting.

(** ** What a method emits *)

Section Emits.
Context {S : Type} (Q : Effect -> Prop).

Lemma emits_ret {A} (a : A) : emits_only Q (@ret S A a).
Proof. intros s. constructor. Qed.

Lemma emits_raise {A} e : emits_only Q (@raise S A e).
Proof. intros s. constructor. Qed.

Lemma emits_get : emits_only Q (@get S).
Proof. intros s. constructor. Qed.

Lemma emits_modify f : emits_only Q (@modify S f).
Proof. intros s. constructor. Qed.

Lemma emits_outcome o : emits_only Q (@outcome S o).
Proof. intros s. destruct o; constructor. Qed.

Lemma emits_emit ev : Q ev -> emits_only Q (@emit S ev).
Proof. intros Hev s. repeat constructor. exact Hev. Qed.

Lemma emits_bind {A B} (m : M S A) (k : A -> M S B) :
  emits_only Q m -> (forall a, emits_only Q (k a)) ->
  emits_only Q (bind m k).
Proof.
  intros Hm Hk s. specialize (Hm s). unfold bind, trace in *.
  destruct (m s) as [[s1 t1] [a|e]]; simpl in *; [|exact Hm].
  specialize (Hk a s1). unfold trace in Hk.
  destruct (k a s1) as [[s2 t2] r]. simpl in *.
  apply Forall_app. auto.
Qed.

Lemma emits_try {A} (body : M S A) handler :
  emits_only Q body -> (forall e, emits_only Q (handler e)) ->
  emits_only Q (try_except_Exception body handler).
Proof.
  intros Hb Hh s. specialize (Hb s). unfold try_except_Exception, trace in *.
  destruct (body s) as [[s1 t1] [a|e]]; simpl in *; [exact Hb|].
  destruct (isinstance e Exception); [|exact Hb].
  specialize (Hh e s1). unfold trace in Hh.
  destruct (handler e s1) as [[s2 t2] r]. simpl in *.
  apply Forall_app. auto.
Qed.

Lemma emits_for_each {X} (xs : list X) body :
  (forall x, emits_only Q (body x)) -> emits_only Q (@for_each S X xs body).
Proof.
  intros Hb. induction xs as [|x xs IH]; simpl;
    [apply emits_ret | apply emits_bind; auto].
Qed.

Lemma emits_live_loop `{PyRuntime} {V} n start (view : S -> LiveDict.dict V)
    body : forall k,
  (forall v, emits_only Q (body v)) ->
  emits_only Q (live_loop n start k view body).
Proof.
  induction n as [|n IH]; intros k Hb; simpl;
    (apply emits_bind; [apply emits_get|]); intros self;
    destruct (live_next start k (view self));
    try apply emits_ret; try apply emits_raise.
  apply emits_bind; auto.
Qed.

Lemma emits_for_each_live `{PyRuntime} {V} (view : S -> LiveDict.dict V)
    body :
  (forall v, emits_only Q (body v)) -> emits_only Q (for_each_live view body).
Proof.
  intros Hb. unfold for_each_live.
  apply emits_bind; [apply emits_get|]. intros self.
  apply emits_live_loop. exact Hb.
Qed.

Lemma emits_zoom {T A} (proj : S -> T) upd (m : M T A) :
  emits_only Q m -> emits_only Q (zoom proj upd m).
Proof.
  intros Hm s. specialize (Hm (proj s)). unfold zoom, trace in *.
  destruct (m (proj s)) as [[t' tr] r]. exact Hm.
Qed.

End Emits.

Ltac emits_step :=
  lazymatch goal with
  | |- emits_only _ (bind _ _) => apply emits_bind; [|intros ?]
  | |- emits_only _ (ret _) => apply emits_ret
  | |- emits_only _ (raise _) => apply emits_raise
  | |- emits_only _ (emit _) =>
      apply emits_emit; first [discriminate | reflexivity | assumption]
  | |- emits_only _ get => apply emits_get
  | |- emits_only _ (outcome _) => apply emits_outcome
  | |- emits_only _ (modify _) => apply emits_modify
  | |- emits_only _ (try_except_Exception _ _) =>
      apply emits_try; [|intros ?]
  | |- emits_only _ (suppress_Exception _) => apply emits_try; [|intros ?]
  | |- emits_only _ (for_each _ _) => apply emits_for_each; intros ?
  | |- emits_only _ (for_each_live _ _) =>
      apply emits_for_each_live; intros ?
  | |- emits_only _ (zoom _ _ _) => apply emits_zoom
  | |- emits_only _ (if ?c then _ else _) => destruct c
  | |- emits_only _ (match ?x with _ => _ end) => destruct x
  end.

Ltac emits_auto := cbv zeta; repeat emits_step.




(** ** The lifecycle of the connection *)

(** X9. When [initialize] returns, on a bot without handlers or with
    handlers that leave the bot alone, the bot is initialized and
    connected with the session started and no authentication error, holds
    the settings it was given or read from the environment and a client
    built from their full JID and password, and has the handlers it had
    before; its effects begin with the connection prelude and end with
    the two success log records. *)
Theorem initialize_returned_state `{PyRuntime} `{Bot.HandlerWorld} settings
    environ transport script b :
  detached_world \/ no_handlers b ->
  result (Bot.initialize settings environ transport script b) = Ok tt ->
  exists s,
    resolved settings environ s
    /\ Bot._initialized b = false
    /\ Bot.on_construct transport (Config.full_jid s) (Config.password s)
       = Returns
    /\ final_state (Bot.initialize settings environ transport script b)
       = Bot.mkBot (Some s)
           (Some (Bot.mkClient (Config.full_jid s) (Config.password s)
                               transport))
           true true true None (Bot._handlers b)
           (Bot._async_message_handlers b) (Bot._async_presence_handlers b)
    /\ exists waited,
         trace (Bot.initialize settings environ transport script b)
         = connect_prelude s ++ waited
           ++ [Log INFO Constants.LOG_CONNECTED;
               Log INFO Constants.LOG_AUTH_SUCCESS].
Proof.
  intros Hw Hr.
  destruct (initialize_returned_run _ _ _ _ _
              (fun s => waiting_callbacks_keep s transport b Hw) Hr)
    as (s & waited & Hs & Hflag & Hbuilt & ->).
  exists s. repeat split; [exact Hs | exact Hflag | exact Hbuilt |].
  exists waited. reflexivity.
Qed.

Lemma initialize_returned_state_witness :
  exists s,
    Bot._initialized Bot.new_bot = false
    /\ Bot.is_connected
         (final_state
            (@Bot.initialize Examples.example_runtime Examples.example_world
               (Some s) ∅ Examples.quiet_transport Examples.session_starts
               Bot.new_bot))
       = true.
Proof.
  destruct (@initialize_returned_state Examples.example_runtime
              Examples.example_world
              (Some Examples.valid_settings) ∅ Examples.quiet_transport
              Examples.session_starts Bot.new_bot)
    as (s & Hs & Hflag & _ & Hfinal & _);
    [right; repeat split | vm_compute; reflexivity|].
  exists s. split; [exact Hflag|].
  simpl in Hs. subst s. rewrite Hfinal. reflexivity.
Defined.

(** X10. Once the initialized flag is on, only [disconnect] turns it off:
    after any history of other calls and transport events, a lost
    connection included, with handlers that leave the flag on, the flag
    is still on and [initialize] raises [AlreadyInitializedError] without
    changing or emitting anything. *)
Theorem initialized_until_disconnect `{PyRuntime} `{Bot.HandlerWorld}
    history b :
  world_keeps (fun x => Bot._initialized x = true) ->
  Bot._initialized b = true ->
  Forall (fun c => c <> Bot.call_disconnect) history ->
  Bot._initialized (Bot.after history b) = true
  /\ forall settings environ transport script,
       Bot.initialize settings environ transport script
         (Bot.after history b)
       = (Bot.after history b, [],
          Raise (mkExc AlreadyInitializedError
                       Constants.ERR_ALREADY_INITIALIZED None)).
Proof.
  intros Hworld Hb Hhist.
  assert (Hon : Bot._initialized (Bot.after history b) = true).
  { revert b Hb. induction Hhist as [|c rest Hc _ IH]; intros b Hb;
      [exact Hb|].
    simpl. apply IH.
    assert (Hst : session_stable (fun x => Bot._initialized x = true))
      by (repeat split; intros v x Hx; exact Hx).
    destruct (handler_operations_keep _ Hst) as (Ham & Hrm & Hap & Hrp).
    assert (Hk : keeps (fun x => Bot._initialized x = true)
                       (Bot.run_call c)).
    { destruct c; simpl;
        try (contradiction Hc; reflexivity);
        auto using send_message_keeps, reply_to_user_keeps, send_url_keeps,
          send_message_sync_keeps, callback_keeps.
      - apply initialize_keeps; auto.
      - apply keeps_bind; [apply settings_keeps; exact Hst
                          | intros ?; apply keeps_ret].
      - apply keeps_zoom. intros ? ? Hx. exact Hx.
      - apply keeps_zoom. intros ? ? Hx. exact Hx. }
    exact (Hk b Hb). }
  split; [exact Hon|]. intros settings environ transport script.
  unfold Bot.initialize, bind, get, raise. rewrite Hon. reflexivity.
Qed.

Lemma initialized_until_disconnect_witness :
  Bot._initialized
    (@Bot.after Examples.example_runtime Examples.example_world
       [Bot.call_event Bot.disconnected;
        Bot.call_event (Bot.message Examples.hello);
        Bot.call_send_message "ping"]
       Examples.one_shot_bot)
  = true.
Proof.
  apply (@initialized_until_disconnect Examples.example_runtime
           Examples.example_world
           [Bot.call_event Bot.disconnected;
            Bot.call_event (Bot.message Examples.hello);
            Bot.call_send_message "ping"]
           Examples.one_shot_bot).
  - apply example_world_keeps. repeat split; intros v x Hx; exact Hx.
  - reflexivity.
  - repeat constructor; discriminate.
Defined.

(** X11. When the client is built and the transport fires nothing,
    [initialize] sleeps until the deadline, tells the client to disconnect
    and raises [ConnectionError] "Connection timed out after <timeout>
    seconds", or whatever the client's [disconnect] raised instead. The
    bot is left uninitialized, with the settings and the new client
    stored. When the client cannot be built, [initialize] raises what the
    constructor raised, having stored the settings only. *)
Theorem initialize_times_out `{PyRuntime} `{Bot.HandlerWorld} settings
    environ transport script b s :
  Bot._initialized b = false ->
  resolved settings environ s ->
  (Bot.on_construct transport (Config.full_jid s) (Config.password s)
   = Returns ->
   quiet script ->
   exists n,
     1 <= n <= S (length script)
     /\ Bot.initialize settings environ transport script b
        = (connecting s transport b,
           connect_prelude s ++ repeat Sleep n ++ [Disconnect],
           Raise (match Bot.on_disconnect transport with
                  | Returns => timeout_error s
                  | Raises e => e
                  end)))
  /\ (forall e,
        Bot.on_construct transport (Config.full_jid s) (Config.password s)
        = Raises e ->
        Bot.initialize settings environ transport script b
        = (Bot.set_settings (Some s) b,
           (if Config.debug s then [BasicConfig] else [])
           ++ [Log INFO (Constants.LOG_CONNECTING (Config.jid s));
               NewClient (Config.full_jid s) (Config.password s)],
           Raise e)).
Proof.
  intros Hflag Hs. split.
  - intros Hbuilt Hq.
    destruct (wait_loop_quiet
                (Bot.mkClient (Config.full_jid s) (Config.password s)
                              transport)
                (Config.connect_timeout s) script (connecting s transport b)
                Hq eq_refl eq_refl) as (n & Hn & Hrun).
    exists n. split; [exact Hn|].
    rewrite (initialize_runs _ _ _ _ _ s Hflag Hs Hbuilt), Hrun. reflexivity.
  - intros e Hbuilt. exact (initialize_not_built _ _ _ _ _ s e Hflag Hs Hbuilt).
Qed.

Lemma initialize_times_out_witness :
  exists n,
    result (@Bot.initialize Examples.example_runtime Examples.example_world
              (Some Examples.valid_settings) ∅ Examples.quiet_transport
              [Bot.mkTick [] false; Bot.mkTick [] true] Bot.new_bot)
    = Raise (mkExc ConnectionError "Connection timed out after 30 seconds"
                   None)
    /\ n <= 3.
Proof.
  destruct (@initialize_times_out Examples.example_runtime
              Examples.example_world
              (Some Examples.valid_settings) ∅ Examples.quiet_transport
              [Bot.mkTick [] false; Bot.mkTick [] true] Bot.new_bot
              Examples.valid_settings eq_refl eq_refl)
    as [Hquiet _].
  destruct (Hquiet eq_refl) as (n & Hn & Hrun); [repeat constructor|].
  exists n. split; [rewrite Hrun; reflexivity | simpl in Hn; lia].
Defined.



(** ** Disconnecting *)

(** The run of [disconnect] on an initialized bot. *)
Lemma disconnect_run b :
  Bot._initialized b = true ->
  (forall client,
      Bot._client b = Some client -> Bot._connected b = true ->
      ordinary (Bot.on_disconnect (Bot.client_transport client))) ->
  Bot.disconnect b
  = (Bot.mkBot (Bot._settings b) None false false false
               (Bot._auth_error b) Handlers.new_registry
               (LiveDict.clear (Bot._async_message_handlers b))
               (LiveDict.clear (Bot._async_presence_handlers b)),
     Log INFO Constants.LOG_DISCONNECTING
     :: match Bot._client b, Bot._connected b with
        | Some _, true => [Disconnect]
        | _, _ => []
        end
     ++ [Log INFO Constants.LOG_DISCONNECTED],
     Ok tt).
Proof.
  intros Hflag Hord. unfold Bot.disconnect, bind at 1, get at 1.
  rewrite Hflag. cbn [negb].
  destruct (Bot._client b) as [client|] eqn:Hclient;
    [destruct (Bot._connected b) eqn:Hconn|]; try reflexivity.
  specialize (Hord client eq_refl eq_refl).
  unfold suppress_Exception, try_except_Exception, bind, emit, outcome,
    ret, raise.
  destruct (Bot.on_disconnect (Bot.client_transport client)) as [|e];
    [reflexivity|].
  simpl in Hord. rewrite Hord. reflexivity.
Qed.

(** X13. On an initialized bot, [disconnect] returns even when the
    client's own [disconnect] raises within [Exception]; it tells the
    client to disconnect only if the bot was connected. Afterwards the
    flags are off, the client is gone and every handler, sync and async,
    is unregistered (the two async mappings are the ones the bot had,
    cleared), while the settings and the recorded authentication error
    stay; a second [disconnect] does nothing and an incoming message or
    presence reaches no handler, whatever the handlers were. *)
Theorem disconnect_releases `{PyRuntime} `{Bot.HandlerWorld} b :
  Bot._initialized b = true ->
  (forall client,
      Bot._client b = Some client -> Bot._connected b = true ->
      ordinary (Bot.on_disconnect (Bot.client_transport client))) ->
  let run := Bot.disconnect b in
  result run = Ok tt
  /\ final_state run
     = Bot.mkBot (Bot._settings b) None false false false
                 (Bot._auth_error b) Handlers.new_registry
                 (LiveDict.clear (Bot._async_message_handlers b))
                 (LiveDict.clear (Bot._async_presence_handlers b))
  /\ no_handlers (final_state run)
  /\ trace run
     = Log INFO Constants.LOG_DISCONNECTING
       :: match Bot._client b, Bot._connected b with
          | Some _, true => [Disconnect]
          | _, _ => []
          end
       ++ [Log INFO Constants.LOG_DISCONNECTED]
  /\ Bot.disconnect (final_state run) = (final_state run, [], Ok tt)
  /\ (forall msg,
        invocations (trace (Bot._on_message msg (final_state run))) = [])
  /\ (forall p,
        presence_invocations (trace (Bot._on_presence p (final_state run)))
        = []).
Proof.
  intros Hflag Hord run. subst run. rewrite (disconnect_run b Hflag Hord).
  unfold result, final_state, trace. cbn [fst snd].
  assert (Hnone : no_handlers
                    (Bot.mkBot (Bot._settings b) None false false false
                       (Bot._auth_error b) Handlers.new_registry
                       (LiveDict.clear (Bot._async_message_handlers b))
                       (LiveDict.clear (Bot._async_presence_handlers b))))
    by (repeat split).
  split; [reflexivity|]. split; [reflexivity|]. split; [exact Hnone|].
  split; [reflexivity|]. split; [reflexivity|]. split.
  - intros msg. apply (on_message_handlerless msg _ Hnone).
  - intros p. apply (on_presence_handlerless p _ Hnone).
Qed.

Lemma disconnect_releases_witness :
  Handlers.get_message_handlers
    (Bot._handlers (final_state (Bot.disconnect Examples.dispatch_bot)))
  = []
  /\ Bot._settings (final_state (Bot.disconnect Examples.dispatch_bot))
     = Some Examples.valid_settings.
Proof.
  destruct (@disconnect_releases Examples.example_runtime
              Examples.example_world Examples.dispatch_bot eq_refl)
    as (_ & Hfinal & _).
  - intros client [= <-] _. exact I.
  - rewrite Hfinal. split; reflexivity.
Defined.

(** X14. A lost connection leaves the bot initialized, with its client,
    settings and handlers, and only turns the connected and session flags
    off. From then on [send_message] raises [SendError] without handing
    anything to the client, whereas the legacy [send_message_sync] still
    hands the message to the client. *)
Theorem connection_loss_blocks_sending `{PyRuntime} `{Bot.HandlerWorld} b s
    client message :
  Bot._initialized b = true ->
  Bot._settings b = Some s ->
  Bot._client b = Some client ->
  let lost := final_state (Bot.callback Bot.disconnected b) in
  lost = Bot.set_session_started false (Bot.set_connected false b)
  /\ Bot.is_initialized lost = true
  /\ Bot.is_connected lost = false
  /\ Bot.send_message message lost
     = (lost, [],
        Raise (mkExc SendError
                     (Constants.ERR_SEND_FAILED (Config.default_receiver s))
                     None))
  /\ trace (Bot.send_message_sync message lost)
     = [SendMessage (Config.default_receiver s) message "chat"].
Proof.
  intros Hflag Hs Hclient lost.
  assert (Hlost : lost
                  = Bot.set_session_started false (Bot.set_connected false b))
    by reflexivity.
  rewrite Hlost. repeat split.
  - exact Hflag.
  - unfold Bot.send_message, Bot.reply_to_user, bind, get, raise. simpl.
    rewrite Hflag, Hs. simpl. rewrite Hflag. reflexivity.
  - unfold Bot.send_message_sync, bind, get, emit, outcome. simpl.
    rewrite Hflag, Hs, Hclient. simpl.
    destruct (Bot.on_send_message _ _ _ _); reflexivity.
Qed.

Lemma connection_loss_blocks_sending_witness :
  trace (Bot.send_message_sync "ping"
           (final_state (@Bot.callback Examples.example_runtime
                           Examples.example_world Bot.disconnected
                           Examples.dispatch_bot)))
  = [SendMessage "user@example.com" "ping" "chat"].
Proof.
  exact (proj2 (proj2 (proj2 (proj2
           (@connection_loss_blocks_sending Examples.example_runtime
              Examples.example_world Examples.dispatch_bot
              Examples.valid_settings
              (Bot.mkClient "bot@example.com/test-bot" "secret123"
                            Examples.quiet_transport)
              "ping" eq_refl eq_refl eq_refl))))).
Defined.

(** ** Sending *)



(** X16. On an initialized bot reached by any history of calls and
    events, with handlers that neither set the initialized flag nor drop
    the settings, the settings are present, so the assertions of
    [send_message] and [send_url] hold: [send_message] is [reply_to_user]
    to the default receiver, and [send_url] is [reply_to_user], to the
    default receiver, of the base URL and the path joined by one slash. *)
Theorem sends_go_to_default_receiver `{PyRuntime} `{Bot.HandlerWorld} b :
  world_keeps uninitialized ->
  world_keeps has_settings ->
  Bot.reachable b ->
  Bot._initialized b = true ->
  exists s,
    Bot._settings b = Some s
    /\ forall message path,
         Bot.send_message message b
         = Bot.reply_to_user message (Config.default_receiver s) b
         /\ Bot.send_url path b
            = Bot.reply_to_user (joined_url (Config.base_url s) path)
                                (Config.default_receiver s) b.
Proof.
  intros Hflagged Hkept Hreach Hflag.
  pose proof (initialized_has_settings b Hflagged Hkept Hreach Hflag)
    as Hset.
  unfold has_settings in Hset.
  destruct (Bot._settings b) as [s|] eqn:Hs; [|contradiction].
  exists s. split; [reflexivity|]. intros message path.
  assert (Hsend : forall m,
             Bot.send_message m b
             = Bot.reply_to_user m (Config.default_receiver s) b).
  { intros m. unfold Bot.send_message, bind at 1, get at 1.
    rewrite Hflag, Hs. cbn [negb].
    destruct (Bot.reply_to_user m (Config.default_receiver s) b)
      as [[b1 t1] r]. reflexivity. }
  split; [apply Hsend|].
  unfold Bot.send_url, bind at 1, get at 1. rewrite Hflag, Hs. cbn [negb].
  cbv zeta. fold (joined_url (Config.base_url s) path). rewrite Hsend.
  destruct (Bot.reply_to_user _ (Config.default_receiver s) b)
    as [[b1 t1] r]. reflexivity.
Qed.

Lemma sends_go_to_default_receiver_witness :
  let b := @Bot.after Examples.example_runtime Examples.example_world
             [Bot.call_initialize (Some Examples.valid_settings) ∅
                Examples.quiet_transport Examples.session_starts]
             Bot.new_bot in
  sends (trace (Bot.send_url "/status" b))
  = [SendMessage "user@example.com" "https://example.com/status" "chat"].
Proof.
  intros b.
  destruct (@sends_go_to_default_receiver Examples.example_runtime
              Examples.example_world b)
    as (s & Hs & Hsend).
  - apply example_world_keeps, uninitialized_stable.
  - apply example_world_keeps, has_settings_stable.
  - eexists. reflexivity.
  - vm_compute. reflexivity.
  - rewrite (proj2 (Hsend "" "/status")).
    assert (Heq : Some s = Some Examples.valid_settings)
      by (rewrite <- Hs; vm_compute; reflexivity).
    injection Heq as ->. vm_compute. reflexivity.
Defined.

(** ** The URL of [send_url] *)

Lemma string_app_cons c s t : String c s +:+ t = String c (s +:+ t).
Proof. reflexivity. Qed.

Lemma rstrip_by_dropped p s c :
  p c = true ->
  PyStr.rstrip_by p (s +:+ String c "") = PyStr.rstrip_by p s.
Proof.
  intros Hc. induction s as [|a s IH].
  - change ("" +:+ String c "") with (String c ""). simpl. rewrite Hc.
    reflexivity.
  - rewrite string_app_cons. simpl. rewrite IH. reflexivity.
Qed.

Lemma rstrip_by_kept p s :
  (forall x c, p c = true -> s <> x +:+ String c "") ->
  PyStr.rstrip_by p s = s.
Proof.
  induction s as [|a s IH]; intros Hend; [reflexivity|].
  simpl. rewrite IH.
  - destruct s as [|a' s']; [|reflexivity].
    destruct (p a) eqn:Ha; [|reflexivity].
    contradiction (Hend "" a Ha). reflexivity.
  - intros x c Hc ->. apply (Hend (String a x) c Hc). reflexivity.
Qed.

Lemma lstrip_by_kept p s :
  (forall x c, p c = true -> s <> String c x) ->
  PyStr.lstrip_by p s = s.
Proof.
  intros Hstart. destruct s as [|a s]; [reflexivity|].
  simpl. destruct (p a) eqn:Ha; [|reflexivity].
  contradiction (Hstart s a Ha). reflexivity.
Qed.

Lemma slash_only c : Ascii.eqb "/" c = true -> c = "/"%char.
Proof. intros Hc. apply Ascii.eqb_eq in Hc. congruence. Qed.

(** X17. The URL that [send_url] builds has one slash between base and
    path: a trailing slash of the base and a leading slash of the path
    change nothing, and when the base has no trailing and the path no
    leading slash the URL is base, "/", path. With the empty base URL of
    the defaults the URL is the path behind a single slash. *)
Theorem joined_url_one_slash base path :
  joined_url (base +:+ "/") path = joined_url base path
  /\ joined_url base ("/" +:+ path) = joined_url base path
  /\ ((forall x, base <> x +:+ "/") -> (forall x, path <> "/" +:+ x) ->
      joined_url base path = base +:+ "/" +:+ path)
  /\ joined_url "" path = "/" +:+ PyStr.lstrip_char "/" path.
Proof.
  unfold joined_url, PyStr.rstrip_char, PyStr.lstrip_char.
  repeat split.
  - rewrite rstrip_by_dropped by reflexivity. reflexivity.
  - intros Hbase Hpath. rewrite rstrip_by_kept, lstrip_by_kept;
      [reflexivity | |].
    + intros x c Hc ->. apply slash_only in Hc. subst c.
      exact (Hpath x eq_refl).
    + intros x c Hc ->. apply slash_only in Hc. subst c.
      exact (Hbase x eq_refl).
Qed.

Lemma joined_url_one_slash_witness :
  joined_url "https://example.com" "status" = "https://example.com/status"
  /\ joined_url "https://example.com//" "//status"
     = "https://example.com/status".
Proof.
  split.
  - apply (joined_url_one_slash "https://example.com" "status").
    + intros x Hx.
      apply (f_equal (fun s => last (list_ascii_of_string s))) in Hx.
      rewrite list_of_app in Hx. simpl in Hx. rewrite last_snoc in Hx.
      discriminate Hx.
    + intros x [=].
  - vm_compute. reflexivity.
Defined.

(** ** Presence dispatch *)

Section PresenceDispatch.
Context `{PyRuntime} `{Bot.HandlerWorld}.
Variables (sender ptype status : string) (p : Presence).

Lemma call_sync_presence_contained b h :
  let run := Bot.run_presence_handler h sender ptype status p b in
  self_contained b run -> within_Exception run ->
  exists tr,
    Bot.call_sync_presence sender ptype status p h b = (b, tr, Ok tt)
    /\ presence_invocations tr = [SyncPresenceCall h sender ptype status p]
    /\ sends tr = sends (trace run).
Proof.
  cbv zeta.
  unfold Bot.call_sync_presence, try_except_Exception, bind, emit,
    self_contained, within_Exception, final_state, trace, result.
  destruct (Bot.run_presence_handler h sender ptype status p b)
    as [[b1 t1] r].
  cbn [fst snd]. intros (-> & _ & Hinv) Hr.
  destruct r as [[]|e].
  - eexists. split; [reflexivity|]. split; [|reflexivity].
    change (CallPresence h sender ptype status p :: t1)
      with ([CallPresence h sender ptype status p] ++ t1).
    rewrite presence_invocations_app, Hinv. reflexivity.
  - rewrite Hr. eexists. split; [reflexivity|]. split.
    + change (?x :: ?l ++ ?m) with ([x] ++ l ++ m).
      rewrite !presence_invocations_app, Hinv. reflexivity.
    + change (?x :: ?l ++ ?m) with ([x] ++ l ++ m).
      rewrite !sends_app. cbn. rewrite app_nil_r. reflexivity.
Qed.

Lemma await_async_presence_contained b h :
  let run := Bot.run_presence_handler h sender ptype status p b in
  self_contained b run -> within_Exception run ->
  exists tr,
    Bot.await_async_presence sender ptype status p h b = (b, tr, Ok tt)
    /\ presence_invocations tr = [AsyncPresenceCall h sender ptype status p]
    /\ sends tr = sends (trace run).
Proof.
  cbv zeta.
  unfold Bot.await_async_presence, try_except_Exception, bind, emit,
    self_contained, within_Exception, final_state, trace, result.
  destruct (Bot.run_presence_handler h sender ptype status p b)
    as [[b1 t1] r].
  cbn [fst snd]. intros (-> & _ & Hinv) Hr.
  destruct r as [[]|e].
  - eexists. split; [reflexivity|]. split; [|reflexivity].
    change (AwaitPresence h sender ptype status p :: t1)
      with ([AwaitPresence h sender ptype status p] ++ t1).
    rewrite presence_invocations_app, Hinv. reflexivity.
  - rewrite Hr. eexists. split; [reflexivity|]. split.
    + change (?x :: ?l ++ ?m) with ([x] ++ l ++ m).
      rewrite !presence_invocations_app, Hinv. reflexivity.
    + change (?x :: ?l ++ ?m) with ([x] ++ l ++ m).
      rewrite !sends_app. cbn. rewrite app_nil_r. reflexivity.
Qed.

Lemma presence_for_each_contained
    (call : PresenceHandler -> M Bot.XmppBot unit)
    (owed : PresenceHandler -> PresenceInvocation) b hs :
  (forall h,
     let run := Bot.run_presence_handler h sender ptype status p b in
     self_contained b run -> within_Exception run ->
     exists tr,
       call h b = (b, tr, Ok tt)
       /\ presence_invocations tr = [owed h]
       /\ sends tr = sends (trace run)) ->
  Forall (fun h =>
            let run := Bot.run_presence_handler h sender ptype status p b in
            self_contained b run /\ within_Exception run) hs ->
  exists tr,
    for_each hs call b = (b, tr, Ok tt)
    /\ presence_invocations tr = map owed hs
    /\ sends tr
       = concat (map (fun h =>
                        sends (trace (Bot.run_presence_handler h sender
                                        ptype status p b))) hs).
Proof.
  intros Hcall. induction 1 as [|h hs [Hself Hin] _ IH]; simpl.
  - exists []. repeat split.
  - destruct (Hcall h Hself Hin) as (t1 & E1 & I1 & S1).
    destruct IH as (t2 & E2 & I2 & S2).
    exists (t1 ++ t2). unfold bind. rewrite E1, E2.
    rewrite presence_invocations_app, sends_app, I1, I2, S1, S2.
    repeat split.
Qed.
End PresenceDispatch.

(** X18. A presence update reaches every registered presence handler,
    sync first and then async, each once and in registration order, with
    the sender, type and status of the stanza, whoever sent it: the
    allow-list is not consulted, and a handler that raises within
    [Exception] does not keep the later ones from running; this for
    handlers that keep to themselves. The callback then returns, leaves
    the bot unchanged and sends nothing but what the handlers sent. The
    async loop runs over the live view of the mapping: on
    [one_shot_presence_bot], whose first async handler unregisters itself,
    the callback raises [RuntimeError] and the handler after it is not
    invoked. A subscription request is approved for every sender once a
    client exists. *)
Theorem presence_dispatch_unfiltered `{PyRuntime} `{Bot.HandlerWorld} b p :
  let run := Bot._on_presence p b in
  let sender := jid_str (presence_from p) in
  (presence_handlers_ordinary b p ->
   result run = Ok tt
   /\ final_state run = b
   /\ presence_invocations (trace run) = owed_presence_invocations b p
   /\ sends (trace run)
      = concat (map (fun h =>
                       sends (trace (Bot.run_presence_handler h sender
                                       (presence_type p) (presence_status p)
                                       p b)))
                    (Handlers.get_presence_handlers (Bot._handlers b)
                     ++ LiveDict.values (Bot._async_presence_handlers b))))
  /\ (forall R : PyRuntime,
        let failing :=
          @Bot._on_presence R Examples.example_world stranger_presence
            one_shot_presence_bot in
        result failing
        = Raise (mkExc RuntimeError
                   "dictionary changed size during iteration" None)
        /\ presence_invocations (trace failing)
           = [SyncPresenceCall Examples.failing_presence_handler
                "stranger@example.com/phone" "available" "online"
                stranger_presence;
              SyncPresenceCall Examples.returns_presence_handler
                "stranger@example.com/phone" "available" "online"
                stranger_presence;
              AsyncPresenceCall Examples.one_shot_presence_handler
                "stranger@example.com/phone" "available" "online"
                stranger_presence]
        /\ LiveDict.get "later"
             (Bot._async_presence_handlers one_shot_presence_bot)
           = Some Examples.returns_presence_handler)
  /\ (forall client,
        Bot._client b = Some client ->
        Bot._on_presence_subscribe p b
        = (b,
           [SendPresence (Some sender) (Some "subscribed");
            Log INFO (Constants.LOG_SUBSCRIPTION_APPROVED sender)],
           Ok tt)).
Proof.
  intros run sender. subst run sender. split; [|split].
  - intros Hord.
    unfold presence_handlers_ordinary in Hord.
    apply Forall_app in Hord as [Hsync Hasync].
    destruct (presence_for_each_contained _ _ _ p
                (Bot.call_sync_presence (jid_str (presence_from p))
                   (presence_type p) (presence_status p) p)
                (fun h => SyncPresenceCall h (jid_str (presence_from p))
                            (presence_type p) (presence_status p) p)
                b _ (fun h => call_sync_presence_contained _ _ _ p b h)
                Hsync)
      as (t1 & E1 & I1 & S1).
    destruct (presence_for_each_contained _ _ _ p
                (Bot.await_async_presence (jid_str (presence_from p))
                   (presence_type p) (presence_status p) p)
                (fun h => AsyncPresenceCall h (jid_str (presence_from p))
                            (presence_type p) (presence_status p) p)
                b _ (fun h => await_async_presence_contained _ _ _ p b h)
                Hasync)
      as (t2 & E2 & I2 & S2).
    assert (Hlive : for_each_live Bot._async_presence_handlers
                      (Bot.await_async_presence (jid_str (presence_from p))
                         (presence_type p) (presence_status p) p) b
                    = (b, t2, Ok tt)).
    { rewrite for_each_live_unchanged; [exact E2|].
      intros v Hv. rewrite Forall_forall in Hasync.
      destruct (Hasync v Hv) as [Hself Hin].
      destruct (await_async_presence_contained _ _ _ p b v Hself Hin)
        as (tr & E & _). eauto. }
    assert (Hrun : Bot._on_presence p b
                   = (b,
                      Log DEBUG (Constants.LOG_PRESENCE_RECEIVED
                                   (jid_str (presence_from p))
                                   (presence_status p))
                      :: t1 ++ t2, Ok tt)).
    { unfold Bot._on_presence. cbv zeta. unfold bind, get, emit.
      rewrite E1. cbv beta iota zeta. rewrite Hlive. reflexivity. }
    rewrite Hrun. unfold result, final_state, trace. cbn [fst snd].
    split; [reflexivity|]. split; [reflexivity|]. split.
    + change (presence_invocations (?x :: ?l))
        with (presence_invocations ([x] ++ l)).
      rewrite !presence_invocations_app, I1, I2. reflexivity.
    + change (sends (?x :: ?l)) with (sends ([x] ++ l)).
      rewrite !sends_app, S1, S2, map_app, concat_app. reflexivity.
  - intros R. repeat split; vm_compute; reflexivity.
  - intros client Hclient.
    unfold Bot._on_presence_subscribe, bind, get, emit.
    rewrite Hclient. reflexivity.
Qed.

Lemma presence_dispatch_unfiltered_witness :
  Config.is_jid_allowed Examples.valid_settings
    (jid_bare (presence_from stranger_presence)) = false
  /\ presence_invocations
       (trace (@Bot._on_presence Examples.example_runtime
                 Examples.example_world stranger_presence presence_bot))
     = [SyncPresenceCall Examples.failing_presence_handler
          "stranger@example.com/phone" "available" "online"
          stranger_presence;
        SyncPresenceCall Examples.returns_presence_handler
          "stranger@example.com/phone" "available" "online"
          stranger_presence;
        AsyncPresenceCall Examples.returns_presence_handler
          "stranger@example.com/phone" "available" "online"
          stranger_presence].
Proof.
  split; [vm_compute; reflexivity|].
  destruct (@presence_dispatch_unfiltered Examples.example_runtime
              Examples.example_world presence_bot stranger_presence)
    as (Hordinary & _).
  destruct Hordinary as (_ & _ & Hinv & _).
  - unfold presence_handlers_ordinary.
    match goal with
    | |- Forall _ ?l => let l' := eval vm_compute in l in change l with l'
    end.
    repeat (apply Forall_cons_2; [split; [repeat split|vm_compute; auto]|]).
    apply Forall_nil_2.
  - exact Hinv.
Defined.

(** ** The singleton *)

Lemma get_instance_run cls :
  Bot.get_instance cls
  = (Some (default Bot.new_bot cls), [], Ok (default Bot.new_bot cls)).
Proof. destruct cls; reflexivity. Qed.

(** A method called through [get_instance] runs on the one instance and
    leaves its changes there. *)
Lemma on_instance_run {A} (method : M Bot.XmppBot A) cls :
  Bot.on_instance method cls
  = (Some (final_state (method (default Bot.new_bot cls))),
     trace (method (default Bot.new_bot cls)),
     result (method (default Bot.new_bot cls))).
Proof.
  unfold Bot.on_instance, bind, zoom. rewrite get_instance_run.
  unfold final_state, trace, result.
  destruct (method (default Bot.new_bot cls)) as [[b1 t1] r]. reflexivity.
Qed.

(** X19. [get_instance] creates the bot on the first call and returns
    the same object afterwards, so what a method did to it is seen through
    every later [get_instance]. [reset_instance] drops the instance
    whenever it returns, and the next [get_instance] then gives a fresh
    bot without settings; it returns unless the client's [disconnect]
    raises outside [Exception], in which case the instance is kept as it
    was. *)
Theorem singleton_lifecycle {A} (method : M Bot.XmppBot A) cls :
  let instance := default Bot.new_bot cls in
  let used := final_state (Bot.on_instance method cls) in
  Bot.get_instance cls = (Some instance, [], Ok instance)
  /\ used = Some (final_state (method instance))
  /\ Bot.get_instance used
     = (used, [], Ok (final_state (method instance)))
  /\ (result (Bot.reset_instance cls) = Ok tt ->
      final_state (Bot.reset_instance cls) = None
      /\ result (Bot.get_instance (final_state (Bot.reset_instance cls)))
         = Ok Bot.new_bot)
  /\ (forall e,
        result (Bot.reset_instance cls) = Raise e ->
        isinstance e Exception = false
        /\ final_state (Bot.reset_instance cls) = cls)
  /\ ((forall b client,
         cls = Some b -> Bot._client b = Some client ->
         ordinary (Bot.on_disconnect (Bot.client_transport client))) ->
      result (Bot.reset_instance cls) = Ok tt).
Proof.
  intros instance used. subst instance used.
  rewrite on_instance_run. unfold final_state at 1 2 3. cbn [fst snd].
  split; [apply get_instance_run|]. split; [reflexivity|].
  split; [reflexivity|].
  destruct cls as [b|]; [|repeat split; intros; first [reflexivity | discriminate]].
  unfold Bot.reset_instance, suppress_Exception, try_except_Exception,
    zoom, bind, get, modify, ret.
  unfold Bot.disconnect, suppress_Exception, try_except_Exception, zoom,
    bind, get, modify, ret, emit, outcome, raise.
  destruct (Bot._initialized b); cbn [negb];
    [|repeat split; intros; first [reflexivity | discriminate]].
  destruct (Bot._client b) as [client|] eqn:Hclient;
    [|repeat split; intros; first [reflexivity | discriminate]].
  destruct (Bot._connected b);
    [|repeat split; intros; first [reflexivity | discriminate]].
  destruct (Bot.on_disconnect (Bot.client_transport client)) as [|e] eqn:Hd;
    [repeat split; intros; first [reflexivity | discriminate]|].
  destruct (isinstance e Exception) eqn:Hin;
    [repeat split; intros; first [reflexivity | discriminate]|].
  unfold result, final_state. simpl. rewrite Hin. simpl.
  split; [discriminate|]. split.
  - intros e' [= <-]. auto.
  - intros Hord. specialize (Hord b client eq_refl Hclient).
    rewrite Hd in Hord. simpl in Hord. congruence.
Qed.

Lemma singleton_lifecycle_witness :
  result (Bot.reset_instance (Some Examples.dispatch_bot)) = Ok tt
  /\ Bot.get_instance (final_state (Bot.reset_instance
                                      (Some Examples.dispatch_bot)))
     = (Some Bot.new_bot, [], Ok Bot.new_bot).
Proof.
  destruct (singleton_lifecycle (ret tt) (Some Examples.dispatch_bot))
    as (_ & _ & _ & Hreset & _ & Hreturns).
  assert (Hr : result (Bot.reset_instance (Some Examples.dispatch_bot))
               = Ok tt).
  { apply Hreturns. intros b client [= <-] [= <-]. exact I. }
  split; [exact Hr|].
  destruct (Hreset Hr) as [-> _]. reflexivity.
Defined.

(** ** The test-message tool *)

Lemma ValueError_uncaught e :
  exc_class e = ValueError -> Tool.report (Raise e) = Tool.Uncaught e.
Proof. destruct e as [c m k]. simpl. intros ->. reflexivity. Qed.

Section ToolRuns.
Context `{PyRuntime} `{Bot.HandlerWorld}.

Lemma main_run environ transport script asleep :
  Tool.main environ transport script asleep None
  = (Some (final_state
             ((Bot.initialize None environ transport script ;;
               Bot.send_message "Test message from XMPP Bot" ;;
               emit Sleep ;;
               for_each asleep Bot.deliver ;;
               Bot.disconnect)%method Bot.new_bot)),
     trace ((Bot.initialize None environ transport script ;;
             Bot.send_message "Test message from XMPP Bot" ;;
             emit Sleep ;;
             for_each asleep Bot.deliver ;;
             Bot.disconnect)%method Bot.new_bot),
     result ((Bot.initialize None environ transport script ;;
              Bot.send_message "Test message from XMPP Bot" ;;
              emit Sleep ;;
              for_each asleep Bot.deliver ;;
              Bot.disconnect)%method Bot.new_bot)).
Proof. unfold Tool.main. rewrite on_instance_run. reflexivity. Qed.

(** When [initialize] raises, so does [main], with the same effects. *)
Lemma main_initialize_raises environ transport script asleep b1 t1 e :
  Bot.initialize None environ transport script Bot.new_bot
  = (b1, t1, Raise e) ->
  Tool.main environ transport script asleep None = (Some b1, t1, Raise e).
Proof.
  intros Hinit. rewrite main_run. unfold bind at 1 5 9. rewrite Hinit.
  reflexivity.
Qed.

(** The run of [main] when the connection succeeds and the client takes
    the message. *)
Lemma main_returns environ transport script asleep :
  result (Bot.initialize None environ transport script Bot.new_bot)
  = Ok tt ->
  Forall roster_ordinary asleep ->
  (forall jid,
      Bot.on_send_message transport jid "Test message from XMPP Bot" "chat"
      = Returns) ->
  ordinary (Bot.on_disconnect transport) ->
  exists s b' before after_,
    Config.from_env environ = Ok s
    /\ Bot._settings b' = Some s
    /\ Bot._initialized b' = false
    /\ Bot._client b' = None
    /\ Tool.main environ transport script asleep None
       = (Some b',
          before
          ++ SendMessage (Config.default_receiver s)
               "Test message from XMPP Bot" "chat" :: after_,
          Ok tt).
Proof.
  intros Hinit Hasleep Hsend Hdisc.
  assert (Hfresh : no_handlers Bot.new_bot) by (repeat split).
  destruct (initialize_returned_run _ _ _ _ _
              (fun s => waiting_callbacks_keep s transport Bot.new_bot
                          (or_intror Hfresh)) Hinit)
    as (s & waited & Hs & _ & _ & Hrun).
  simpl in Hs.
  match type of Hrun with
  | _ = (?b, ?t, _) => set (b1 := b) in *; set (t1 := t) in *
  end.
  assert (Hmsg : Bot.send_message "Test message from XMPP Bot" b1
                 = (b1,
                    [Log DEBUG (Constants.LOG_SENDING_MESSAGE
                                  (Config.default_receiver s));
                     SendMessage (Config.default_receiver s)
                       "Test message from XMPP Bot" "chat";
                     Log DEBUG (Constants.LOG_MESSAGE_SENT
                                  (Config.default_receiver s))],
                    Ok tt)).
  { unfold Bot.send_message, Bot.reply_to_user, try_except_Exception, bind,
      get, emit, outcome, b1.
    cbn [Bot._initialized Bot._settings Bot._connected Bot._client negb
         Bot.client_transport].
    rewrite Hsend. reflexivity. }
  set (held := fun x : Bot.XmppBot =>
                 Bot._initialized x = true
                 /\ Bot._settings x = Some s
                 /\ Bot._client x
                    = Some (Bot.mkClient (Config.full_jid s)
                              (Config.password s) transport)
                 /\ no_handlers x).
  assert (Hst : event_stable held)
    by (unfold held, no_handlers; repeat split; intros; simpl in *;
        intuition auto).
  assert (Hb1 : held b1) by (unfold held, b1; repeat split).
  destruct (deliver_all_returns held asleep
              (fun ev => callback_keeps_handlerless held ev Hst
                           (fun x Hx => proj2 (proj2 (proj2 Hx))))
              (fun ev x Hev Hx =>
                 callback_contained_handlerless ev x
                   (proj2 (proj2 (proj2 Hx)))
                   (proj1 (Forall_forall _ _) Hasleep ev Hev))
              b1 Hb1) as [Hret Hb2].
  unfold final_state, result in Hb2, Hret.
  destruct (for_each asleep Bot.deliver b1) as [[b2 t2] r2] eqn:Hev.
  simpl in Hb2, Hret. subst r2.
  destruct Hb2 as (Hflag & Hset & Hclient & _).
  assert (Hdis : exists td,
             Bot.disconnect b2
             = (Bot.mkBot (Bot._settings b2) None false false false
                  (Bot._auth_error b2) Handlers.new_registry
                  (LiveDict.clear (Bot._async_message_handlers b2))
                  (LiveDict.clear (Bot._async_presence_handlers b2)),
                td, Ok tt)).
  { eexists. apply disconnect_run; [exact Hflag|].
    intros client Hc _. rewrite Hclient in Hc. injection Hc as <-.
    exact Hdisc. }
  destruct Hdis as [td Hdis].
  exists s, (Bot.mkBot (Bot._settings b2) None false false false
               (Bot._auth_error b2) Handlers.new_registry
               (LiveDict.clear (Bot._async_message_handlers b2))
               (LiveDict.clear (Bot._async_presence_handlers b2))),
    (t1 ++ [Log DEBUG (Constants.LOG_SENDING_MESSAGE
                         (Config.default_receiver s))]),
    (Log DEBUG (Constants.LOG_MESSAGE_SENT (Config.default_receiver s))
     :: Sleep :: t2 ++ td).
  split; [exact Hs|]. split; [exact Hset|]. split; [reflexivity|].
  split; [reflexivity|].
  rewrite main_run. unfold bind, emit.
  rewrite Hrun, Hmsg, Hev, Hdis.
  unfold final_state, trace, result. cbn [fst snd].
  rewrite <- !app_assoc. reflexivity.
Qed.

End ToolRuns.

(** X20. How the test-message tool ends; its bot has no handlers, so what
    the handlers are does not matter. Settings the environment does not
    supply, or supplies ill-formed, make [initialize] raise [ValueError],
    which none of the three [except] clauses takes: the script ends with
    that exception, having printed and sent nothing. A client that cannot
    be built ends the script with what its constructor raised, as the
    [except] clauses take it. With the client built, a connection that
    times out is reported as a connection failure with the timeout
    message. When [initialize] returns, the client accepts the message and
    no roster request fired during the closing sleep raises outside
    [Exception], the script reports success, has handed the fixed text
    for the default receiver to the client, and leaves the bot
    disconnected. *)
Theorem tool_exits `{PyRuntime} `{Bot.HandlerWorld} environ transport script
    asleep :
  let exit := Tool.script_exit environ transport script asleep in
  let ran := Tool.main environ transport script asleep None in
  (forall e,
      Config.from_env environ = Raise e ->
      exit = Tool.Uncaught e /\ exc_class e = ValueError
      /\ ran = (Some Bot.new_bot, [], Raise e))
  /\ (forall s e,
        Config.from_env environ = Ok s ->
        Bot.on_construct transport (Config.full_jid s) (Config.password s)
        = Raises e ->
        exit = Tool.report (Raise e) /\ result ran = Raise e
        /\ sends (trace ran) = [])
  /\ (forall s,
        Config.from_env environ = Ok s ->
        Bot.on_construct transport (Config.full_jid s) (Config.password s)
        = Returns ->
        quiet script ->
        Bot.on_disconnect transport = Returns ->
        exit
        = Tool.Printed
            ["Connection failed: " +:+ exc_msg (timeout_error s);
             "Please check your XMPP server address and ensure it is "
             +:+ "reachable."])
  /\ (result (Bot.initialize None environ transport script Bot.new_bot)
      = Ok tt ->
      Forall roster_ordinary asleep ->
      (forall jid,
          Bot.on_send_message transport jid "Test message from XMPP Bot"
            "chat" = Returns) ->
      ordinary (Bot.on_disconnect transport) ->
      exit = Tool.Printed ["Test message sent successfully!"]
      /\ exists s b',
           Config.from_env environ = Ok s
           /\ final_state ran = Some b'
           /\ Bot._settings b' = Some s
           /\ Bot.is_initialized b' = false
           /\ SendMessage (Config.default_receiver s)
                "Test message from XMPP Bot" "chat" ∈ trace ran).
Proof.
  intros exit ran. subst exit ran. unfold Tool.script_exit.
  split; [|split; [|split]].
  - intros e He.
    pose proof (from_env_spec environ) as Hspec. rewrite He in Hspec.
    assert (Hinit : Bot.initialize None environ transport script Bot.new_bot
                    = (Bot.new_bot, [], Raise e)).
    { unfold Bot.initialize, bind, get, Bot.of_result, raise.
      cbn [Bot._initialized Bot.new_bot]. rewrite He. reflexivity. }
    rewrite (main_initialize_raises _ _ _ _ _ _ _ Hinit).
    unfold result. cbn [snd].
    split; [apply ValueError_uncaught; exact Hspec|]. auto.
  - intros s e Hs Hbuilt.
    pose proof (initialize_not_built None environ transport script
                  Bot.new_bot s e eq_refl Hs Hbuilt) as Hinit.
    rewrite (main_initialize_raises _ _ _ _ _ _ _ Hinit).
    unfold result, trace. cbn [fst snd].
    split; [reflexivity|]. split; [reflexivity|].
    destruct (Config.debug s); reflexivity.
  - intros s Hs Hbuilt Hq Hd.
    destruct (wait_loop_quiet
                (Bot.mkClient (Config.full_jid s) (Config.password s)
                              transport)
                (Config.connect_timeout s) script
                (connecting s transport Bot.new_bot) Hq eq_refl eq_refl)
      as (n & _ & Hrun).
    pose proof (initialize_runs None environ transport script Bot.new_bot s
                  eq_refl Hs Hbuilt) as Hinit.
    rewrite Hrun in Hinit. cbn [Bot.client_transport] in Hinit.
    rewrite Hd in Hinit.
    rewrite (main_initialize_raises _ _ _ _ _ _ _ Hinit). reflexivity.
  - intros Hinit Hasleep Hsend Hdisc.
    destruct (main_returns environ transport script asleep Hinit Hasleep
                Hsend Hdisc)
      as (s & b' & before & after_ & Hs & Hset & Hflag & _ & ->).
    split; [reflexivity|]. exists s, b'.
    unfold final_state, trace. cbn [fst snd].
    repeat split; try assumption.
    apply elem_of_app. right. constructor.
Qed.

Lemma tool_exits_witness :
  let script_exit :=
    @Tool.script_exit Examples.example_runtime Examples.example_world in
  script_exit ∅ Examples.quiet_transport Examples.session_starts []
  = Tool.Uncaught (mkExc ValueError "JID is required" None)
  /\ script_exit minimal_environ Examples.quiet_transport [] []
     = Tool.Printed
         ["Connection failed: Connection timed out after 30 seconds";
          "Please check your XMPP server address and ensure it is reachable."]
  /\ script_exit minimal_environ Examples.quiet_transport
       Examples.session_starts
       [Bot.message Examples.hello; Bot.session_start Returns]
     = Tool.Printed ["Test message sent successfully!"].
Proof.
  intros script_exit. subst script_exit.
  destruct (@tool_exits Examples.example_runtime Examples.example_world ∅
              Examples.quiet_transport Examples.session_starts [])
    as (Hbad & _ & _ & _).
  destruct (@tool_exits Examples.example_runtime Examples.example_world
              minimal_environ Examples.quiet_transport [] [])
    as (_ & _ & Hslow & _).
  destruct (@tool_exits Examples.example_runtime Examples.example_world
              minimal_environ Examples.quiet_transport
              Examples.session_starts
              [Bot.message Examples.hello; Bot.session_start Returns])
    as (_ & _ & _ & Hgood).
  split; [|split].
  - destruct (Hbad (mkExc ValueError "JID is required" None)) as [-> _];
      [vm_compute; reflexivity | reflexivity].
  - rewrite (Hslow Examples.minimal_settings);
      [vm_compute; reflexivity | vm_compute; reflexivity | reflexivity
      | constructor | reflexivity].
  - destruct Hgood as [-> _];
      [vm_compute; reflexivity | repeat constructor | reflexivity | exact I
      | reflexivity].
Defined.

(** ** The errors of the public methods *)



Section ErrorSurface.
Context `{PyRuntime} `{Bot.HandlerWorld}.




End ErrorSurface.



